(** * Hospital management system: appointment capacity and billing

    A shallow embedding of the scheduling core of [Calendar.py]
    ([CalendarApp._get_day_info], [CalendarApp._get_remaining_units],
    [CalendarApp._try_book]) and of the billing estimate of
    [Patients_GUI.py] ([BillingScreen.recalc]).

    Numbers.  The modules [Calendar] and [Billing] compute on exact
    rationals ([Q]).  The unit costs (1.0, 1.5, 2.0), the multipliers
    (1.5, 2.0, 2.5) and integer capacities are dyadic, so on the values
    the booking engine itself produces the float operations of the source
    round nothing and agree with the rational ones.  [round(x, 2)] is
    embedded as rounding to the nearest hundredth, ties to even, which is
    what Python does on the exact value of its argument.  Module
    [Binary64] gives the functions that compute with floats once more, on
    doubles, with every operation rounded as IEEE 754 has it; what depends
    on the arithmetic itself is stated there.

    Strings.  [str.lower] and [str.strip] are embedded on ASCII. *)

From Stdlib Require Import ZArith QArith Qround Qabs Qminmax Qpower Lqa Lia.
From Stdlib Require Import String Ascii List.
From stdpp Require Import base decidable option list gmap strings pretty.
Import ListNotations.

Local Open Scope Z_scope.

(* ===================================================================== *)
(** ** Numbers                                                            *)
(* ===================================================================== *)

Module Num.

(** Nearest integer, ties to even. *)
Definition round_half_even (q : Q) : Z :=
  let f := Qfloor q in
  match (q - inject_Z f ?= 1 # 2)%Q with
  | Lt => f
  | Gt => f + 1
  | Eq => if Z.even f then f else f + 1
  end.

(** Python's [round(x, 2)]. *)
Definition round2 (x : Q) : Q :=
  (inject_Z (round_half_even (x * 100)) / 100)%Q.

(** Python's [max(0.0, x)]. *)
Definition max0 (x : Q) : Q := Qmax 0 x.

(** A number with at most two decimals. *)
Definition two_decimals (x : Q) : Prop := exists k : Z, (x == inject_Z k / 100)%Q.

End Num.

(* ===================================================================== *)
(** ** Strings                                                            *)
(* ===================================================================== *)

Module Str.

(** [str.lower] on one ASCII character. *)
Definition lower_ascii (c : ascii) : ascii :=
  let n := N_of_ascii c in
  if ((65 <=? n) && (n <=? 90))%N then ascii_of_N (n + 32) else c.

(** [str.lower]. *)
Fixpoint lower (s : string) : string :=
  match s with
  | EmptyString => EmptyString
  | String c s' => String (lower_ascii c) (lower s')
  end.

(** [str.isspace] on one ASCII character: tab, line feed, vertical tab,
    form feed, carriage return, the four separators 28..31 and space. *)
Definition is_space (c : ascii) : bool :=
  let n := N_of_ascii c in
  (((9 <=? n) && (n <=? 13)) || ((28 <=? n) && (n <=? 32)))%N.

(** [str.lstrip]. *)
Fixpoint lstrip (s : string) : string :=
  match s with
  | EmptyString => EmptyString
  | String c s' => if is_space c then lstrip s' else s
  end.

(** [str.rstrip]: the string is empty from here on when only white space
    is left. *)
Fixpoint rstrip (s : string) : string :=
  match s with
  | EmptyString => EmptyString
  | String c s' =>
      match rstrip s' with
      | EmptyString => if is_space c then EmptyString else String c EmptyString
      | r => String c r
      end
  end.

(** [str.strip]. *)
Definition strip (s : string) : string := rstrip (lstrip s).

(** Truth value of [x] for [x : str | None]: [None] and the empty string
    are false. *)
Definition truthy (o : option string) : bool :=
  match o with
  | Some s => negb (String.eqb s "")
  | None => false
  end.

(** [x or ""] for [x : str | None]. *)
Definition or_empty (o : option string) : string :=
  match o with
  | Some s => s
  | None => ""
  end.

(** [str(x)] for [x : str | None]. *)
Definition str (o : option string) : string :=
  match o with
  | Some s => s
  | None => "None"
  end.

(** [s.zfill(width)] for the digits of a non-negative number. *)
Definition zfill (width : nat) (s : string) : string :=
  String.concat "" (replicate (width - String.length s)%nat "0") +:+ s.

End Str.

(* ===================================================================== *)
(** ** Calendar.py                                                        *)
(* ===================================================================== *)

Module Calendar.

Import Num Str.

(** [datetime.date]. *)
Record date := Date { year : Z; month : Z; day : Z }.

#[global] Instance date_eq_dec : EqDecision date.
Proof. solve_decision. Defined.

(** [date.isoformat()]. *)
Definition isoformat (d : date) : string :=
  zfill 4 (pretty (year d)) +:+ "-" +:+ zfill 2 (pretty (month d))
    +:+ "-" +:+ zfill 2 (pretty (day d)).

(** [DURATION_TO_UNITS = {30: 1.0, 45: 1.5, 60: 2.0}]. *)
Definition DURATION_TO_UNITS : gmap Z Q :=
  {[ 30 := 1.0%Q; 45 := 1.5%Q; 60 := 2.0%Q ]}.

(** A row of [availability_df], as [load_availability] leaves it:
    [Date] parsed, [IsAvailable] a boolean, a missing note empty.
    [DailyCapacityUnits] is a column of integers, on which the [int(...)]
    of the source changes nothing. *)
Record AvailRow := {
  av_DoctorID : string;
  av_Date : date;
  av_IsAvailable : bool;
  av_DailyCapacityUnits : Z;
  av_Notes : string
}.

(** A row of [appts_df], with the columns of [load_appointments].
    [AppointmentDate] is [None] where parsing was coerced to [NaT]. *)
Record ApptRow := {
  ap_AppointmentID : string;
  ap_DoctorID : string;
  ap_DoctorName : string;
  ap_AppointmentDate : option date;
  ap_DurationMinutes : Z;
  ap_Units : Q;
  ap_PatientID : string;
  ap_PatientName : string;
  ap_Status : string;
  ap_ScheduledAt : string
}.

(** What a call of [on_confirm(duration_minutes, the_date)] does: it
    returns, or it raises an [Exception] whose text is [msg]. *)
Inductive callback_result :=
  | CbReturn
  | CbRaise (msg : string).

(** The attributes of [CalendarApp] that the booking flow reads or
    writes.  [on_confirm] is [None] when the attribute is not callable. *)
Record CalendarApp := {
  availability_df : list AvailRow;
  appts_df : list ApptRow;
  doctor_names : gmap string string;
  selected_doctor_id : option string;
  selected_patient_id : option string;
  doctor_display_name : option string;
  patient_name : option string;
  on_confirm : option (Z -> date -> callback_result)
}.

(** The rows last written to [APPTS_FILE] by [save_appointments]. *)
Record Disk := { appts_file : list ApptRow }.

(** What one call of [_try_book] reads from its environment: the clock at
    line 460 in microseconds since the epoch, the clock at line 471 as
    formatted by [strftime], and whether [to_csv] can open the file for
    writing.  When it cannot, the file is as it was; a save that fails
    later, with the file opened and so emptied, is not modelled. *)
Record Env := {
  clock_id : Z;
  clock_sched : string;
  disk_ok : bool
}.

(** The effects of the booking flow that are visible from outside. *)
Inductive event :=
  | DialogDestroy
  | ShowWarning (title text : string)
  | ShowError (title text : string)
  | ShowInfo (title text : string)
  | SaveAppointments (rows : list ApptRow)
  | OnConfirm (minutes : Z) (d : date)
  | Printed (line : string)
  | RenderMonth.

(** The reasons of section 4.4, one per early [return] of [_try_book]. *)
Inductive reason := NoDoctor | Unavailable | InvalidDuration | InsufficientCapacity.

(** How a call of [_try_book] ends: at an early [return], at the end of
    the function, or with the exception of [save_appointments]. *)
Inductive outcome :=
  | Rejected (r : reason)
  | Committed (a : ApptRow)
  | PersistenceError.

Record Result := {
  res_outcome : outcome;
  res_app : CalendarApp;
  res_disk : Disk;
  res_events : list event
}.

(** The row mask [(df["DoctorID"].astype(str) == str(doctor_id)) &
    (df["Date"] == the_date)]. *)
Definition avail_match (doctor_id : string) (the_date : date) (r : AvailRow) : bool :=
  bool_decide (av_DoctorID r = doctor_id) && bool_decide (av_Date r = the_date).

(** The row mask of [_get_remaining_units]: same doctor, same date, and a
    status that reads "booked" in lower case. *)
Definition appt_match (doctor_id : string) (the_date : date) (r : ApptRow) : bool :=
  bool_decide (ap_DoctorID r = doctor_id)
  && bool_decide (ap_AppointmentDate r = Some the_date)
  && bool_decide (lower (ap_Status r) = "booked").

(** [Series.sum()] of the [Units] column. *)
Definition sum_units (rows : list ApptRow) : Q :=
  fold_left Qplus (map ap_Units rows) 0%Q.

(** [CalendarApp._get_remaining_units]. *)
Definition _get_remaining_units (self : CalendarApp) (doctor_id : string)
    (the_date : date) (daily_units : Z) : Q :=
  let same_day := List.filter (appt_match doctor_id the_date) (appts_df self) in
  let used := match same_day with [] => 0.0%Q | _ => sum_units same_day end in
  let remaining := (inject_Z daily_units - used)%Q in
  max0 (round2 remaining).

(** The tooltip of a day button, by case; [TipAvailable] carries the
    number that is printed with [:g]. *)
Inductive tooltip :=
  | TipNoData
  | TipNotClinicDay (notes : string)
  | TipFullyBooked
  | TipAvailable (remaining_units : Q) (notes : string).

Record DayInfo := { clickable : bool; tip : tooltip }.

(** [CalendarApp._get_day_info]. *)
Definition _get_day_info (self : CalendarApp) (doctor_id : string) (the_date : date) : DayInfo :=
  let rows := List.filter (avail_match doctor_id the_date) (availability_df self) in
  match rows with
  | [] => {| clickable := false; tip := TipNoData |}
  | row :: _ =>
      let is_available := av_IsAvailable row in
      let daily_units := av_DailyCapacityUnits row in
      let notes := av_Notes row in
      let remaining_units := _get_remaining_units self doctor_id the_date daily_units in
      if negb is_available then
        {| clickable := false; tip := TipNotClinicDay notes |}
      else if Qle_bool remaining_units 0 then
        {| clickable := false; tip := TipFullyBooked |}
      else
        {| clickable := true; tip := TipAvailable remaining_units notes |}
  end.

(** [self.appts_df = pd.concat([self.appts_df, pd.DataFrame([new_row])])]:
    every other attribute is kept. *)
Definition set_appts_df (self : CalendarApp) (df : list ApptRow) : CalendarApp :=
  {| availability_df := availability_df self;
     appts_df := df;
     doctor_names := doctor_names self;
     selected_doctor_id := selected_doctor_id self;
     selected_patient_id := selected_patient_id self;
     doctor_display_name := doctor_display_name self;
     patient_name := patient_name self;
     on_confirm := on_confirm self |}.

(** The identifier of line 460: ["A-"] and the clock in whole seconds. *)
Definition make_appt_id (env : Env) : string :=
  "A-" +:+ pretty (Z.quot (clock_id env) 1000000).

(** Lines 482 to 486: the callback is called when there is one, and an
    exception it raises is printed and dropped. *)
Definition notify (self : CalendarApp) (duration_minutes : Z) (the_date : date) : list event :=
  match on_confirm self with
  | None => []
  | Some f =>
      match f duration_minutes the_date with
      | CbReturn => [OnConfirm duration_minutes the_date]
      | CbRaise e =>
          [OnConfirm duration_minutes the_date;
           Printed ("[Calendar] on_confirm callback failed: " +:+ e)]
      end
  end.

(** [CalendarApp._try_book]. *)
Definition _try_book (self : CalendarApp) (disk : Disk) (env : Env)
    (the_date : date) (duration_minutes : Z) : Result :=
  let stop r ev :=
    {| res_outcome := Rejected r; res_app := self; res_disk := disk;
       res_events := [DialogDestroy; ev] |} in
  if negb (truthy (selected_doctor_id self)) then
    stop NoDoctor (ShowWarning "Missing Doctor" "No DoctorID set. Cannot book.")
  else
  let doctor_id := str (selected_doctor_id self) in
  let rows := List.filter (avail_match doctor_id the_date) (availability_df self) in
  match rows with
  | [] => stop Unavailable (ShowError "Unavailable" "No availability data for this date.")
  | row :: _ =>
  if negb (av_IsAvailable row) then
    stop Unavailable (ShowError "Unavailable" "This date is marked unavailable.")
  else
  match DURATION_TO_UNITS !! duration_minutes with
  | None =>
    stop InvalidDuration (ShowError "Invalid duration" "Please choose 30, 45, or 60 minutes.")
  | Some units_needed =>
  let daily_units := av_DailyCapacityUnits row in
  let remaining := _get_remaining_units self doctor_id the_date daily_units in
  match (remaining ?= units_needed)%Q with
  | Lt =>
    stop InsufficientCapacity
      (ShowInfo "Fully booked" "Not enough capacity left for that duration.")
  | _ =>
  let doctor_name :=
    if truthy (doctor_display_name self) then or_empty (doctor_display_name self)
    else default doctor_id (doctor_names self !! doctor_id) in
  let new_row :=
    {| ap_AppointmentID := make_appt_id env;
       ap_DoctorID := doctor_id;
       ap_DoctorName := doctor_name;
       ap_AppointmentDate := Some the_date;
       ap_DurationMinutes := duration_minutes;
       ap_Units := units_needed;
       ap_PatientID :=
         if truthy (selected_patient_id self) then or_empty (selected_patient_id self) else "";
       ap_PatientName := or_empty (patient_name self);
       ap_Status := "Booked";
       ap_ScheduledAt := clock_sched env |} in
  let self' := set_appts_df self (appts_df self ++ [new_row]) in
  (* line 477 parses [AppointmentDate] again: the column holds dates and
     [NaT] already, and stays as it is *)
  if negb (disk_ok env) then
    {| res_outcome := PersistenceError; res_app := self'; res_disk := disk;
       res_events := [DialogDestroy] |}
  else
    {| res_outcome := Committed new_row;
       res_app := self';
       res_disk := {| appts_file := appts_df self' |};
       res_events :=
         [DialogDestroy; SaveAppointments (appts_df self')]
         ++ notify self' duration_minutes the_date
         ++ [ShowInfo "Booked"
               ("Appointment booked on " +:+ isoformat the_date +:+ " ("
                +:+ pretty duration_minutes +:+ " min).");
             RenderMonth] |}
  end
  end
  end.

(** One booking attempt as the user drives it: a date, a duration and
    what the environment answers. *)
Record Request := {
  req_date : date;
  req_duration : Z;
  req_env : Env
}.

(** A session: the requests are served one after the other, each on the
    application and the file the one before left. *)
Fixpoint run (self : CalendarApp) (disk : Disk) (reqs : list Request) : CalendarApp * Disk :=
  match reqs with
  | [] => (self, disk)
  | rq :: rest =>
      let r := _try_book self disk (req_env rq) (req_date rq) (req_duration rq) in
      run (res_app r) (res_disk r) rest
  end.

(** The outcomes of a session, in order. *)
Fixpoint outcomes (self : CalendarApp) (disk : Disk) (reqs : list Request) : list outcome :=
  match reqs with
  | [] => []
  | rq :: rest =>
      let r := _try_book self disk (req_env rq) (req_date rq) (req_duration rq) in
      res_outcome r :: outcomes (res_app r) (res_disk r) rest
  end.

End Calendar.

(* ===================================================================== *)
(** ** Patients_GUI.py: the billing estimate                              *)
(* ===================================================================== *)

Module Billing.

Import Num Str.

(** [self.time_mult = {30: 1.5, 45: 2.0, 60: 2.5}]. *)
Definition time_mult : gmap Z Q :=
  {[ 30 := 1.5%Q; 45 := 2.0%Q; 60 := 2.5%Q ]}.

(** [load_doctor_fee_map]: one pair per CSV row, the [Specialty] cell and
    the [BaseFee] cell as [float] reads it, [None] where [float] raises.
    A later row replaces an earlier one with the same key. *)
Definition load_doctor_fee_map (rows : list (string * option Q)) : gmap string Q :=
  fold_left (fun m row => <[ lower (strip (fst row)) := default 0.0%Q (snd row) ]> m) rows ∅.

(** [load_insurance_discount_map]: the key is stripped, not lowered. *)
Definition load_insurance_discount_map (rows : list (string * option Q)) : gmap string Q :=
  fold_left (fun m row => <[ strip (fst row) := default 0.0%Q (snd row) ]> m) rows ∅.

(** What [BillingScreen.recalc] reads: the doctor's dictionary (its values
    are strings), the two tables, and from the application the patient's
    [insurance] and [last_appointment_minutes]. *)
Record BillingScreen := {
  doctor_info : gmap string string;
  ins_disc_map : gmap string Q;
  doc_fee_map : gmap string Q;
  insurance : option string;
  last_appointment_minutes : option Z
}.

(** The numbers [recalc] computes and prints; [net] is also what it
    stores in [last_net_cost]. *)
Record Quote := {
  base_fee : Q;
  mins : Z;
  mult : Q;
  gross : Q;
  discount_pct : Q;
  discount_amt : Q;
  net : Q
}.

(** [mins not in (30, 45, 60)]. *)
Definition not_in_30_45_60 (m : option Z) : bool :=
  match m with
  | Some n => negb ((n =? 30) || (n =? 45) || (n =? 60))
  | None => true
  end.

(** [BillingScreen.recalc]. *)
Definition recalc (self : BillingScreen) : Quote :=
  let specialty_key := lower (strip (default "" (doctor_info self !! "Specialty"))) in
  let base_fee := default 0.0%Q (doc_fee_map self !! specialty_key) in
  let mins := last_appointment_minutes self in
  let mins := if not_in_30_45_60 mins then 30 else default 30 mins in
  let mult := default 1.0%Q (time_mult !! mins) in
  let gross := (base_fee * mult)%Q in
  let ins_id := if truthy (insurance self) then strip (str (insurance self)) else "" in
  let discount_pct :=
    if negb (String.eqb ins_id "") then default 0.0%Q (ins_disc_map self !! ins_id)
    else 0.0%Q in
  let discount_amt := (gross * (discount_pct / 100.0))%Q in
  let net := (gross - discount_amt)%Q in
  {| base_fee := base_fee; mins := mins; mult := mult; gross := gross;
     discount_pct := discount_pct; discount_amt := discount_amt; net := net |}.

End Billing.

(* ===================================================================== *)
(** ** The specification's own definitions                                *)
(* ===================================================================== *)

(** These follow the wording of the specification, not the source; the
    theorems below compare them with the functions above. *)
Module Spec.

Import Num Str Calendar Billing.

(** Section 4.1, [lookup(doctorId, date)]: the first record of the pair. *)
Definition lookup (df : list AvailRow) (doctorId : string) (d : date) : option AvailRow :=
  List.find (fun r => bool_decide (av_DoctorID r = doctorId ∧ av_Date r = d)) df.

(** A status is Booked when it reads so, in any letter case. *)
Definition is_booked (status : string) : Prop := lower status = "booked".

(** An entry counts for a pair when doctor and date match and it is
    Booked. *)
Definition counts_for (doctorId : string) (d : date) (a : ApptRow) : Prop :=
  ap_DoctorID a = doctorId ∧ ap_AppointmentDate a = Some d ∧ is_booked (ap_Status a).

#[global] Instance counts_for_dec doctorId d a : Decision (counts_for doctorId d a).
Proof. unfold counts_for, is_booked. apply _. Defined.

(** Section 4.2, [bookedUnitsFor]: the sum of [units] over the entries
    that count; 0 when there is none. *)
Fixpoint bookedUnitsFor (ledger : list ApptRow) (doctorId : string) (d : date) : Q :=
  match ledger with
  | [] => 0
  | a :: rest =>
      if decide (counts_for doctorId d a)
      then (ap_Units a + bookedUnitsFor rest doctorId d)%Q
      else bookedUnitsFor rest doctorId d
  end.

(** Section 3, [remainingUnits = max(0, round(dailyCapacityUnits -
    consumedUnits, 2))]. *)
Definition remainingUnits (dailyCapacityUnits : Z) (consumedUnits : Q) : Q :=
  Qmax 0 (round2 (inject_Z dailyCapacityUnits - consumedUnits)).

(** Section 3, the unit cost of a duration: 30 -> 1.0, 45 -> 1.5,
    60 -> 2.0. *)
Definition unit_cost (durationMinutes : Z) : option Q :=
  if durationMinutes =? 30 then Some 1.0%Q
  else if durationMinutes =? 45 then Some 1.5%Q
  else if durationMinutes =? 60 then Some 2.0%Q
  else None.

(** Section 4.4, rules 1 to 4 in their order: the reason of the first
    check that fails, [None] when all pass. *)
Definition first_failure (self : CalendarApp) (d : date) (durationMinutes : Z) : option reason :=
  match selected_doctor_id self with
  | None => Some NoDoctor
  | Some doctorId =>
      if decide (doctorId = "") then Some NoDoctor else
      match lookup (availability_df self) doctorId d with
      | None => Some Unavailable
      | Some rec =>
          if negb (av_IsAvailable rec) then Some Unavailable else
          match unit_cost durationMinutes with
          | None => Some InvalidDuration
          | Some cost =>
              let remaining :=
                remainingUnits (av_DailyCapacityUnits rec)
                  (bookedUnitsFor (appts_df self) doctorId d) in
              if Qlt_le_dec remaining cost then Some InsufficientCapacity else None
          end
      end
  end.


(** Section 8, capacity conservation, as an invariant of the ledger: the
    units booked for a pair have two decimals and stay within the day's
    capacity. *)
Definition within_budget (self : CalendarApp) (doctorId : string) (d : date) (C : Z) : Prop :=
  two_decimals (bookedUnitsFor (appts_df self) doctorId d)
  ∧ (bookedUnitsFor (appts_df self) doctorId d <= inject_Z C)%Q.

(** Section 4.5, the time multiplier: 30 -> 1.5, 45 -> 2.0, 60 -> 2.5. *)
Definition timeMultiplier (durationMinutes : Z) : option Q :=
  if durationMinutes =? 30 then Some 1.5%Q
  else if durationMinutes =? 45 then Some 2.0%Q
  else if durationMinutes =? 60 then Some 2.5%Q
  else None.

(** Section 4.5: the key under which the fee of a specialty is looked
    up, normalized for case and white space. *)
Definition specialty_key (self : BillingScreen) : string :=
  lower (strip (default "" (doctor_info self !! "Specialty"))).

(** Section 4.5: the insurance id is empty, or absent from the discount
    table. *)
Definition no_discount (self : BillingScreen) : Prop :=
  match insurance self with
  | None => True
  | Some ins => strip ins = "" ∨ ins_disc_map self !! strip ins = None
  end.

(** A duration outside {30, 45, 60}, a missing one included. *)
Definition odd_duration (self : BillingScreen) : Prop :=
  match last_appointment_minutes self with
  | None => True
  | Some D => D ≠ 30 ∧ D ≠ 45 ∧ D ≠ 60
  end.

(** An effect that only a committed booking may have: the ledger is
    saved, the caller is notified, or the user is told "Booked". *)
Definition commit_effect (e : event) : bool :=
  match e with
  | SaveAppointments _ => true
  | OnConfirm _ _ => true
  | ShowInfo title _ => String.eqb title "Booked"
  | _ => false
  end.

(** Two entries of a ledger, at different places, with one identifier. *)
Definition id_collision (ledger : list ApptRow) : Prop :=
  exists (i j : nat) a b,
    i ≠ j ∧ ledger !! i = Some a ∧ ledger !! j = Some b
    ∧ ap_AppointmentID a = ap_AppointmentID b.

End Spec.

(* ===================================================================== *)
(** ** Concrete data                                                      *)
(* ===================================================================== *)

Module Examples.

Import Calendar Billing.

Definition dec10 : date := Date 2025 12 10.
Definition dec11 : date := Date 2025 12 11.
Definition dec12 : date := Date 2025 12 12.

(** Doctor D001: two units on 10 December, four on 11 December, and no
    clinic on 12 December. *)
Definition availability : list AvailRow :=
  [ {| av_DoctorID := "D001"; av_Date := dec10; av_IsAvailable := true;
       av_DailyCapacityUnits := 2; av_Notes := "" |};
    {| av_DoctorID := "D001"; av_Date := dec11; av_IsAvailable := true;
       av_DailyCapacityUnits := 4; av_Notes := "" |};
    {| av_DoctorID := "D001"; av_Date := dec12; av_IsAvailable := false;
       av_DailyCapacityUnits := 4; av_Notes := "Conference" |} ].

(** A callback that stores what it is given, and one that fails. *)
Definition cb_store : Z -> date -> callback_result := fun _ _ => CbReturn.

Definition app_with (doctor : option string) (ledger : list ApptRow)
    (cb : option (Z -> date -> callback_result)) : CalendarApp :=
  {| availability_df := availability;
     appts_df := ledger;
     doctor_names := {[ "D001" := "Dr. Daniel Blake" ]};
     selected_doctor_id := doctor;
     selected_patient_id := Some "P001";
     doctor_display_name := Some "Dr. Daniel Blake";
     patient_name := Some "Ann Lee";
     on_confirm := cb |}.

(** A fresh session for D001 with an empty ledger. *)
Definition app0 : CalendarApp := app_with (Some "D001") [] (Some cb_store).


(** A session whose ledger already holds a 60 minute booking on
    10 December, which uses the two units of that day. *)
Definition ledger_full : list ApptRow :=
  [ {| ap_AppointmentID := "A-1765300000"; ap_DoctorID := "D001";
       ap_DoctorName := "Dr. Daniel Blake"; ap_AppointmentDate := Some dec10;
       ap_DurationMinutes := 60; ap_Units := 2.0%Q; ap_PatientID := "P002";
       ap_PatientName := "Bob Ray"; ap_Status := "Booked";
       ap_ScheduledAt := "2025-12-09 17:06:40" |} ].
Definition app_full : CalendarApp := app_with (Some "D001") ledger_full (Some cb_store).

(** A session that has no doctor. *)
Definition app_no_doctor : CalendarApp := app_with None [] (Some cb_store).

Definition disk0 : Disk := {| appts_file := [] |}.

(** Two readings of the clock within one second, and one a second
    later. *)
Definition env_a : Env :=
  {| clock_id := 1765357200100000; clock_sched := "2025-12-10 09:00:00"; disk_ok := true |}.
Definition env_b : Env :=
  {| clock_id := 1765357200900000; clock_sched := "2025-12-10 09:00:00"; disk_ok := true |}.
Definition env_c : Env :=
  {| clock_id := 1765357201100000; clock_sched := "2025-12-10 09:00:01"; disk_ok := true |}.

(** The row that a 60 minute booking on 10 December at [env_a] appends. *)
Definition booked60 : ApptRow :=
  {| ap_AppointmentID := "A-1765357200"; ap_DoctorID := "D001";
     ap_DoctorName := "Dr. Daniel Blake"; ap_AppointmentDate := Some dec10;
     ap_DurationMinutes := 60; ap_Units := 2.0%Q; ap_PatientID := "P001";
     ap_PatientName := "Ann Lee"; ap_Status := "Booked";
     ap_ScheduledAt := "2025-12-10 09:00:00" |}.

(** The two bookings of the id collision: 30 then 45 minutes on
    11 December, within one second. *)
Definition same_second : list Request :=
  [ {| req_date := dec11; req_duration := 30; req_env := env_a |};
    {| req_date := dec11; req_duration := 45; req_env := env_b |} ].

(** Scenario 1 of section 8: 60 minutes, then 30 minutes, on 10 December. *)
Definition scenario1 : list Request :=
  [ {| req_date := dec10; req_duration := 60; req_env := env_a |};
    {| req_date := dec10; req_duration := 30; req_env := env_c |} ].

(** Scenario 4 of section 8: cardiology at 200, INS1 at 20 percent,
    45 minutes. *)
Definition screen_cardiology : BillingScreen :=
  {| doctor_info := {[ "Name" := "Dr. Daniel Blake"; "Specialty" := " Cardiology " ]};
     ins_disc_map := load_insurance_discount_map [("INS1", Some 20%Q)];
     doc_fee_map := load_doctor_fee_map [("Cardiology", Some 200%Q)];
     insurance := Some "INS1";
     last_appointment_minutes := Some 45 |}.

(** Scenario 5 of section 8: a specialty that has no fee, no insurance,
    and a duration the table does not have. *)
Definition screen_unknown : BillingScreen :=
  {| doctor_info := {[ "Name" := "Dr. Nobody"; "Specialty" := "Astrology" ]};
     ins_disc_map := load_insurance_discount_map [("INS1", Some 20%Q)];
     doc_fee_map := load_doctor_fee_map [("Cardiology", Some 200%Q)];
     insurance := None;
     last_appointment_minutes := Some 50 |}.

End Examples.

(* ===================================================================== *)
(** ** Calendar.py: counting the rows of a day                            *)
(* ===================================================================== *)

Module Ledger.

Import Num Str Calendar.

(** The number of rows that [_get_remaining_units] sums for a pair. *)
Definition booked_count (ledger : list ApptRow) (doctor_id : string) (d : date) : nat :=
  length (List.filter (appt_match doctor_id d) ledger).

(** An outcome that is no rejection: the row was appended in memory. *)
Definition appended (o : outcome) : bool :=
  match o with
  | Rejected _ => false
  | _ => true
  end.

(** An outcome that is a commit. *)
Definition committed (o : outcome) : bool :=
  match o with
  | Committed _ => true
  | _ => false
  end.

End Ledger.

Module MoreExamples.

Import Calendar Examples.

(** A reading of the environment in which the file cannot be written. *)
Definition env_readonly : Env :=
  {| clock_id := 1765357200100000; clock_sched := "2025-12-10 09:00:00"; disk_ok := false |}.

(** A session of four requests, all with a file that can be written:
    45 and 30 minutes on 11 December, 50 minutes, and 60 minutes on a
    day without clinic. *)
Definition busy_session : list Request :=
  [ {| req_date := dec11; req_duration := 45; req_env := env_a |};
    {| req_date := dec11; req_duration := 30; req_env := env_c |};
    {| req_date := dec11; req_duration := 50; req_env := env_c |};
    {| req_date := dec12; req_duration := 60; req_env := env_c |} ].

(** The row that a 30 minute booking on 11 December at [env_c] appends. *)
Definition booked30 : ApptRow :=
  {| ap_AppointmentID := "A-1765357201"; ap_DoctorID := "D001";
     ap_DoctorName := "Dr. Daniel Blake"; ap_AppointmentDate := Some dec11;
     ap_DurationMinutes := 30; ap_Units := 1.0%Q; ap_PatientID := "P001";
     ap_PatientName := "Ann Lee"; ap_Status := "Booked";
     ap_ScheduledAt := "2025-12-10 09:00:01" |}.

(** The items of [doctor_names] as [load_doctor_names] returns them. *)
Definition doctor_items : list (string * string) :=
  [ ("D001", "Dr. Daniel Blake"); ("D002", "Dr. Maya Chen") ].

(** A doctor as the main window passes it: a name, no [DoctorID]. *)
Definition doctor_chen : gmap string string :=
  {[ "Name" := "Dr. Maya Chen"; "Specialty" := "Cardiology" ]}.

(** A doctor whose name is not in [Doctors.csv]. *)
Definition doctor_nobody : gmap string string :=
  {[ "Name" := "Dr. Nobody"; "Specialty" := "Astrology" ]}.

End MoreExamples.

(* ===================================================================== *)
(** ** Calendar.py: opening the calendar and drawing the month            *)
(* ===================================================================== *)

(** The attributes of a [Patient] object that the two files read or
    write.  [Pid] and [insurance] are [None] or empty until they are
    set. *)
Module PatientData.

Record Patient := {
  p_Pid : option string;
  p_Pname : string;
  p_email : string;
  p_Pnumber : string;
  p_dob : string;
  p_gender : string;
  p_Address : string;
  p_zipcode : string;
  p_ssn : string;
  p_allergies : list string;
  p_insurance : option string
}.

End PatientData.

Module CalendarUi.

Import Num Str Calendar PatientData.

Definition MONTH : Z := 12.
Definition YEAR : Z := 2025.

(** [pycal.month_name[MONTH]]. *)
Definition month_name : string := "December".

(** A day button: its text, whether its state is "normal", whether its
    background is the one of available days, whether its relief is
    "solid", the date its command books, and its tooltip, [None] for the
    empty text. *)
Record Button := {
  btn_text : string;
  btn_enabled : bool;
  btn_available_bg : bool;
  btn_solid : bool;
  btn_command : option date;
  btn_tooltip : option tooltip
}.

(** The widgets the calendar writes to. *)
Record Ui := {
  status_var : string;
  header_label : string;
  day_buttons : list (list Button)
}.

(** The button that [_build_ui] creates. *)
Definition new_button : Button :=
  {| btn_text := ""; btn_enabled := false; btn_available_bg := true;
     btn_solid := false; btn_command := None; btn_tooltip := None |}.

(** [CalendarApp._build_ui] with the initial [status_var]: six rows of
    seven buttons. *)
Definition _build_ui : Ui :=
  {| status_var := "Select a date to book.";
     header_label := month_name +:+ " " +:+ pretty YEAR;
     day_buttons := replicate 6 (replicate 7 new_button) |}.

(** The dictionary [doctor_names] is given by its items in the order of
    iteration, one item per key. *)
Definition names_of (items : list (string * string)) : gmap string string :=
  list_to_map items.

(** The loop of lines 224 to 227: the id of the first item whose name is
    the one looked for. *)
Definition id_by_name (items : list (string * string)) (name : string) : option string :=
  fst <$> List.find (fun it => bool_decide (snd it = name)) items.

(** Lines 214 to 227 of [CalendarApp.__init__]: the doctor id taken from
    the dictionary of the doctor, or found by the doctor's name. *)
Definition init_doctor_id (items : list (string * string))
    (doctor : option (gmap string string)) : option string :=
  match doctor with
  | None => None
  | Some doc =>
      if truthy (doc !! "DoctorID") then Some (str (doc !! "DoctorID"))
      else if truthy (doc !! "Name") && negb (bool_decide (items = [])) then
        id_by_name items (or_empty (doc !! "Name"))
      else None
  end.

(** [CalendarApp.__init__] up to the drawing: the attributes, from what
    the three loaders return and the arguments. *)
Definition init_attrs (availability : list AvailRow) (appts : list ApptRow)
    (items : list (string * string)) (doctor : option (gmap string string))
    (patient : option Patient) (callback : option (Z -> date -> callback_result))
    : CalendarApp :=
  {| availability_df := availability;
     appts_df := appts;
     doctor_names := names_of items;
     selected_doctor_id := init_doctor_id items doctor;
     selected_patient_id := match patient with Some p => p_Pid p | None => None end;
     doctor_display_name := match doctor with Some doc => doc !! "Name" | None => None end;
     patient_name := Some (match patient with Some p => p_Pname p | None => "" end);
     on_confirm := callback |}.

(** Reading and writing [day_buttons[r][c]]; [None] is an [IndexError]. *)
Definition grid_get (g : list (list Button)) (r c : nat) : option Button :=
  match g !! r with
  | Some row => row !! c
  | None => None
  end.

Definition grid_config (g : list (list Button)) (r c : nat) (f : Button -> Button)
    : option (list (list Button)) :=
  match g !! r with
  | Some row =>
      match row !! c with
      | Some b => Some (<[r := <[c := f b]> row]> g)
      | None => None
      end
  | None => None
  end.

(** Lines 326 to 333: text, state, background, relief and tooltip are
    reset; the command is left as it is. *)
Definition reset_button (b : Button) : Button :=
  {| btn_text := ""; btn_enabled := false; btn_available_bg := true;
     btn_solid := false; btn_command := btn_command b; btn_tooltip := None |}.

(** [for r in range(6): for c in range(7)]. *)
Definition all_cells : list (nat * nat) :=
  r ← seq 0 6; c ← seq 0 7; [(r, c)].

Fixpoint reset_cells (cells : list (nat * nat)) (g : list (list Button))
    : option (list (list Button)) :=
  match cells with
  | [] => Some g
  | (r, c) :: rest =>
      match grid_config g r c reset_button with
      | Some g' => reset_cells rest g'
      | None => None
      end
  end.

(** Lines 340 to 355: what the button of a day is configured to. *)
Definition day_button (self : CalendarApp) (doctor_id : string) (today : date)
    (day : nat) (b : Button) : Button :=
  let the_date := Date YEAR MONTH (Z.of_nat day) in
  let info := _get_day_info self doctor_id the_date in
  {| btn_text := pretty (Z.of_nat day);
     btn_enabled := clickable info;
     btn_available_bg := clickable info;
     btn_solid := if decide (the_date = today) then true else btn_solid b;
     btn_command := Some the_date;
     btn_tooltip := Some (tip info) |}.

(** The loop of lines 337 to 360 over the days that are left. *)
Fixpoint place_days (self : CalendarApp) (doctor_id : string) (today : date)
    (days : list nat) (current_row current_col : nat) (g : list (list Button))
    : option (list (list Button)) :=
  match days with
  | [] => Some g
  | day :: rest =>
      match grid_config g current_row current_col (day_button self doctor_id today day) with
      | None => None
      | Some g' =>
          let current_col := (current_col + 1)%nat in
          if (6 <? current_col)%nat
          then place_days self doctor_id today rest (current_row + 1)%nat 0%nat g'
          else place_days self doctor_id today rest current_row current_col g'
      end
  end.

(** How [_render_month] ends. *)
Inductive render_result :=
  | NotDrawn (ui : Ui)
  | IndexError
  | Drawn (ui : Ui).

(** [CalendarApp._render_month], with what [pycal.monthrange(YEAR,
    MONTH)] and [date.today()] return. *)
Definition _render_month (self : CalendarApp) (ui : Ui)
    (first_weekday num_days : nat) (today : date) : render_result :=
  if negb (truthy (selected_doctor_id self)) then
    NotDrawn {| status_var := "No DoctorID set. (Call set_context(doctor_id) from previous screen.)";
                header_label := header_label ui;
                day_buttons := day_buttons ui |}
  else
  let doctor_id := str (selected_doctor_id self) in
  match reset_cells all_cells (day_buttons ui) with
  | None => IndexError
  | Some g =>
      match place_days self doctor_id today (seq 1 num_days) 0 first_weekday g with
      | None => IndexError
      | Some g' =>
          let display_name := default doctor_id (doctor_names self !! doctor_id) in
          Drawn {| status_var :=
                     "Showing " +:+ month_name +:+ " " +:+ pretty YEAR +:+ " for " +:+ display_name;
                   header_label := header_label ui;
                   day_buttons := g' |}
      end
  end.

(** [pycal.monthrange(2025, 12)]: the first of December 2025 is a
    Monday, and the month has 31 days. *)
Definition monthrange_2025_12 : nat * nat := (0, 31)%nat.

(** A grid of six rows of seven buttons. *)
Definition six_by_seven (g : list (list Button)) : Prop :=
  length g = 6%nat /\ Forall (fun row => length row = 7%nat) g.

(** The cell of a day: days fill the rows from the column of the first
    weekday on. *)
Definition day_row (first_weekday day : nat) : nat := ((first_weekday + day - 1) / 7)%nat.
Definition day_col (first_weekday day : nat) : nat := ((first_weekday + day - 1) mod 7)%nat.

(** [self.selected_doctor_id = ...; self.selected_patient_id = ...]. *)
Definition set_selected (self : CalendarApp) (doctor_id patient_id : option string)
    : CalendarApp :=
  {| availability_df := availability_df self;
     appts_df := appts_df self;
     doctor_names := doctor_names self;
     selected_doctor_id := doctor_id;
     selected_patient_id := patient_id;
     doctor_display_name := doctor_display_name self;
     patient_name := patient_name self;
     on_confirm := on_confirm self |}.

(** [CalendarApp.set_context]. *)
Definition set_context (self : CalendarApp) (ui : Ui) (doctor_id : string)
    (patient_id : option string) (first_weekday num_days : nat) (today : date)
    : CalendarApp * render_result :=
  let self' := set_selected self (Some doctor_id) patient_id in
  let display_name :=
    if truthy (doctor_display_name self') then or_empty (doctor_display_name self')
    else default doctor_id (doctor_names self' !! doctor_id) in
  let ui' :=
    {| status_var := status_var ui;
       header_label := month_name +:+ " " +:+ pretty YEAR +:+ " — " +:+ display_name;
       day_buttons := day_buttons ui |} in
  (self', _render_month self' ui' first_weekday num_days today).

(** [CalendarApp.__init__]. *)
Definition init (availability : list AvailRow) (appts : list ApptRow)
    (items : list (string * string)) (doctor : option (gmap string string))
    (patient : option Patient) (callback : option (Z -> date -> callback_result))
    (first_weekday num_days : nat) (today : date) : CalendarApp * render_result :=
  let self := init_attrs availability appts items doctor patient callback in
  if truthy (selected_doctor_id self) then
    set_context self _build_ui (str (selected_doctor_id self)) (selected_patient_id self)
      first_weekday num_days today
  else
    (self, NotDrawn {| status_var := "No DoctorID set. (Doctor name may not match Doctors.csv.)";
                       header_label := header_label _build_ui;
                       day_buttons := day_buttons _build_ui |}).

(** [launch_calendar]: the window is made without doctor, patient or
    callback, so that [__init__] draws nothing, and the context is set
    next. *)
Definition launch_calendar (availability : list AvailRow) (appts : list ApptRow)
    (items : list (string * string)) (doctor_id : string) (patient_id : option string)
    (first_weekday num_days : nat) (today : date) : CalendarApp * render_result :=
  let self := init_attrs availability appts items None None None in
  let ui :=
    {| status_var := "No DoctorID set. (Doctor name may not match Doctors.csv.)";
       header_label := header_label _build_ui;
       day_buttons := day_buttons _build_ui |} in
  set_context self ui doctor_id patient_id first_weekday num_days today.

(** The button at a place of the grid, the places counted row by row. *)
Definition cell (g : list (list Button)) (q : nat) : option Button :=
  grid_get g (q / 7) (q mod 7).

End CalendarUi.

(* ===================================================================== *)
(** ** Patients_GUI.py: input formatting                                  *)
(* ===================================================================== *)

Module Formatting.

(** [ch.isdigit()] on one ASCII character. *)
Definition is_digit (c : ascii) : bool :=
  let n := N_of_ascii c in ((48 <=? n) && (n <=? 57))%N.

(** [digits_only]. *)
Fixpoint digits_only (s : string) : string :=
  match s with
  | EmptyString => EmptyString
  | String ch s' => if is_digit ch then String ch (digits_only s') else digits_only s'
  end.

(** The loop of [format_with_pattern]: the slices [d[i:i + g]], up to the
    group at which [i] has reached the end of [d]. *)
Fixpoint pattern_parts (d : string) (groups : list nat) (i : nat) : list string :=
  match groups with
  | [] => []
  | g :: rest =>
      if (String.length d <=? i)%nat then []
      else substring i g d :: pattern_parts d rest (i + g)
  end.

(** [format_with_pattern]; [max_len] is [None] or a length. *)
Definition format_with_pattern (digits : string) (groups : list nat) (sep : string)
    (max_len : option nat) : string :=
  let d := match max_len with
           | None => digits
           | Some m => substring 0 m digits
           end in
  String.concat sep (pattern_parts d groups 0).

(** [on_key_release] of [attach_live_formatter]: the text of the entry
    after a key is released, from the text before. *)
Definition on_key_release (groups : list nat) (max_digits : nat) (sep : string)
    (entry : string) : string :=
  let d := substring 0 max_digits (digits_only entry) in
  format_with_pattern d groups sep (Some max_digits).

(** The sum of the group sizes. *)
Definition total (groups : list nat) : nat := fold_right Nat.add 0%nat groups.

End Formatting.

(* ===================================================================== *)
(** ** Patients_GUI.py: the main window, the calendar and the bill        *)
(* ===================================================================== *)

Module Hospital.

Import Num Str Calendar Billing PatientData CalendarUi.

(** The attributes of [HospitalApp] that the booking and the billing
    read or write. *)
Record HospitalApp := {
  h_patient : Patient;
  h_last_appointment_minutes : option Z;
  h_last_appointment_date : option date
}.

(** [HospitalApp.__init__] with the patient it makes: no appointment is
    stored. *)
Definition new_app (p : Patient) : HospitalApp :=
  {| h_patient := p; h_last_appointment_minutes := None; h_last_appointment_date := None |}.

(** [HospitalApp.on_appointment_confirmed]. *)
Definition on_appointment_confirmed (self : HospitalApp) (minutes : Z) (appt_date : date)
    : HospitalApp :=
  {| h_patient := h_patient self;
     h_last_appointment_minutes := Some minutes;
     h_last_appointment_date := Some appt_date |}.

(** The bound method [self.on_appointment_confirmed] as the calendar
    sees it: a callable that returns. *)
Definition confirmed_callback : Z -> date -> callback_result := fun _ _ => CbReturn.

(** What the calls of the callback in a trace of the calendar do to the
    main window. *)
Definition deliver (self : HospitalApp) (events : list event) : HospitalApp :=
  fold_left (fun app e => match e with
                          | OnConfirm minutes d => on_appointment_confirmed app minutes d
                          | _ => app
                          end) events self.

(** [HospitalApp.show_calendar_screen], with what the loaders of the
    calendar return: [None] is the warning "No Patient". *)
Definition show_calendar_screen (self : HospitalApp) (doctor_info : gmap string string)
    (availability : list AvailRow) (appts : list ApptRow) (items : list (string * string))
    (first_weekday num_days : nat) (today : date) : option (CalendarApp * render_result) :=
  if negb (truthy (p_Pid (h_patient self))) then None
  else Some (init availability appts items (Some doctor_info) (Some (h_patient self))
               (Some confirmed_callback) first_weekday num_days today).

(** [BillingScreen] with the attributes of [save_billing_once]. *)
Record BillingFrame := {
  bf_app : HospitalApp;
  bf_screen : BillingScreen;
  saved_once : bool;
  last_net_cost : option Q;
  save_status_var : string
}.

(** [BillingScreen.__init__], with the rows of the two CSV files: the
    tables are loaded and [recalc] is called once. *)
Definition billing_init (app : HospitalApp) (doctor : gmap string string)
    (fee_rows ins_rows : list (string * option Q)) : BillingFrame :=
  let screen :=
    {| doctor_info := doctor;
       ins_disc_map := load_insurance_discount_map ins_rows;
       doc_fee_map := load_doctor_fee_map fee_rows;
       insurance := p_insurance (h_patient app);
       last_appointment_minutes := h_last_appointment_minutes app |} in
  {| bf_app := app; bf_screen := screen; saved_once := false;
     last_net_cost := Some (net (recalc screen)); save_status_var := "" |}.

(** [HospitalApp.show_billing_screen]: [None] is the warning "No
    Appointment Saved". *)
Definition show_billing_screen (self : HospitalApp) (doctor : gmap string string)
    (fee_rows ins_rows : list (string * option Q)) : option BillingFrame :=
  if not_in_30_45_60 (h_last_appointment_minutes self)
     || negb (bool_decide (is_Some (h_last_appointment_date self)))
  then None
  else Some (billing_init self doctor fee_rows ins_rows).





Inductive message :=
  | MsgInfo (title text : string)
  | MsgWarning (title text : string)
  | MsgError (title text : string).




(** What the user can press on the billing screen. *)
Inductive billing_action :=
  | Recalculate
  | SaveBillingRecord (billed_at : string) (write_ok : bool).



(** The events of a session of the calendar, in order. *)
Fixpoint session_events (self : CalendarApp) (disk : Disk) (reqs : list Request) : list event :=
  match reqs with
  | [] => []
  | rq :: rest =>
      let r := _try_book self disk (req_env rq) (req_date rq) (req_duration rq) in
      res_events r ++ session_events (res_app r) (res_disk r) rest
  end.

(** The last row of a CSV file whose key, once normalized, is [k]: the
    number of its second cell, 0.0 when the cell is no number. *)
Definition last_row_value (normalize : string -> string) (rows : list (string * option Q))
    (k : string) : option Q :=
  match List.find (fun row => bool_decide (normalize (fst row) = k)) (rev rows) with
  | Some row => Some (default 0.0%Q (snd row))
  | None => None
  end.

End Hospital.

Module HospitalExamples.

Import Calendar Billing PatientData CalendarUi Hospital Examples MoreExamples.

(** A patient who is logged in, and the main window with her. *)
Definition ann : Patient :=
  {| p_Pid := Some "P001"; p_Pname := "Ann Lee"; p_email := "ann@example.org";
     p_Pnumber := "555-867-5309"; p_dob := "01-02-1990"; p_gender := "Female";
     p_Address := "1 Main St"; p_zipcode := "12345"; p_ssn := "123-45-6789";
     p_allergies := ["Peanuts"; "Latex"]; p_insurance := Some "INS1" |}.

Definition app_ann : HospitalApp := new_app ann.

(** The doctor as the recommendation screen passes it. *)
Definition doctor_blake : gmap string string :=
  {[ "Name" := "Dr. Daniel Blake"; "Specialty" := "Cardiology";
     "Hospital" := "General Hospital" ]}.

(** The rows of [Doctor_Fees.csv] and of [Insurance_Companies.csv]. *)
Definition fee_rows : list (string * option Q) :=
  [ ("Cardiology", Some 150%Q); ("Dermatology", Some 90%Q); (" CARDIOLOGY ", Some 200%Q);
    ("Neurology", None) ].
Definition ins_rows : list (string * option Q) :=
  [ ("INS1", Some 20%Q); ("INS2", Some 35%Q) ].

(** The calendar the main window opens for her and this doctor. *)
Definition cal_ann : CalendarApp :=
  fst (init Examples.availability [] doctor_items (Some doctor_blake) (Some ann)
         (Some confirmed_callback) 0 31 dec10).

(** Presses on the billing screen: the first save fails, the second is
    taken, the third comes too late. *)
Definition presses : list billing_action :=
  [ Recalculate; SaveBillingRecord "2025-12-10 09:05:00" false; Recalculate;
    SaveBillingRecord "2025-12-10 09:06:00" true;
    SaveBillingRecord "2025-12-10 09:07:00" true ].

End HospitalExamples.

(* ===================================================================== *)
(** ** Patients_GUI.py: the patient information screen                    *)
(* ===================================================================== *)

Module PatientInfo.

Import Str PatientData Hospital.

(** The widgets and attributes of [PatientInfoScreen].  An item of
    [insurance_list] is the pair of its ["InsuranceID"] and its
    ["Insurance Company Name"]. *)
Record PatientInfoScreen := {
  allergies_list : list string;
  allergy_listbox : list string;
  allergy_entry : string;
  insurance_list : list (string * string);
  insurance_var : string;
  dob_entry : string;
  gender_var : string;
  address_entry : string;
  zip_entry : string;
  ssn_entry : string;
  info_status_var : string
}.

(** [PatientInfoScreen.preselect_insurance]: the text of the dropdown. *)
Definition preselect_insurance (insurance_list : list (string * string))
    (current_id : option string) (insurance_var : string) : string :=
  if negb (truthy current_id) then insurance_var
  else match List.find (fun item => bool_decide (fst item = str current_id)) insurance_list with
       | Some item => snd item
       | None => insurance_var
       end.

(** [PatientInfoScreen.__init__], with the list that
    [Patient.load_insurance_list] returns. *)
Definition info_init (p : Patient) (insurance_list : list (string * string))
    : PatientInfoScreen :=
  {| allergies_list := p_allergies p;
     allergy_listbox := p_allergies p;
     allergy_entry := "";
     insurance_list := insurance_list;
     insurance_var := preselect_insurance insurance_list (p_insurance p) "";
     dob_entry := p_dob p;
     gender_var := p_gender p;
     address_entry := p_Address p;
     zip_entry := p_zipcode p;
     ssn_entry := p_ssn p;
     info_status_var := "" |}.

Definition set_allergies (self : PatientInfoScreen) (l box : list string) (entry : string)
    : PatientInfoScreen :=
  {| allergies_list := l; allergy_listbox := box; allergy_entry := entry;
     insurance_list := insurance_list self; insurance_var := insurance_var self;
     dob_entry := dob_entry self; gender_var := gender_var self;
     address_entry := address_entry self; zip_entry := zip_entry self;
     ssn_entry := ssn_entry self; info_status_var := info_status_var self |}.

(** [PatientInfoScreen.add_allergy]. *)
Definition add_allergy (self : PatientInfoScreen) : PatientInfoScreen :=
  let allergy := strip (allergy_entry self) in
  if String.eqb allergy "" then self
  else if bool_decide (allergy ∈ allergies_list self) then
    set_allergies self (allergies_list self) (allergy_listbox self) ""
  else
    set_allergies self (allergies_list self ++ [allergy]) (allergy_listbox self ++ [allergy]) "".

(** [list.remove(x)]: the first element equal to [x] goes. *)
Fixpoint list_remove (x : string) (l : list string) : list string :=
  match l with
  | [] => []
  | y :: rest => if bool_decide (y = x) then rest else y :: list_remove x rest
  end.

(** How [remove_allergy] ends. *)
Inductive remove_outcome := NothingSelected | Removed | RemoveIndexError.

(** [PatientInfoScreen.remove_allergy], with what [curselection()]
    returns.  Deleting a line that the listbox does not have changes
    nothing. *)
Definition remove_allergy (self : PatientInfoScreen) (selection : list nat)
    : PatientInfoScreen * remove_outcome :=
  match selection with
  | [] => (self, NothingSelected)
  | index :: _ =>
      match allergies_list self !! index with
      | None => (self, RemoveIndexError)
      | Some allergy_to_remove =>
          (set_allergies self (list_remove allergy_to_remove (allergies_list self))
             (delete index (allergy_listbox self)) (allergy_entry self),
           Removed)
      end
  end.

(** What the user does with the allergies: type, add, or select a line
    of the listbox and remove. *)
Inductive allergy_action :=
  | TypeAllergy (text : string)
  | AddAllergy
  | RemoveAllergy (selection : list nat).

Definition allergy_step (self : PatientInfoScreen) (a : allergy_action) : PatientInfoScreen :=
  match a with
  | TypeAllergy text =>
      set_allergies self (allergies_list self) (allergy_listbox self) text
  | AddAllergy => add_allergy self
  | RemoveAllergy selection => fst (remove_allergy self selection)
  end.

(** The listbox shows the list, and the list has no allergy twice. *)
Definition in_step (self : PatientInfoScreen) : Prop :=
  allergy_listbox self = allergies_list self /\ NoDup (allergies_list self).

(** The effects of [save_patient_info] outside the screen. *)
Inductive save_event :=
  | SaveMessage (m : message)
  | SnapshotSaved (p : Patient)
  | LoginRecordSaved (p : Patient).

Section Save.

(** [Patient.validate_dob_format] and [Patient.validate_zip_format]. *)
Variable validate_dob_format : string -> bool.
Variable validate_zip_format : string -> bool.

(** The insurance id that [save_patient_info] leaves in the patient. *)
Definition saved_insurance (self : PatientInfoScreen) (p : Patient) : option string :=
  let selected_name := strip (insurance_var self) in
  if String.eqb selected_name "" then p_insurance p
  else match List.find (fun item => bool_decide (snd item = selected_name))
                       (insurance_list self) with
       | Some item => Some (fst item)
       | None => p_insurance p
       end.

(** [PatientInfoScreen.save_patient_info]: the patient, the text of the
    status line and the effects. *)
Definition save_patient_info (self : PatientInfoScreen) (p : Patient)
    : Patient * string * list save_event :=
  let dob := strip (dob_entry self) in
  let zipcode := strip (zip_entry self) in
  if negb (String.eqb dob "") && negb (validate_dob_format dob) then
    (p, info_status_var self, [SaveMessage (MsgError "Error" "DOB must be MM-DD-YYYY.")])
  else if negb (String.eqb zipcode "") && negb (validate_zip_format zipcode) then
    (p, info_status_var self, [SaveMessage (MsgError "Error" "Zip Code must be 5 digits.")])
  else
    let p' :=
      {| p_Pid := p_Pid p; p_Pname := p_Pname p; p_email := p_email p;
         p_Pnumber := p_Pnumber p;
         p_dob := dob;
         p_gender := strip (gender_var self);
         p_Address := strip (address_entry self);
         p_zipcode := zipcode;
         p_ssn := strip (ssn_entry self);
         p_allergies := allergies_list self;
         p_insurance := saved_insurance self p |} in
    (p', "Patient information saved.",
     [SnapshotSaved p'; LoginRecordSaved p';
      SaveMessage (MsgInfo "Saved" "Patient information saved successfully.")]).

End Save.

(** The user picks a line of the insurance dropdown. *)
Definition choose_insurance (self : PatientInfoScreen) (name : string) : PatientInfoScreen :=
  {| allergies_list := allergies_list self; allergy_listbox := allergy_listbox self;
     allergy_entry := allergy_entry self;
     insurance_list := insurance_list self; insurance_var := name;
     dob_entry := dob_entry self; gender_var := gender_var self;
     address_entry := address_entry self; zip_entry := zip_entry self;
     ssn_entry := ssn_entry self; info_status_var := info_status_var self |}.

End PatientInfo.

(* ===================================================================== *)
(** ** Patients_GUI.py: the symptoms screen                               *)
(* ===================================================================== *)

Module SymptomsUi.

Import Str Hospital.

(** The attributes of [SymptomsScreen] and its listbox: the lines and the
    indices that are selected, in the order [curselection()] gives. *)
Record SymptomsScreen := {
  all_symptom_data : gmap string (list string);
  selected_symptoms : gmap string (list string);
  current_category : option string;
  symptom_title : string;
  symptom_listbox : list string;
  listbox_selection : list nat
}.

(** [SymptomsScreen.__init__]: an empty selection for every category. *)
Definition symptoms_init (all_symptom_data : gmap string (list string)) : SymptomsScreen :=
  {| all_symptom_data := all_symptom_data;
     selected_symptoms := (fun _ => []) <$> all_symptom_data;
     current_category := None;
     symptom_title := "";
     symptom_listbox := [];
     listbox_selection := [] |}.

(** The loop of lines 712 to 714: the indices, from [idx] on, of the
    symptoms that were selected before. *)
Fixpoint select_previous (idx : nat) (symptoms previously_selected : list string) : list nat :=
  match symptoms with
  | [] => []
  | s :: rest =>
      if bool_decide (s ∈ previously_selected)
      then idx :: select_previous (S idx) rest previously_selected
      else select_previous (S idx) rest previously_selected
  end.

(** How a method of the screen ends. *)
Inductive screen_outcome := Done | RaisedKeyError | RaisedIndexError.

(** [SymptomsScreen.open_symptom_page]. *)
Definition open_symptom_page (self : SymptomsScreen) (category_name : string)
    : SymptomsScreen * screen_outcome :=
  let with_listbox lines selection :=
    {| all_symptom_data := all_symptom_data self;
       selected_symptoms := selected_symptoms self;
       current_category := Some category_name;
       symptom_title := "Symptoms: " +:+ category_name;
       symptom_listbox := lines;
       listbox_selection := selection |} in
  match all_symptom_data self !! category_name with
  | None => (with_listbox [] [], RaisedKeyError)
  | Some symptoms =>
      let previously_selected := default [] (selected_symptoms self !! category_name) in
      (with_listbox symptoms (select_previous 0 symptoms previously_selected), Done)
  end.

(** The user selects lines of the listbox. *)
Definition user_selects (self : SymptomsScreen) (selection : list nat) : SymptomsScreen :=
  {| all_symptom_data := all_symptom_data self;
     selected_symptoms := selected_symptoms self;
     current_category := current_category self;
     symptom_title := symptom_title self;
     symptom_listbox := symptom_listbox self;
     listbox_selection := selection |}.

(** [[symptoms[i] for i in chosen_indices]]; [None] is an [IndexError]. *)
Fixpoint pick (symptoms : list string) (chosen_indices : list nat) : option (list string) :=
  match chosen_indices with
  | [] => Some []
  | i :: rest =>
      match symptoms !! i, pick symptoms rest with
      | Some s, Some chosen => Some (s :: chosen)
      | _, _ => None
      end
  end.

(** [SymptomsScreen.save_current_category_selections]: the screen and
    the message it shows. *)
Definition save_current_category_selections (self : SymptomsScreen)
    : SymptomsScreen * screen_outcome * list message :=
  if negb (truthy (current_category self)) then (self, Done, [])
  else
  let category := str (current_category self) in
  match all_symptom_data self !! category with
  | None => (self, RaisedKeyError, [])
  | Some symptoms =>
      match pick symptoms (listbox_selection self) with
      | None => (self, RaisedIndexError, [])
      | Some chosen =>
          ({| all_symptom_data := all_symptom_data self;
              selected_symptoms := <[ category := chosen ]> (selected_symptoms self);
              current_category := current_category self;
              symptom_title := symptom_title self;
              symptom_listbox := symptom_listbox self;
              listbox_selection := listbox_selection self |},
           Done,
           [MsgInfo "Saved"
              ("Saved " +:+ pretty (length chosen) +:+ " symptom(s) for this category.")])
      end
  end.

(** Indices in ascending order, none below [k]. *)
Fixpoint ascending_from (k : nat) (selection : list nat) : Prop :=
  match selection with
  | [] => True
  | i :: rest => (k <= i)%nat /\ ascending_from (S i) rest
  end.

(** A selection as the listbox gives it: indices of its lines, in
    ascending order. *)
Definition valid_selection (lines : list string) (selection : list nat) : Prop :=
  ascending_from 0 selection /\ Forall (fun i => (i < length lines)%nat) selection.

End SymptomsUi.

Module ScreenExamples.

Import PatientData Hospital HospitalExamples PatientInfo SymptomsUi.

(** The companies of [Insurance_Companies.csv]. *)
Definition companies : list (string * string) :=
  [ ("INS1", "Acme Health"); ("INS2", "Blue Shield"); ("INS3", "Care Plus") ].

(** Adding, typing and removing allergies. *)
Definition allergy_session : list allergy_action :=
  [ TypeAllergy " Pollen "; AddAllergy; TypeAllergy "Latex"; AddAllergy;
    RemoveAllergy [0%nat]; TypeAllergy "   "; AddAllergy; RemoveAllergy [7%nat] ].

(** Two categories of symptoms. *)
Definition symptom_data : gmap string (list string) :=
  {[ "Respiratory" := ["Cough"; "Wheezing"; "Shortness of breath"];
     "Skin" := ["Rash"; "Itching"] ]}.

End ScreenExamples.

(* ===================================================================== *)
(** ** The numbers of the source: doubles                                 *)
(* ===================================================================== *)

(** Python's [float] is the binary64 format of IEEE 754.  A double is
    modelled by the rational number it denotes, and every operation of
    the source by the exact operation followed by [rnd], which returns
    the double nearest to its argument, ties to the even mantissa:
    53 bits of precision, least exponent -1074, so that subnormal numbers
    are included.  Overflow is left out: beyond 2^1024, where the source
    gets [inf], [rnd] goes on rounding to 53 bits.

    The functions of [Calendar.py] and [Patients_GUI.py] that compute
    with floats are given again over doubles.  The modules [Calendar] and
    [Billing] above compute on exact rationals; the two agree where no
    operation rounds (lemmas [DoubleFacts.remaining_exact] and
    [DoubleFacts.try_book_exact] below). *)
Module Binary64.

Import Num Str Calendar Billing.
Local Open Scope Q_scope.

(** The integer [k] with [2^k <= x < 2^(k+1)], for [x > 0]. *)
Definition ilog2 (x : Q) : Z :=
  if Qle_bool 1 x then Z.log2 (Qfloor x) else (- Z.log2_up (Qceiling (/ x)))%Z.

(** [2^e], for any integer [e]. *)
Definition pow2 (e : Z) : Q := 2 ^ e.

(** The exponent of the last bit of the double nearest to [x]. *)
Definition ulp_exponent (x : Q) : Z := Z.max (-1074) (ilog2 (Qabs x) - 52).

(** The double nearest to [x], ties to even. *)
Definition rnd (x : Q) : Q :=
  if Qeq_bool x 0 then 0
  else
    let e := ulp_exponent x in
    inject_Z (round_half_even (x / pow2 e)) * pow2 e.

(** [x + y], [x - y], [x * y] and [x / y] on floats. *)
Definition fadd (x y : Q) : Q := rnd (x + y).
Definition fsub (x y : Q) : Q := rnd (x - y).
Definition fmul (x y : Q) : Q := rnd (x * y).
Definition fdiv (x y : Q) : Q := rnd (x / y).

(** [float(n)] for an integer, and what a float column or [float(text)]
    makes of a number written in decimal. *)
Definition of_int (n : Z) : Q := rnd (inject_Z n).
Definition of_decimal (x : Q) : Q := rnd x.

(** [round(x, 2)] on a float: the exact value of [x] is rounded to the
    nearest hundredth, ties to even, and the double nearest to that is
    returned. *)
Definition fround2 (x : Q) : Q := rnd (round2 x).

(** [Series.sum()] of the [Units] column, a column of doubles: the values
    are added one after the other, from 0.0.  (For eight values and more
    numpy adds in another order; where no sum rounds the order is
    immaterial.) *)
Definition sum_units (rows : list ApptRow) : Q :=
  fold_left (fun acc r => fadd acc (of_decimal (ap_Units r))) rows 0.

(** [CalendarApp._get_remaining_units], lines 391 to 400. *)
Definition _get_remaining_units (self : CalendarApp) (doctor_id : string)
    (the_date : date) (daily_units : Z) : Q :=
  let same_day := List.filter (appt_match doctor_id the_date) (appts_df self) in
  let used := match same_day with [] => 0.0 | _ => sum_units same_day end in
  let remaining := fsub (of_int daily_units) used in
  max0 (fround2 remaining).

(** [CalendarApp._try_book], lines 422 to 489: the flow of
    [Calendar._try_book], with the remaining units computed on doubles. *)
Definition _try_book (self : CalendarApp) (disk : Disk) (env : Env)
    (the_date : date) (duration_minutes : Z) : Result :=
  let stop r ev :=
    {| res_outcome := Rejected r; res_app := self; res_disk := disk;
       res_events := [DialogDestroy; ev] |} in
  if negb (truthy (selected_doctor_id self)) then
    stop NoDoctor (ShowWarning "Missing Doctor" "No DoctorID set. Cannot book.")
  else
  let doctor_id := str (selected_doctor_id self) in
  let rows := List.filter (avail_match doctor_id the_date) (availability_df self) in
  match rows with
  | [] => stop Unavailable (ShowError "Unavailable" "No availability data for this date.")
  | row :: _ =>
  if negb (av_IsAvailable row) then
    stop Unavailable (ShowError "Unavailable" "This date is marked unavailable.")
  else
  match DURATION_TO_UNITS !! duration_minutes with
  | None =>
    stop InvalidDuration (ShowError "Invalid duration" "Please choose 30, 45, or 60 minutes.")
  | Some units_needed =>
  let daily_units := av_DailyCapacityUnits row in
  let remaining := _get_remaining_units self doctor_id the_date daily_units in
  match (remaining ?= units_needed)%Q with
  | Lt =>
    stop InsufficientCapacity
      (ShowInfo "Fully booked" "Not enough capacity left for that duration.")
  | _ =>
  let doctor_name :=
    if truthy (doctor_display_name self) then or_empty (doctor_display_name self)
    else default doctor_id (doctor_names self !! doctor_id) in
  let new_row :=
    {| ap_AppointmentID := make_appt_id env;
       ap_DoctorID := doctor_id;
       ap_DoctorName := doctor_name;
       ap_AppointmentDate := Some the_date;
       ap_DurationMinutes := duration_minutes;
       ap_Units := units_needed;
       ap_PatientID :=
         if truthy (selected_patient_id self) then or_empty (selected_patient_id self) else "";
       ap_PatientName := or_empty (patient_name self);
       ap_Status := "Booked";
       ap_ScheduledAt := clock_sched env |} in
  let self' := set_appts_df self (appts_df self ++ [new_row]) in
  if negb (disk_ok env) then
    {| res_outcome := PersistenceError; res_app := self'; res_disk := disk;
       res_events := [DialogDestroy] |}
  else
    {| res_outcome := Committed new_row;
       res_app := self';
       res_disk := {| appts_file := appts_df self' |};
       res_events :=
         [DialogDestroy; SaveAppointments (appts_df self')]
         ++ notify self' duration_minutes the_date
         ++ [ShowInfo "Booked"
               ("Appointment booked on " +:+ isoformat the_date +:+ " ("
                +:+ pretty duration_minutes +:+ " min).");
             RenderMonth] |}
  end
  end
  end.

(** [BillingScreen.recalc], lines 928 to 959.  The two tables hold what
    [float] made of their cells; the multipliers 1.5, 2.0 and 2.5 are
    doubles as they stand. *)
Definition recalc (self : BillingScreen) : Quote :=
  let specialty_key := lower (strip (default "" (doctor_info self !! "Specialty"))) in
  let base_fee := of_decimal (default 0.0 (doc_fee_map self !! specialty_key)) in
  let mins := last_appointment_minutes self in
  let mins := if not_in_30_45_60 mins then 30%Z else default 30%Z mins in
  let mult := default 1.0 (time_mult !! mins) in
  let gross := fmul base_fee mult in
  let ins_id := if truthy (insurance self) then strip (str (insurance self)) else "" in
  let discount_pct :=
    if negb (String.eqb ins_id "")
    then of_decimal (default 0.0 (ins_disc_map self !! ins_id))
    else 0.0 in
  let discount_amt := fmul gross (fdiv discount_pct 100.0) in
  let net := fsub gross discount_amt in
  {| base_fee := base_fee; mins := mins; mult := mult; gross := gross;
     discount_pct := discount_pct; discount_amt := discount_amt; net := net |}.

End Binary64.

(** What the theorems on doubles speak of. *)
Module Doubles.

Import Num Str Calendar Billing Spec.
Local Open Scope Q_scope.






End Doubles.

Module DoubleExamples.

Import Calendar Billing Examples.








End DoubleExamples.

(* ===================================================================== *)
(** ** Facts about rounding                                               *)
(* ===================================================================== *)

Module NumFacts.

Import Num.
Local Open Scope Q_scope.

Lemma Qfloor_unique (q : Q) (n : Z) :
  inject_Z n <= q -> q < inject_Z (n + 1) -> Qfloor q = n.
Proof.
  intros Hlo Hhi.
  pose proof (Qfloor_le q) as Hf1.
  pose proof (Qlt_floor q) as Hf2.
  assert (H1 : inject_Z n < inject_Z (Qfloor q + 1)) by lra.
  assert (H2 : inject_Z (Qfloor q) < inject_Z (n + 1)) by lra.
  rewrite <- Zlt_Qlt in H1, H2. lia.
Qed.

Lemma Qfloor_add_Z (q : Q) (k : Z) : Qfloor (q + inject_Z k) = (Qfloor q + k)%Z.
Proof.
  apply Qfloor_unique.
  - rewrite inject_Z_plus. pose proof (Qfloor_le q). lra.
  - replace (Qfloor q + k + 1)%Z with ((Qfloor q + 1) + k)%Z by lia.
    rewrite inject_Z_plus. pose proof (Qlt_floor q). lra.
Qed.

#[global] Instance round_half_even_comp : Proper (Qeq ==> eq) round_half_even.
Proof.
  intros x y Hxy. unfold round_half_even.
  rewrite (Qfloor_comp x y Hxy).
  assert (Hc : (x - inject_Z (Qfloor y) ?= 1 # 2) = (y - inject_Z (Qfloor y) ?= 1 # 2)).
  { apply Qcompare_comp; [rewrite Hxy|]; reflexivity. }
  rewrite Hc. reflexivity.
Qed.

Lemma round_half_even_Z (n : Z) : round_half_even (inject_Z n) = n.
Proof.
  unfold round_half_even. rewrite Qfloor_Z.
  assert (Hc : (inject_Z n - inject_Z n ?= 1 # 2) = Lt).
  { rewrite <- Qlt_alt. lra. }
  rewrite Hc. reflexivity.
Qed.

Lemma round_half_even_add_even (q : Q) (k : Z) :
  round_half_even (q + inject_Z (2 * k)) = (round_half_even q + 2 * k)%Z.
Proof.
  unfold round_half_even. rewrite Qfloor_add_Z.
  assert (Hc : (q + inject_Z (2 * k) - inject_Z (Qfloor q + 2 * k) ?= 1 # 2)
               = (q - inject_Z (Qfloor q) ?= 1 # 2)).
  { apply Qcompare_comp; [|reflexivity]. rewrite inject_Z_plus. ring. }
  rewrite Hc.
  replace (Z.even (Qfloor q + 2 * k)) with (Z.even (Qfloor q))
    by (rewrite Z.even_add_mul_2; reflexivity).
  destruct (q - inject_Z (Qfloor q) ?= 1 # 2); [destruct (Z.even (Qfloor q))| |]; lia.
Qed.

(** The rounded integer is within one half of its argument. *)
Lemma round_half_even_error (q : Q) :
  q - (1 # 2) <= inject_Z (round_half_even q) <= q + (1 # 2).
Proof.
  unfold round_half_even.
  pose proof (Qfloor_le q) as Hf1.
  pose proof (Qlt_floor q) as Hf2.
  rewrite inject_Z_plus in Hf2. change (inject_Z 1) with 1 in Hf2.
  destruct (q - inject_Z (Qfloor q) ?= 1 # 2) eqn:Hc.
  - apply Qeq_alt in Hc.
    destruct (Z.even (Qfloor q)); rewrite ?inject_Z_plus;
      change (inject_Z 1) with 1; lra.
  - apply Qlt_alt in Hc. lra.
  - apply Qgt_alt in Hc. rewrite inject_Z_plus. change (inject_Z 1) with 1. lra.
Qed.

#[global] Instance round2_comp : Proper (Qeq ==> Qeq) round2.
Proof. intros x y Hxy. unfold round2. rewrite Hxy. reflexivity. Qed.

#[global] Instance max0_comp : Proper (Qeq ==> Qeq) max0.
Proof. intros x y Hxy. unfold max0. rewrite Hxy. reflexivity. Qed.

(** [round(x, 2)] is a number with two decimals, [0.005] away from [x]
    at most. *)
Lemma round2_two_decimals (x : Q) : two_decimals (round2 x).
Proof. exists (round_half_even (x * 100)). reflexivity. Qed.

Lemma round2_error (x : Q) : Qabs (round2 x - x) <= 1 # 200.
Proof.
  unfold round2. pose proof (round_half_even_error (x * 100)) as [H1 H2].
  set (r := inject_Z (round_half_even (x * 100))) in *.
  assert (E : r / 100 == r * (1 # 100)) by field.
  rewrite E. apply Qabs_case; intros _; lra.
Qed.

(** On a number with two decimals, [round(x, 2)] changes nothing. *)
Lemma round2_exact (x : Q) : two_decimals x -> round2 x == x.
Proof.
  intros [k Hk]. unfold round2.
  assert (H : x * 100 == inject_Z k) by (rewrite Hk; field).
  rewrite H, round_half_even_Z, Hk. reflexivity.
Qed.

(** An even number of hundredths goes through [round(x, 2)]. *)
Lemma round2_sub_even (x : Q) (k : Z) :
  round2 (x - inject_Z (2 * k) / 100) == round2 x - inject_Z (2 * k) / 100.
Proof.
  unfold round2.
  assert (H : (x - inject_Z (2 * k) / 100) * 100 == x * 100 + inject_Z (2 * (- k))).
  { replace (2 * - k)%Z with (- (2 * k))%Z by lia. rewrite inject_Z_opp. field. }
  rewrite H, round_half_even_add_even, inject_Z_plus.
  replace (2 * - k)%Z with (- (2 * k))%Z by lia. rewrite inject_Z_opp. field.
Qed.



Lemma max0_ge_pos (x u : Q) : 0 < u -> u <= max0 x -> u <= x.
Proof.
  intros Hu H. unfold max0 in H.
  destruct (Q.max_spec 0 x) as [[_ E]|[_ E]]; rewrite E in H; lra.
Qed.

Lemma two_decimals_comp (x y : Q) : x == y -> two_decimals x -> two_decimals y.
Proof. intros E [k Hk]. exists k. rewrite <- E. exact Hk. Qed.

Lemma two_decimals_Z (n : Z) : two_decimals (inject_Z n).
Proof. exists (100 * n)%Z. rewrite inject_Z_mult. field. Qed.

Lemma two_decimals_plus (x y : Q) : two_decimals x -> two_decimals y -> two_decimals (x + y).
Proof.
  intros [k Hk] [j Hj]. exists (k + j)%Z. rewrite inject_Z_plus, Hk, Hj. field.
Qed.

Lemma two_decimals_minus (x y : Q) : two_decimals x -> two_decimals y -> two_decimals (x - y).
Proof.
  intros [k Hk] [j Hj]. exists (k - j)%Z.
  unfold Z.sub. rewrite inject_Z_plus, inject_Z_opp, Hk, Hj. field.
Qed.

End NumFacts.

(* ===================================================================== *)
(** ** Facts about the ledger and the booking flow                        *)
(* ===================================================================== *)

Module CalendarFacts.

Import Num Str Calendar Spec NumFacts.
Local Open Scope Q_scope.

#[local] Arguments Qcompare : simpl never.
#[local] Arguments _get_remaining_units : simpl never.

(** *** Sums of units *)

Lemma fold_Qplus_shift (l : list Q) (a : Q) :
  fold_left Qplus l a == a + fold_left Qplus l 0.
Proof.
  revert a. induction l as [|x l IH]; intros a; simpl.
  - ring.
  - rewrite (IH (a + x)), (IH (0 + x)). ring.
Qed.

Lemma sum_units_cons (a : ApptRow) (l : list ApptRow) :
  sum_units (a :: l) == ap_Units a + sum_units l.
Proof.
  unfold sum_units. simpl. rewrite fold_Qplus_shift. ring.
Qed.

(** The mask of the source is the specification's "counts for". *)
Lemma appt_match_counts (doctor_id : string) (d : date) (a : ApptRow) :
  appt_match doctor_id d a = bool_decide (counts_for doctor_id d a).
Proof.
  unfold appt_match, counts_for, is_booked.
  destruct (decide (ap_DoctorID a = doctor_id)) as [H1|H1];
    destruct (decide (ap_AppointmentDate a = Some d)) as [H2|H2];
    destruct (decide (lower (ap_Status a) = "booked"%string)) as [H3|H3];
    repeat case_bool_decide; simpl; try reflexivity; tauto.
Qed.

(** Filtering then summing, with the guard on the empty frame, is
    [bookedUnitsFor]. *)
Lemma sum_filter_booked (ledger : list ApptRow) (doctor_id : string) (d : date) :
  sum_units (List.filter (appt_match doctor_id d) ledger)
  == bookedUnitsFor ledger doctor_id d.
Proof.
  induction ledger as [|a l IH]; simpl.
  - reflexivity.
  - rewrite appt_match_counts. destruct (decide (counts_for doctor_id d a)) as [Hc|Hc].
    + rewrite bool_decide_eq_true_2 by exact Hc.
      rewrite sum_units_cons, IH. reflexivity.
    + rewrite bool_decide_eq_false_2 by exact Hc. exact IH.
Qed.

Lemma used_booked (ledger : list ApptRow) (doctor_id : string) (d : date) :
  match List.filter (appt_match doctor_id d) ledger with
  | [] => 0.0
  | _ => sum_units (List.filter (appt_match doctor_id d) ledger)
  end == bookedUnitsFor ledger doctor_id d.
Proof.
  rewrite <- sum_filter_booked.
  destruct (List.filter (appt_match doctor_id d) ledger); reflexivity.
Qed.

Lemma bookedUnitsFor_app (l1 l2 : list ApptRow) (doctor_id : string) (d : date) :
  bookedUnitsFor (l1 ++ l2) doctor_id d
  == bookedUnitsFor l1 doctor_id d + bookedUnitsFor l2 doctor_id d.
Proof.
  induction l1 as [|a l IH]; simpl.
  - ring.
  - destruct (decide (counts_for doctor_id d a)); rewrite IH; ring.
Qed.

Lemma bookedUnitsFor_no_match (ledger : list ApptRow) (doctor_id : string) (d : date) :
  (forall a, In a ledger -> ~ counts_for doctor_id d a) ->
  bookedUnitsFor ledger doctor_id d == 0.
Proof.
  induction ledger as [|a l IH]; intros H; simpl.
  - reflexivity.
  - destruct (decide (counts_for doctor_id d a)) as [Hc|Hc].
    + exfalso. apply (H a); [left; reflexivity | exact Hc].
    + apply IH. intros b Hb. apply H. right. exact Hb.
Qed.

(** *** Remaining units *)

Lemma get_remaining_units_spec (self : CalendarApp) (doctor_id : string)
    (d : date) (daily_units : Z) :
  _get_remaining_units self doctor_id d daily_units
  == remainingUnits daily_units (bookedUnitsFor (appts_df self) doctor_id d).
Proof.
  unfold _get_remaining_units, remainingUnits, max0.
  rewrite used_booked. reflexivity.
Qed.

Lemma remainingUnits_comp (c : Z) (x y : Q) :
  x == y -> remainingUnits c x == remainingUnits c y.
Proof. intros E. unfold remainingUnits. rewrite E. reflexivity. Qed.

(** *** The availability record *)

Lemma avail_rows_lookup (df : list AvailRow) (doctor_id : string) (d : date) :
  head (List.filter (avail_match doctor_id d) df) = lookup df doctor_id d.
Proof.
  unfold lookup. induction df as [|r l IH]; simpl.
  - reflexivity.
  - unfold avail_match at 1.
    destruct (decide (av_DoctorID r = doctor_id)) as [H1|H1];
      destruct (decide (av_Date r = d)) as [H2|H2];
      repeat case_bool_decide; simpl; try reflexivity; try tauto; exact IH.
Qed.

Lemma avail_rows_cases (df : list AvailRow) (doctor_id : string) (d : date) :
  match lookup df doctor_id d with
  | None => List.filter (avail_match doctor_id d) df = []
  | Some rec => exists rest, List.filter (avail_match doctor_id d) df = rec :: rest
  end.
Proof.
  rewrite <- avail_rows_lookup.
  destruct (List.filter (avail_match doctor_id d) df) as [|r rest]; simpl; eauto.
Qed.

(** *** The table of unit costs *)

Lemma DURATION_TO_UNITS_unit_cost (D : Z) : DURATION_TO_UNITS !! D = unit_cost D.
Proof.
  unfold DURATION_TO_UNITS, unit_cost.
  destruct (Z.eqb_spec D 30) as [->|H30]; [reflexivity|].
  rewrite lookup_insert_ne by congruence.
  destruct (Z.eqb_spec D 45) as [->|H45]; [reflexivity|].
  rewrite lookup_insert_ne by congruence.
  destruct (Z.eqb_spec D 60) as [->|H60]; [reflexivity|].
  apply lookup_singleton_ne. congruence.
Qed.

Lemma unit_cost_cases (D : Z) (cost : Q) :
  unit_cost D = Some cost ->
  (D = 30%Z /\ cost = 1.0) \/ (D = 45%Z /\ cost = 1.5) \/ (D = 60%Z /\ cost = 2.0).
Proof.
  unfold unit_cost.
  destruct (Z.eqb_spec D 30); [intros [= <-]; auto|].
  destruct (Z.eqb_spec D 45); [intros [= <-]; auto|].
  destruct (Z.eqb_spec D 60); [intros [= <-]; auto 6|].
  discriminate.
Qed.

Lemma unit_cost_pos (D : Z) (cost : Q) : unit_cost D = Some cost -> 0 < cost.
Proof.
  intros H. destruct (unit_cost_cases D cost H) as [[_ ->]|[[_ ->]|[_ ->]]]; reflexivity.
Qed.

(** Every unit cost is an even number of hundredths. *)
Lemma unit_cost_even_hundredths (D : Z) (cost : Q) :
  unit_cost D = Some cost -> exists k : Z, cost == inject_Z (2 * k) / 100.
Proof.
  intros H. destruct (unit_cost_cases D cost H) as [[_ ->]|[[_ ->]|[_ ->]]].
  - exists 50%Z. reflexivity.
  - exists 75%Z. reflexivity.
  - exists 100%Z. reflexivity.
Qed.

Lemma truthy_Some (o : option string) :
  truthy o = true <-> exists s, o = Some s /\ s <> ""%string.
Proof.
  destruct o as [s|]; simpl.
  - destruct (String.eqb_spec s ""); simpl; split.
    + discriminate.
    + intros (s' & [= <-] & Hne). contradiction.
    + eauto.
    + reflexivity.
  - split; [discriminate | intros (s & [=] & _)].
Qed.


(** *** The booking flow, by cases of the first failing check *)

(** The comparison of line 449 against the specification's remaining
    units. *)
Lemma capacity_check (self : CalendarApp) (doctor_id : string) (d : date)
    (daily_units : Z) (cost : Q) :
  (_get_remaining_units self doctor_id d daily_units ?= cost)
  = (remainingUnits daily_units (bookedUnitsFor (appts_df self) doctor_id d) ?= cost).
Proof.
  apply Qcompare_comp; [apply get_remaining_units_spec | reflexivity].
Qed.

(** A request that fails a check is answered by one message box and
    changes nothing. *)
Lemma try_book_rejected (self : CalendarApp) (disk : Disk) (env : Env)
    (d : date) (D : Z) (why : reason) :
  first_failure self d D = Some why ->
  exists ev,
    _try_book self disk env d D
    = {| res_outcome := Rejected why; res_app := self; res_disk := disk;
         res_events := [DialogDestroy; ev] |}
    /\ commit_effect ev = false.
Proof.
  unfold first_failure, _try_book.
  destruct (selected_doctor_id self) as [doctor_id|]; simpl.
  2: { intros [= <-]. eexists. split; reflexivity. }
  destruct (decide (doctor_id = ""%string)) as [->|Hne].
  { intros [= <-]. eexists. split; reflexivity. }
  destruct (String.eqb_spec doctor_id ""); [contradiction|]. simpl.
  pose proof (avail_rows_cases (availability_df self) doctor_id d) as Hrows.
  destruct (lookup (availability_df self) doctor_id d) as [rec|].
  2: { rewrite Hrows. intros [= <-]. eexists. split; reflexivity. }
  destruct Hrows as [rest ->].
  destruct (av_IsAvailable rec); simpl.
  2: { intros [= <-]. eexists. split; reflexivity. }
  rewrite DURATION_TO_UNITS_unit_cost.
  destruct (unit_cost D) as [cost|].
  2: { intros [= <-]. eexists. split; reflexivity. }
  rewrite capacity_check.
  destruct (Qlt_le_dec _ cost) as [Hlt|Hle]; [|discriminate].
  intros [= <-]. rewrite (proj1 (Qlt_alt _ _) Hlt).
  eexists. split; reflexivity.
Qed.

(** A request that passes every check appends one Booked row for the
    selected doctor and the requested date; it is saved, the caller is
    notified and the user is told, unless the file cannot be written. *)
Lemma try_book_passed (self : CalendarApp) (disk : Disk) (env : Env) (d : date) (D : Z) :
  first_failure self d D = None ->
  exists doctor_id rec cost a,
    selected_doctor_id self = Some doctor_id /\ doctor_id <> ""%string
    /\ lookup (availability_df self) doctor_id d = Some rec
    /\ av_IsAvailable rec = true
    /\ unit_cost D = Some cost
    /\ cost <= remainingUnits (av_DailyCapacityUnits rec)
                 (bookedUnitsFor (appts_df self) doctor_id d)
    /\ ap_DoctorID a = doctor_id /\ ap_AppointmentDate a = Some d
    /\ ap_Status a = "Booked"%string /\ ap_Units a = cost
    /\ ap_DurationMinutes a = D /\ ap_AppointmentID a = make_appt_id env
    /\ res_app (_try_book self disk env d D) = set_appts_df self (appts_df self ++ [a])
    /\ if disk_ok env then
         res_outcome (_try_book self disk env d D) = Committed a
         /\ res_disk (_try_book self disk env d D) = {| appts_file := appts_df self ++ [a] |}
         /\ res_events (_try_book self disk env d D)
            = [DialogDestroy; SaveAppointments (appts_df self ++ [a])]
              ++ notify self D d
              ++ [ShowInfo "Booked"
                    ("Appointment booked on " +:+ isoformat d +:+ " ("
                     +:+ pretty D +:+ " min).");
                  RenderMonth]
       else
         res_outcome (_try_book self disk env d D) = PersistenceError
         /\ res_disk (_try_book self disk env d D) = disk
         /\ res_events (_try_book self disk env d D) = [DialogDestroy].
Proof.
  unfold first_failure, _try_book.
  destruct (selected_doctor_id self) as [doctor_id|] eqn:Hsel; simpl; [|discriminate].
  destruct (decide (doctor_id = ""%string)) as [->|Hne]; [discriminate|].
  destruct (String.eqb_spec doctor_id ""); [contradiction|]. simpl.
  pose proof (avail_rows_cases (availability_df self) doctor_id d) as Hrows.
  destruct (lookup (availability_df self) doctor_id d) as [rec|] eqn:Hlk; [|discriminate].
  destruct Hrows as [rest ->].
  destruct (av_IsAvailable rec) eqn:Hav; simpl; [|discriminate].
  rewrite DURATION_TO_UNITS_unit_cost.
  destruct (unit_cost D) as [cost|] eqn:Hcost; [|discriminate].
  rewrite capacity_check.
  destruct (Qlt_le_dec _ cost) as [Hlt|Hle]; [discriminate|]. intros _.
  exists doctor_id, rec, cost.
  assert (Hcmp : (remainingUnits (av_DailyCapacityUnits rec)
                    (bookedUnitsFor (appts_df self) doctor_id d) ?= cost) <> Lt).
  { intros Hc. apply (proj2 (Qlt_alt _ _)) in Hc. lra. }
  destruct (remainingUnits _ _ ?= cost); [|contradiction|];
    (eexists; repeat (split; [reflexivity || assumption|]);
     destruct (disk_ok env); simpl; repeat split; reflexivity).
Qed.


(** What a booking attempt never touches. *)
Lemma try_book_frame (self : CalendarApp) (disk : Disk) (env : Env) (d : date) (D : Z) :
  availability_df (res_app (_try_book self disk env d D)) = availability_df self
  /\ selected_doctor_id (res_app (_try_book self disk env d D)) = selected_doctor_id self.
Proof.
  destruct (first_failure self d D) as [why|] eqn:Hff.
  - destruct (try_book_rejected self disk env d D why Hff) as (ev & -> & _).
    split; reflexivity.
  - destruct (try_book_passed self disk env d D Hff)
      as (doc & rec & cost & a & _ & _ & _ & _ & _ & _ & _ & _ & _ & _ & _ & _ & -> & _).
    split; reflexivity.
Qed.

(** The outcome tells which way the checks went. *)
Lemma committed_passed (self : CalendarApp) (disk : Disk) (env : Env) (d : date) (D : Z)
    (a : ApptRow) :
  res_outcome (_try_book self disk env d D) = Committed a ->
  first_failure self d D = None /\ disk_ok env = true.
Proof.
  intros Hc. destruct (first_failure self d D) as [why|] eqn:Hff.
  - destruct (try_book_rejected self disk env d D why Hff) as (ev & E & _).
    rewrite E in Hc. discriminate.
  - split; [reflexivity|].
    destruct (try_book_passed self disk env d D Hff)
      as (doc & rec & cost & a' & _ & _ & _ & _ & _ & _ & _ & _ & _ & _ & _ & _ & _ & Hd).
    destruct (disk_ok env); [reflexivity|].
    destruct Hd as (E & _). rewrite E in Hc. discriminate.
Qed.

(** *** The budget of a day *)

Lemma unit_cost_two_decimals (D : Z) (cost : Q) : unit_cost D = Some cost -> two_decimals cost.
Proof.
  intros H. destruct (unit_cost_even_hundredths D cost H) as [k Hk].
  exists (2 * k)%Z. exact Hk.
Qed.

Lemma try_book_within_budget (self : CalendarApp) (disk : Disk) (env : Env)
    (d' : date) (D : Z) (doctor_id : string) (d : date) (rec : AvailRow) :
  lookup (availability_df self) doctor_id d = Some rec ->
  within_budget self doctor_id d (av_DailyCapacityUnits rec) ->
  within_budget (res_app (_try_book self disk env d' D)) doctor_id d (av_DailyCapacityUnits rec).
Proof.
  intros Hlk [H2 Hle].
  destruct (first_failure self d' D) as [why|] eqn:Hff.
  { destruct (try_book_rejected self disk env d' D why Hff) as (ev & -> & _).
    split; assumption. }
  destruct (try_book_passed self disk env d' D Hff)
    as (doc & rec' & cost & a & Hsel & _ & Hlk' & _ & Hcost & Hrem
        & Ha1 & Ha2 & Ha3 & Ha4 & _ & _ & -> & _).
  unfold within_budget. simpl appts_df.
  assert (E : bookedUnitsFor (appts_df self ++ [a]) doctor_id d
              == bookedUnitsFor (appts_df self) doctor_id d
                 + bookedUnitsFor [a] doctor_id d) by apply bookedUnitsFor_app.
  simpl bookedUnitsFor in E.
  destruct (decide (counts_for doctor_id d a)) as [Hc|Hc].
  - destruct Hc as (Hdoc & Hdate & _).
    rewrite Hdoc in Ha1. subst doc.
    rewrite Hdate in Ha2. injection Ha2 as <-.
    rewrite Hlk in Hlk'. injection Hlk' as <-.
    rewrite Ha4 in E.
    set (used := bookedUnitsFor (appts_df self) doctor_id d) in *.
    assert (Hx : two_decimals (inject_Z (av_DailyCapacityUnits rec) - used)).
    { apply two_decimals_minus; [apply two_decimals_Z | exact H2]. }
    apply (max0_ge_pos _ _ (unit_cost_pos D cost Hcost)) in Hrem.
    pose proof (round2_exact _ Hx) as Hr.
    split.
    + apply (two_decimals_comp (used + (cost + 0))); [symmetry; exact E|].
      apply two_decimals_plus; [exact H2|].
      apply two_decimals_plus; [apply (unit_cost_two_decimals D); exact Hcost|].
      apply (two_decimals_Z 0).
    + rewrite E. lra.
  - split.
    + apply (two_decimals_comp (bookedUnitsFor (appts_df self) doctor_id d));
        [rewrite E; ring | exact H2].
    + rewrite E. lra.
Qed.

Lemma run_within_budget (reqs : list Request) (self : CalendarApp) (disk : Disk)
    (doctor_id : string) (d : date) (rec : AvailRow) :
  lookup (availability_df self) doctor_id d = Some rec ->
  within_budget self doctor_id d (av_DailyCapacityUnits rec) ->
  within_budget (fst (run self disk reqs)) doctor_id d (av_DailyCapacityUnits rec).
Proof.
  revert self disk. induction reqs as [|rq rest IH]; intros self disk Hlk Hin.
  - exact Hin.
  - simpl. apply IH.
    + rewrite (proj1 (try_book_frame self disk _ _ _)). exact Hlk.
    + apply try_book_within_budget; assumption.
Qed.

End CalendarFacts.

(* ===================================================================== *)
(** ** Scheduling: the properties of section 8                            *)
(* ===================================================================== *)

Section Scheduling.

Import Num Str Calendar Spec Examples NumFacts CalendarFacts.
Local Open Scope Q_scope.

(** C1, capacity conservation.  Take a pair (doctor, date) that has an
    availability record of capacity C, C not negative, and a ledger in
    which no entry is Booked for the pair.  After any session of booking
    requests, whatever each of them asks and however it ends, the units
    of the Booked entries of the pair sum to C at most. *)
Theorem capacity_conservation (self : CalendarApp) (disk : Disk) (reqs : list Request)
    (doctor_id : string) (d : date) (rec : AvailRow) :
  lookup (availability_df self) doctor_id d = Some rec ->
  (0 <= av_DailyCapacityUnits rec)%Z ->
  (forall a, In a (appts_df self) -> ~ counts_for doctor_id d a) ->
  bookedUnitsFor (appts_df (fst (run self disk reqs))) doctor_id d
  <= inject_Z (av_DailyCapacityUnits rec).
Proof.
  intros Hlk HC Hnone.
  apply (run_within_budget reqs self disk doctor_id d rec Hlk).
  pose proof (bookedUnitsFor_no_match _ _ _ Hnone) as E0.
  split.
  - apply (two_decimals_comp 0); [symmetry; exact E0 | apply (two_decimals_Z 0)].
  - rewrite E0. change 0 with (inject_Z 0). rewrite <- Zle_Qle. exact HC.
Qed.

(** Scenario 1 of section 8 and the two bookings of one second: on each
    day the booked units stay within the day's capacity. *)
Lemma capacity_conservation_witness :
  bookedUnitsFor (appts_df (fst (run app0 disk0 (scenario1 ++ same_second)))) "D001" dec11
  <= inject_Z 4.
Proof.
  apply (capacity_conservation app0 disk0 (scenario1 ++ same_second) "D001" dec11
           {| av_DoctorID := "D001"; av_Date := dec11; av_IsAvailable := true;
              av_DailyCapacityUnits := 4; av_Notes := "" |}).
  - reflexivity.
  - simpl. lia.
  - simpl. intros a [].
Defined.





(** C6, rejection atomicity.  A request that is rejected, for any of the
    four reasons, leaves the application and so its ledger as they were,
    leaves the file as it was, and has none of the effects of a commit:
    nothing is saved, the caller's callback is not called, and no
    "Booked" box is shown. *)
Theorem rejection_atomicity (self : CalendarApp) (disk : Disk) (env : Env)
    (d : date) (D : Z) (why : reason) :
  res_outcome (_try_book self disk env d D) = Rejected why ->
  res_app (_try_book self disk env d D) = self
  /\ appts_df (res_app (_try_book self disk env d D)) = appts_df self
  /\ res_disk (_try_book self disk env d D) = disk
  /\ forallb (fun e => negb (commit_effect e)) (res_events (_try_book self disk env d D)) = true.
Proof.
  intros Hrej.
  destruct (first_failure self d D) as [why'|] eqn:Hff.
  - destruct (try_book_rejected self disk env d D why' Hff) as (ev & -> & Hev).
    simpl. rewrite Hev. repeat split; reflexivity.
  - exfalso.
    destruct (try_book_passed self disk env d D Hff)
      as (doc & rec & cost & a & _ & _ & _ & _ & _ & _ & _ & _ & _ & _ & _ & _ & _ & Hd).
    destruct (disk_ok env); destruct Hd as (E & _); rewrite E in Hrej; discriminate.
Qed.

(** Thirty minutes on a full day: rejected, and nothing has moved. *)
Lemma rejection_atomicity_witness :
  res_app (_try_book app_full disk0 env_a dec10 30) = app_full
  /\ appts_df (res_app (_try_book app_full disk0 env_a dec10 30)) = ledger_full
  /\ res_disk (_try_book app_full disk0 env_a dec10 30) = disk0
  /\ forallb (fun e => negb (commit_effect e))
       (res_events (_try_book app_full disk0 env_a dec10 30)) = true.
Proof.
  apply (rejection_atomicity app_full disk0 env_a dec10 30 InsufficientCapacity).
  reflexivity.
Defined.

(** C7, appointment ids.  Two bookings that read the clock within one
    second both commit and carry one and the same identifier: the ledger
    then holds two entries that an id does not tell apart. *)
Theorem appointment_id_collision :
  Forall (fun o => exists a, o = Committed a) (outcomes app0 disk0 same_second)
  /\ map ap_AppointmentID (appts_df (fst (run app0 disk0 same_second)))
     = ["A-1765357200"; "A-1765357200"]%string
  /\ id_collision (appts_df (fst (run app0 disk0 same_second))).
Proof.
  split; [|split].
  - repeat constructor; eexists; reflexivity.
  - reflexivity.
  - exists 0%nat, 1%nat. do 2 eexists.
    split; [discriminate|]. split; [reflexivity|]. split; reflexivity.
Qed.



End Scheduling.

(* ===================================================================== *)
(** ** The scenarios of section 8, run                                    *)
(* ===================================================================== *)

Section Scenarios.

Import Num Str Calendar Billing Spec Examples.
Local Open Scope Q_scope.

(** Scenario 1: sixty minutes take the two units of 10 December, and the
    thirty minutes asked next are refused for lack of capacity. *)
Example scenario1_outcomes :
  outcomes app0 disk0 scenario1 = [Committed booked60; Rejected InsufficientCapacity]
  /\ _get_remaining_units (fst (run app0 disk0 scenario1)) "D001" dec10 2 == 0.
Proof. split; reflexivity. Qed.

(** Scenario 2: a day marked unavailable refuses every duration. *)
Example scenario2_unavailable :
  map (fun D => res_outcome (_try_book app0 disk0 env_a dec12 D)) [30; 45; 60; 50]%Z
  = [Rejected Unavailable; Rejected Unavailable; Rejected Unavailable; Rejected Unavailable].
Proof. reflexivity. Qed.

(** Scenario 3: a day without a record is refused in the same way. *)
Example scenario3_no_record :
  res_outcome (_try_book app0 disk0 env_a (Date 2025 12 25) 30) = Rejected Unavailable
  /\ _get_day_info app0 "D001" (Date 2025 12 25) = {| clickable := false; tip := TipNoData |}.
Proof. split; reflexivity. Qed.

(** A status is read in lower case: a row saved as "BOOKED" uses
    capacity like one saved as "Booked", a cancelled one does not. *)
Example status_letter_case :
  lower "BOOKED" = "booked"%string /\ lower "Booked" = "booked"%string
  /\ lower "Cancelled" <> "booked"%string.
Proof. repeat split; discriminate. Qed.

(** Ties go to the even hundredth. *)
Example round2_ties : round2 0.125 == 0.12 /\ round2 0.135 == 0.14 /\ round2 1.5 == 1.5.
Proof. repeat split. Qed.

(** The message that tells of a booking. *)
Example booked_message :
  last (res_events (_try_book app0 disk0 env_a dec10 60)) = Some RenderMonth
  /\ In (ShowInfo "Booked" "Appointment booked on 2025-12-10 (60 min).")
        (res_events (_try_book app0 disk0 env_a dec10 60)).
Proof. split; [reflexivity|]. do 3 right. left. reflexivity. Qed.

(** The fee table is keyed by the specialty in lower case without the
    white space around it, and so is the lookup. *)
Example fee_key_normalized :
  specialty_key screen_cardiology = "cardiology"%string
  /\ doc_fee_map screen_cardiology !! "cardiology"%string = Some 200.
Proof. split; reflexivity. Qed.

(** Identifiers made in different seconds differ. *)
Lemma appt_id_distinct_seconds (e1 e2 : Env) :
  Z.quot (clock_id e1) 1000000 <> Z.quot (clock_id e2) 1000000 ->
  make_appt_id e1 <> make_appt_id e2.
Proof.
  unfold make_appt_id. intros Hne Heq. apply Hne.
  simpl in Heq. injection Heq as Heq.
  exact (inj pretty _ _ Heq).
Qed.

End Scenarios.

(* ===================================================================== *)
(** ** Billing: the estimate                                              *)
(* ===================================================================== *)

Module BillingFacts.

Import Num Str Billing Spec.
Local Open Scope Q_scope.

Lemma time_mult_timeMultiplier (D : Z) : time_mult !! D = timeMultiplier D.
Proof.
  unfold time_mult, timeMultiplier.
  destruct (Z.eqb_spec D 30) as [->|H30]; [reflexivity|].
  rewrite lookup_insert_ne by congruence.
  destruct (Z.eqb_spec D 45) as [->|H45]; [reflexivity|].
  rewrite lookup_insert_ne by congruence.
  destruct (Z.eqb_spec D 60) as [->|H60]; [reflexivity|].
  apply lookup_singleton_ne. congruence.
Qed.


Lemma odd_duration_not_in (self : BillingScreen) :
  odd_duration self -> not_in_30_45_60 (last_appointment_minutes self) = true.
Proof.
  unfold odd_duration, not_in_30_45_60.
  destruct (last_appointment_minutes self) as [D|]; [|reflexivity].
  intros (H30 & H45 & H60).
  destruct (Z.eqb_spec D 30); [contradiction|].
  destruct (Z.eqb_spec D 45); [contradiction|].
  destruct (Z.eqb_spec D 60); [contradiction|]. reflexivity.
Qed.

Lemma strip_empty : strip "" = ""%string.
Proof. reflexivity. Qed.

(** The discount percent that [recalc] uses, by cases of the patient's
    insurance. *)
Lemma discount_pct_cases (self : BillingScreen) :
  discount_pct (recalc self)
  = match insurance self with
    | None => 0.0
    | Some ins =>
        if decide (strip ins = ""%string) then 0.0
        else default 0.0 (ins_disc_map self !! strip ins)
    end.
Proof.
  unfold recalc. cbn [discount_pct].
  destruct (insurance self) as [ins|]; cbn [truthy str]; [|reflexivity].
  destruct (String.eqb_spec ins "") as [->|Hne]; cbn [negb].
  - rewrite strip_empty. reflexivity.
  - destruct (String.eqb_spec (strip ins) "") as [E|E]; cbn [negb];
      destruct (decide (strip ins = ""%string)); try contradiction; reflexivity.
Qed.

End BillingFacts.

Section BillingClaims.

Import Num Str Billing Spec Examples BillingFacts.
Local Open Scope Q_scope.

(** C9, the billing defaults.  A specialty whose normalized key is not in
    the fee table has base fee 0.0; an insurance id that is empty or not
    in the discount table has discount 0.0; a duration outside 30, 45 and
    60 is billed as 30 minutes, at 1.5.  [recalc] is a total function: a
    quote is produced in each of these cases, and with no fee and no
    discount its net cost is 0. *)
Theorem billing_defaults (self : BillingScreen) :
  (doc_fee_map self !! specialty_key self = None -> base_fee (recalc self) = 0.0)
  /\ (no_discount self -> discount_pct (recalc self) = 0.0)
  /\ (odd_duration self ->
      mins (recalc self) = 30%Z /\ mult (recalc self) = 1.5
      /\ timeMultiplier 30 = Some (mult (recalc self)))
  /\ (doc_fee_map self !! specialty_key self = None -> no_discount self ->
      net (recalc self) == 0.00).
Proof.
  assert (Hfee : doc_fee_map self !! specialty_key self = None ->
                 base_fee (recalc self) = 0.0).
  { intros H. unfold recalc. cbn [base_fee]. fold (specialty_key self).
    rewrite H. reflexivity. }
  assert (Hdisc : no_discount self -> discount_pct (recalc self) = 0.0).
  { unfold no_discount. intros H. rewrite discount_pct_cases.
    destruct (insurance self) as [ins|]; [|reflexivity].
    destruct (decide (strip ins = ""%string)); [reflexivity|].
    destruct H as [H|H]; [contradiction|]. rewrite H. reflexivity. }
  split; [exact Hfee|]. split; [exact Hdisc|]. split.
  - intros Hodd. unfold recalc. cbn [mins mult].
    rewrite (odd_duration_not_in self Hodd). repeat split; reflexivity.
  - intros H1 H2.
    assert (E : net (recalc self)
                == base_fee (recalc self) * mult (recalc self)
                   - base_fee (recalc self) * mult (recalc self)
                     * (discount_pct (recalc self) / 100.0)) by reflexivity.
    rewrite E, (Hfee H1), (Hdisc H2). field.
Qed.

(** Scenario 5 of section 8: no fee for the specialty, no insurance, and
    fifty minutes. *)
Lemma billing_defaults_witness :
  base_fee (recalc screen_unknown) = 0.0
  /\ discount_pct (recalc screen_unknown) = 0.0
  /\ (mins (recalc screen_unknown) = 30%Z /\ mult (recalc screen_unknown) = 1.5
      /\ timeMultiplier 30 = Some (mult (recalc screen_unknown)))
  /\ net (recalc screen_unknown) == 0.00.
Proof.
  destruct (billing_defaults screen_unknown) as (H1 & H2 & H3 & H4).
  split; [apply H1; reflexivity|].
  split; [apply H2; exact I|].
  split; [apply H3; simpl; repeat split; discriminate|].
  apply H4; [reflexivity | exact I].
Defined.

End BillingClaims.

(* ===================================================================== *)
(** ** More on the booking flow                                           *)
(* ===================================================================== *)

Module BookingFacts.

Import Num Str Calendar Spec Ledger NumFacts CalendarFacts.
Local Open Scope Q_scope.

#[local] Arguments Qcompare : simpl never.
#[local] Arguments _get_remaining_units : simpl never.

(** The button of a day, from the record of the pair. *)
Lemma day_info_cases (self : CalendarApp) (doctor_id : string) (d : date) :
  clickable (_get_day_info self doctor_id d)
  = match lookup (availability_df self) doctor_id d with
    | None => false
    | Some rec =>
        av_IsAvailable rec
        && negb (Qle_bool (_get_remaining_units self doctor_id d (av_DailyCapacityUnits rec)) 0)
    end.
Proof.
  unfold _get_day_info.
  pose proof (avail_rows_cases (availability_df self) doctor_id d) as Hrows.
  destruct (lookup (availability_df self) doctor_id d) as [rec|].
  - destruct Hrows as [rest ->].
    destruct (av_IsAvailable rec); cbn [negb andb]; [|reflexivity].
    destruct (Qle_bool _ 0); reflexivity.
  - rewrite Hrows. reflexivity.
Qed.

(** A request that is not rejected has passed every check. *)
Lemma not_rejected_passed (self : CalendarApp) (disk : Disk) (env : Env) (d : date) (D : Z) :
  appended (res_outcome (_try_book self disk env d D)) = true ->
  first_failure self d D = None.
Proof.
  intros H. destruct (first_failure self d D) as [why|] eqn:Hff; [|reflexivity].
  destruct (try_book_rejected self disk env d D why Hff) as (ev & E & _).
  rewrite E in H. discriminate.
Qed.

Lemma passed_appended (self : CalendarApp) (disk : Disk) (env : Env) (d : date) (D : Z) :
  first_failure self d D = None ->
  appended (res_outcome (_try_book self disk env d D)) = true.
Proof.
  intros Hff.
  destruct (try_book_passed self disk env d D Hff)
    as (doc & rec & cost & a & _ & _ & _ & _ & _ & _ & _ & _ & _ & _ & _ & _ & _ & Hd).
  destruct (disk_ok env); destruct Hd as (-> & _); reflexivity.
Qed.


(** A row for another pair is not seen by the sum of this pair. *)
Lemma filter_snoc_other (ledger : list ApptRow) (a : ApptRow) (doctor_id : string) (d : date) :
  ~ counts_for doctor_id d a ->
  List.filter (appt_match doctor_id d) (ledger ++ [a])
  = List.filter (appt_match doctor_id d) ledger.
Proof.
  intros Hn. rewrite List.filter_app. simpl.
  rewrite appt_match_counts, bool_decide_eq_false_2 by exact Hn.
  apply app_nil_r.
Qed.

Lemma filter_snoc_same (ledger : list ApptRow) (a : ApptRow) (doctor_id : string) (d : date) :
  counts_for doctor_id d a ->
  List.filter (appt_match doctor_id d) (ledger ++ [a])
  = List.filter (appt_match doctor_id d) ledger ++ [a].
Proof.
  intros Hc. rewrite List.filter_app. simpl.
  rewrite appt_match_counts, bool_decide_eq_true_2 by exact Hc. reflexivity.
Qed.

Lemma max0_le (x y : Q) : x <= y -> max0 x <= max0 y.
Proof. intros H. unfold max0. apply Q.max_le_compat_l. exact H. Qed.

Lemma unit_cost_ge_1 (D : Z) (cost : Q) : unit_cost D = Some cost -> 1 <= cost.
Proof.
  intros H. destruct (unit_cost_cases D cost H) as [[_ ->]|[[_ ->]|[_ ->]]]; discriminate.
Qed.

(** One booking attempt does not raise the remaining units of any pair,
    whatever capacity they are counted against. *)
Lemma try_book_remaining_le (self : CalendarApp) (disk : Disk) (env : Env) (d : date) (D : Z)
    (doctor_id : string) (d' : date) (C : Z) :
  _get_remaining_units (res_app (_try_book self disk env d D)) doctor_id d' C
  <= _get_remaining_units self doctor_id d' C.
Proof.
  destruct (first_failure self d D) as [why|] eqn:Hff.
  { destruct (try_book_rejected self disk env d D why Hff) as (ev & -> & _).
    simpl. apply Qle_refl. }
  destruct (try_book_passed self disk env d D Hff)
    as (doc & rec & cost & a & _ & _ & _ & _ & Hcost & _ & _ & _ & _ & Ha4 & _ & _ & -> & _).
  rewrite !get_remaining_units_spec. simpl appts_df.
  pose proof (unit_cost_pos D cost Hcost) as Hpos.
  assert (E : bookedUnitsFor (appts_df self ++ [a]) doctor_id d'
              == bookedUnitsFor (appts_df self) doctor_id d'
                 + bookedUnitsFor [a] doctor_id d') by apply bookedUnitsFor_app.
  rewrite (remainingUnits_comp C _ _ E). unfold remainingUnits.
  remember (bookedUnitsFor (appts_df self) doctor_id d') as used eqn:Hused.
  simpl. destruct (decide (counts_for doctor_id d' a)) as [Hc|Hc].
  - rewrite Ha4.
    destruct (unit_cost_even_hundredths D cost Hcost) as [k Hk].
    assert (Hshift : round2 (inject_Z C - (used + (cost + 0)))
                     == round2 (inject_Z C - used) - cost).
    { transitivity (round2 (inject_Z C - used - inject_Z (2 * k) / 100)).
      - apply round2_comp. rewrite Hk. ring.
      - rewrite round2_sub_even, Hk. reflexivity. }
    pose proof (max0_comp _ _ Hshift) as E1.
    assert (E2 : max0 (round2 (inject_Z C - used) - cost) <= max0 (round2 (inject_Z C - used)))
      by (apply max0_le; lra).
    change (max0 (round2 (inject_Z C - (used + (cost + 0))))
            <= max0 (round2 (inject_Z C - used))).
    lra.
  - assert (E0 : inject_Z C - (used + 0) == inject_Z C - used) by ring.
    pose proof (max0_comp _ _ (round2_comp _ _ E0)) as E1.
    change (max0 (round2 (inject_Z C - (used + 0))) <= max0 (round2 (inject_Z C - used))).
    lra.
Qed.

End BookingFacts.

Section BookingExtras.

Import Num Str Calendar Spec Ledger Examples MoreExamples NumFacts CalendarFacts BookingFacts.
Local Open Scope Q_scope.

#[local] Arguments Qcompare : simpl never.
#[local] Arguments _get_remaining_units : simpl never.

(** X1.  A day whose button [_get_day_info] disables cannot be booked:
    whatever the duration, [_try_book] rejects the request and leaves
    the application and the file as they were. *)
Theorem disabled_day_never_books (self : CalendarApp) (disk : Disk) (env : Env)
    (d : date) (D : Z) (doctor_id : string) :
  selected_doctor_id self = Some doctor_id ->
  clickable (_get_day_info self doctor_id d) = false ->
  exists why,
    res_outcome (_try_book self disk env d D) = Rejected why
    /\ res_app (_try_book self disk env d D) = self
    /\ res_disk (_try_book self disk env d D) = disk.
Proof.
  intros Hsel Hclk.
  destruct (first_failure self d D) as [why|] eqn:Hff.
  - destruct (try_book_rejected self disk env d D why Hff) as (ev & -> & _).
    exists why. repeat split.
  - exfalso.
    destruct (try_book_passed self disk env d D Hff)
      as (doc & rec & cost & a & Hsel' & _ & Hlk & Hav & Hcost & Hrem & _).
    rewrite Hsel in Hsel'. injection Hsel' as <-.
    rewrite day_info_cases, Hlk, Hav in Hclk. cbn [andb] in Hclk.
    apply negb_false_iff, Qle_bool_iff in Hclk.
    rewrite get_remaining_units_spec in Hclk.
    pose proof (unit_cost_pos D cost Hcost). lra.
Qed.

Lemma disabled_day_never_books_witness :
  exists why,
    res_outcome (_try_book app_full disk0 env_a dec10 30) = Rejected why
    /\ res_app (_try_book app_full disk0 env_a dec10 30) = app_full
    /\ res_disk (_try_book app_full disk0 env_a dec10 30) = disk0.
Proof.
  apply (disabled_day_never_books app_full disk0 env_a dec10 30 "D001"); reflexivity.
Defined.

(** X2.  A day whose button is enabled, asked for one of the durations
    the dialog lists, can only be refused for lack of capacity; with two
    units or more left and a file that can be written, it is booked. *)
Theorem enabled_day_listed_duration (self : CalendarApp) (disk : Disk) (env : Env)
    (d : date) (D : Z) (doctor_id : string) (rec : AvailRow) :
  selected_doctor_id self = Some doctor_id ->
  doctor_id <> ""%string ->
  lookup (availability_df self) doctor_id d = Some rec ->
  clickable (_get_day_info self doctor_id d) = true ->
  In D [30; 45; 60]%Z ->
  (forall why, res_outcome (_try_book self disk env d D) = Rejected why ->
               why = InsufficientCapacity)
  /\ (2 <= _get_remaining_units self doctor_id d (av_DailyCapacityUnits rec) ->
      disk_ok env = true ->
      exists a, res_outcome (_try_book self disk env d D) = Committed a).
Proof.
  intros Hsel Hne Hlk Hclk HD.
  rewrite day_info_cases, Hlk in Hclk.
  apply andb_true_iff in Hclk. destruct Hclk as [Hav _].
  assert (Hcost : exists cost, unit_cost D = Some cost /\ cost <= 2).
  { simpl in HD. destruct HD as [<-|[<-|[<-|[]]]]; eexists; (split; [reflexivity|]);
      discriminate. }
  destruct Hcost as (cost & Hcost & Hle2).
  assert (Hff : first_failure self d D
                = if Qlt_le_dec (remainingUnits (av_DailyCapacityUnits rec)
                                   (bookedUnitsFor (appts_df self) doctor_id d)) cost
                  then Some InsufficientCapacity else None).
  { unfold first_failure. rewrite Hsel.
    destruct (decide (doctor_id = ""%string)); [contradiction|].
    rewrite Hlk, Hav, Hcost. reflexivity. }
  split.
  - intros why Hrej.
    destruct (Qlt_le_dec _ cost) as [Hlt|Hge].
    + destruct (try_book_rejected self disk env d D _ Hff) as (ev & E & _).
      rewrite E in Hrej. injection Hrej as <-. reflexivity.
    + pose proof (passed_appended self disk env d D Hff) as Happ.
      rewrite Hrej in Happ. discriminate.
  - intros H2 Hdisk. rewrite get_remaining_units_spec in H2.
    destruct (Qlt_le_dec _ cost) as [Hlt|Hge]; [lra|].
    destruct (try_book_passed self disk env d D Hff)
      as (doc & rec' & cost' & a & _ & _ & _ & _ & _ & _ & _ & _ & _ & _ & _ & _ & _ & Hd).
    rewrite Hdisk in Hd. destruct Hd as (E & _). exists a. exact E.
Qed.

Lemma enabled_day_listed_duration_witness :
  (forall why, res_outcome (_try_book app0 disk0 env_a dec11 45) = Rejected why ->
               why = InsufficientCapacity)
  /\ (2 <= _get_remaining_units app0 "D001" dec11 4 ->
      disk_ok env_a = true ->
      exists a, res_outcome (_try_book app0 disk0 env_a dec11 45) = Committed a).
Proof.
  apply (enabled_day_listed_duration app0 disk0 env_a dec11 45 "D001"
           {| av_DoctorID := "D001"; av_Date := dec11; av_IsAvailable := true;
              av_DailyCapacityUnits := 4; av_Notes := "" |});
    [reflexivity | discriminate | reflexivity | reflexivity | simpl; auto].
Defined.

(** X4.  A booking attempt leaves every other day, and every other
    doctor, as it found them: their remaining units and their buttons do
    not change. *)
Theorem booking_leaves_other_days (self : CalendarApp) (disk : Disk) (env : Env)
    (d : date) (D : Z) (doctor' : string) (d' : date) :
  doctor' <> str (selected_doctor_id self) \/ d' <> d ->
  (forall C, _get_remaining_units (res_app (_try_book self disk env d D)) doctor' d' C
             = _get_remaining_units self doctor' d' C)
  /\ _get_day_info (res_app (_try_book self disk env d D)) doctor' d'
     = _get_day_info self doctor' d'.
Proof.
  intros Hother.
  destruct (first_failure self d D) as [why|] eqn:Hff.
  { destruct (try_book_rejected self disk env d D why Hff) as (ev & -> & _).
    split; reflexivity. }
  destruct (try_book_passed self disk env d D Hff)
    as (doc & rec & cost & a & Hsel & _ & _ & _ & _ & _ & Ha1 & Ha2 & _ & _ & _ & _ & -> & _).
  assert (Hn : ~ counts_for doctor' d' a).
  { intros (H1 & H2 & _). rewrite Hsel in Hother. simpl in Hother.
    destruct Hother as [H|H]; apply H; congruence. }
  assert (Hrem : forall C, _get_remaining_units (set_appts_df self (appts_df self ++ [a])) doctor' d' C
                           = _get_remaining_units self doctor' d' C).
  { intros C. unfold _get_remaining_units. simpl appts_df.
    rewrite (filter_snoc_other _ _ _ _ Hn). reflexivity. }
  split; [exact Hrem|].
  unfold _get_day_info. simpl availability_df.
  destruct (List.filter (avail_match doctor' d') (availability_df self)) as [|row rest];
    [reflexivity|].
  rewrite Hrem. reflexivity.
Qed.

Lemma booking_leaves_other_days_witness :
  (forall C, _get_remaining_units (res_app (_try_book app0 disk0 env_a dec10 60)) "D001" dec11 C
             = _get_remaining_units app0 "D001" dec11 C)
  /\ _get_day_info (res_app (_try_book app0 disk0 env_a dec10 60)) "D001" dec11
     = _get_day_info app0 "D001" dec11.
Proof.
  apply (booking_leaves_other_days app0 disk0 env_a dec10 60 "D001" dec11).
  right. discriminate.
Defined.

(** A property that every booking attempt keeps is kept by a session. *)
Lemma run_invariant (P : CalendarApp -> Prop) :
  (forall self disk env d D, P self -> P (res_app (_try_book self disk env d D))) ->
  forall reqs self disk, P self -> P (fst (run self disk reqs)).
Proof.
  intros Hstep. induction reqs as [|rq rest IH]; intros self disk HP.
  - exact HP.
  - simpl. apply IH, Hstep, HP.
Qed.

(** X5.  The ledger only grows, and only at its end: a session leaves
    the rows it found where they were and appends one row for each
    request that is not rejected, each Booked and for the selected
    doctor. *)
Theorem ledger_append_only (reqs : list Request) (self : CalendarApp) (disk : Disk) :
  exists new,
    appts_df (fst (run self disk reqs)) = appts_df self ++ new
    /\ length new = length (List.filter appended (outcomes self disk reqs))
    /\ Forall (fun a => ap_Status a = "Booked"%string
                        /\ selected_doctor_id self = Some (ap_DoctorID a)) new.
Proof.
  revert self disk. induction reqs as [|rq rest IH]; intros self disk.
  - exists []. simpl. rewrite app_nil_r. repeat split. constructor.
  - simpl run. simpl outcomes.
    set (r := _try_book self disk (req_env rq) (req_date rq) (req_duration rq)).
    destruct (IH (res_app r) (res_disk r)) as (new & Hnew & Hlen & Hall).
    pose proof (proj2 (try_book_frame self disk (req_env rq) (req_date rq) (req_duration rq)))
      as Hsel. fold r in Hsel. rewrite Hsel in Hall.
    destruct (first_failure self (req_date rq) (req_duration rq)) as [why|] eqn:Hff.
    + destruct (try_book_rejected self disk (req_env rq) _ _ why Hff) as (ev & E & _).
      fold r in E. rewrite E in *. simpl in *.
      exists new. repeat split; assumption.
    + pose proof (passed_appended self disk (req_env rq) _ _ Hff) as Happ. fold r in Happ.
      destruct (try_book_passed self disk (req_env rq) _ _ Hff)
        as (doc & rec & cost & a & Hsel' & _ & _ & _ & _ & _ & Ha1 & _ & Ha3 & _ & _ & _
            & Hra & _).
      fold r in Hra.
      exists (a :: new). split; [rewrite Hnew, Hra; simpl; rewrite <- app_assoc; reflexivity|].
      split.
      * simpl. rewrite Happ. simpl. rewrite Hlen. reflexivity.
      * constructor; [|exact Hall]. split; [exact Ha3|]. rewrite Ha1. exact Hsel'.
Qed.

(** X6.  With a file that can always be written, the file follows the
    ledger: after a session in which some request was not rejected the
    file holds the whole ledger of the application, rows read at start
    included; after a session of rejections both are as they were. *)
Theorem file_follows_ledger (reqs : list Request) (self : CalendarApp) (disk : Disk) :
  Forall (fun rq => disk_ok (req_env rq) = true) reqs ->
  if existsb appended (outcomes self disk reqs)
  then appts_file (snd (run self disk reqs)) = appts_df (fst (run self disk reqs))
  else run self disk reqs = (self, disk).
Proof.
  revert self disk. induction reqs as [|rq rest IH]; intros self disk Hok.
  - reflexivity.
  - inversion Hok as [|rq' rest' Hrq Hrest]; subst.
    simpl run. simpl outcomes.
    set (r := _try_book self disk (req_env rq) (req_date rq) (req_duration rq)).
    specialize (IH (res_app r) (res_disk r) Hrest).
    destruct (first_failure self (req_date rq) (req_duration rq)) as [why|] eqn:Hff.
    + destruct (try_book_rejected self disk (req_env rq) _ _ why Hff) as (ev & E & _).
      fold r in E. rewrite E in *. simpl in *. exact IH.
    + pose proof (passed_appended self disk (req_env rq) _ _ Hff) as Happ. fold r in Happ.
      simpl existsb. rewrite Happ. simpl orb.
      destruct (try_book_passed self disk (req_env rq) _ _ Hff)
        as (doc & rec & cost & a & _ & _ & _ & _ & _ & _ & _ & _ & _ & _ & _ & _ & Hra & Hd).
      rewrite Hrq in Hd. destruct Hd as (_ & Hfile & _). fold r in Hra, Hfile.
      destruct (existsb appended (outcomes (res_app r) (res_disk r) rest)).
      * exact IH.
      * rewrite IH. simpl. rewrite Hfile, Hra. reflexivity.
Qed.

Lemma file_follows_ledger_witness :
  appts_file (snd (run app_full disk0 busy_session))
  = appts_df (fst (run app_full disk0 busy_session)).
Proof.
  apply (file_follows_ledger busy_session app_full disk0).
  repeat constructor.
Defined.

(** X7.  Capacity is never given back: over any session, the remaining
    units of every pair, counted against any capacity, end at or below
    where they began. *)
Theorem remaining_never_increases (reqs : list Request) (self : CalendarApp) (disk : Disk)
    (doctor_id : string) (d : date) (C : Z) :
  _get_remaining_units (fst (run self disk reqs)) doctor_id d C
  <= _get_remaining_units self doctor_id d C.
Proof.
  revert self disk. induction reqs as [|rq rest IH]; intros self disk.
  - apply Qle_refl.
  - simpl run. eapply Qle_trans; [apply IH|]. apply try_book_remaining_le.
Qed.

(** X8.  A day of capacity C takes C bookings at most: from a ledger in
    which no row counts for the pair, no session leaves more than C rows
    that count for it. *)
Theorem at_most_C_bookings (reqs : list Request) (self : CalendarApp) (disk : Disk)
    (doctor_id : string) (d : date) (rec : AvailRow) :
  lookup (availability_df self) doctor_id d = Some rec ->
  (0 <= av_DailyCapacityUnits rec)%Z ->
  booked_count (appts_df self) doctor_id d = 0%nat ->
  (Z.of_nat (booked_count (appts_df (fst (run self disk reqs))) doctor_id d)
   <= av_DailyCapacityUnits rec)%Z.
Proof.
  intros Hlk HC H0.
  set (P := fun s : CalendarApp =>
    lookup (availability_df s) doctor_id d = Some rec
    /\ within_budget s doctor_id d (av_DailyCapacityUnits rec)
    /\ inject_Z (Z.of_nat (booked_count (appts_df s) doctor_id d))
       <= bookedUnitsFor (appts_df s) doctor_id d).
  assert (Hfinal : P (fst (run self disk reqs))).
  { apply run_invariant.
    - clear. intros self disk env d' D (Hlk & Hwb & Hcnt).
      split; [rewrite (proj1 (try_book_frame self disk env d' D)); exact Hlk|].
      split; [apply try_book_within_budget; assumption|].
      destruct (first_failure self d' D) as [why|] eqn:Hff.
      { destruct (try_book_rejected self disk env d' D why Hff) as (ev & -> & _). exact Hcnt. }
      destruct (try_book_passed self disk env d' D Hff)
        as (doc & rec' & cost & a & _ & _ & _ & _ & Hcost & _ & _ & _ & _ & Ha4 & _ & _ & -> & _).
      simpl appts_df. unfold booked_count in *.
      assert (E : bookedUnitsFor (appts_df self ++ [a]) doctor_id d
                  == bookedUnitsFor (appts_df self) doctor_id d
                     + bookedUnitsFor [a] doctor_id d) by apply bookedUnitsFor_app.
      simpl bookedUnitsFor in E.
      destruct (decide (counts_for doctor_id d a)) as [Hc|Hc].
      + rewrite (filter_snoc_same _ _ _ _ Hc), length_app. simpl length.
        rewrite Nat2Z.inj_add, inject_Z_plus, E, Ha4.
        pose proof (unit_cost_ge_1 D cost Hcost). change (inject_Z (Z.of_nat 1)) with 1. lra.
      + rewrite (filter_snoc_other _ _ _ _ Hc), E. lra.
    - split; [exact Hlk|].
      assert (Hnone : forall a, In a (appts_df self) -> ~ counts_for doctor_id d a).
      { intros a Ha Hc. unfold booked_count in H0.
        assert (Hin : In a (List.filter (appt_match doctor_id d) (appts_df self))).
        { apply List.filter_In. split; [exact Ha|].
          rewrite appt_match_counts. apply bool_decide_eq_true_2. exact Hc. }
        destruct (List.filter (appt_match doctor_id d) (appts_df self)); [destruct Hin|].
        discriminate. }
      pose proof (bookedUnitsFor_no_match _ _ _ Hnone) as E0.
      split; [split|].
      + apply (two_decimals_comp 0); [symmetry; exact E0 | apply (two_decimals_Z 0)].
      + rewrite E0. change 0 with (inject_Z 0). rewrite <- Zle_Qle. exact HC.
      + rewrite H0, E0. apply Qle_refl. }
  destruct Hfinal as (_ & [_ Hle] & Hcnt).
  rewrite Zle_Qle. eapply Qle_trans; [exact Hcnt | exact Hle].
Qed.

Lemma at_most_C_bookings_witness :
  (Z.of_nat (booked_count (appts_df (fst (run app0 disk0 (busy_session ++ busy_session))))
               "D001" dec11) <= 4)%Z.
Proof.
  apply (at_most_C_bookings (busy_session ++ busy_session) app0 disk0 "D001" dec11
           {| av_DoctorID := "D001"; av_Date := dec11; av_IsAvailable := true;
              av_DailyCapacityUnits := 4; av_Notes := "" |}).
  - reflexivity.
  - simpl. lia.
  - reflexivity.
Defined.

(** X9.  Two bookings that commit after reading the clock in different
    seconds carry different identifiers. *)
Theorem committed_ids_differ (s1 s2 : CalendarApp) (k1 k2 : Disk) (e1 e2 : Env)
    (d1 d2 : date) (D1 D2 : Z) (a1 a2 : ApptRow) :
  res_outcome (_try_book s1 k1 e1 d1 D1) = Committed a1 ->
  res_outcome (_try_book s2 k2 e2 d2 D2) = Committed a2 ->
  Z.quot (clock_id e1) 1000000 <> Z.quot (clock_id e2) 1000000 ->
  ap_AppointmentID a1 <> ap_AppointmentID a2.
Proof.
  intros H1 H2 Hne.
  destruct (committed_passed s1 k1 e1 d1 D1 a1 H1) as [Hff1 Hd1].
  destruct (committed_passed s2 k2 e2 d2 D2 a2 H2) as [Hff2 Hd2].
  destruct (try_book_passed s1 k1 e1 d1 D1 Hff1)
    as (? & ? & ? & b1 & _ & _ & _ & _ & _ & _ & _ & _ & _ & _ & _ & Hid1 & _ & Ho1).
  destruct (try_book_passed s2 k2 e2 d2 D2 Hff2)
    as (? & ? & ? & b2 & _ & _ & _ & _ & _ & _ & _ & _ & _ & _ & _ & Hid2 & _ & Ho2).
  rewrite Hd1 in Ho1. rewrite Hd2 in Ho2.
  destruct Ho1 as (Ho1 & _). destruct Ho2 as (Ho2 & _).
  assert (b1 = a1) by congruence. assert (b2 = a2) by congruence. subst b1 b2.
  rewrite Hid1, Hid2. unfold make_appt_id. intros Heq.
  apply Hne. simpl in Heq. injection Heq as Heq. exact (inj pretty _ _ Heq).
Qed.

Lemma committed_ids_differ_witness :
  ap_AppointmentID booked60 <> ap_AppointmentID booked30.
Proof.
  apply (committed_ids_differ app0 app0 disk0 disk0 env_a env_c dec10 dec11 60 30
           booked60 booked30); [reflexivity | reflexivity | vm_compute; discriminate].
Defined.

End BookingExtras.

(* ===================================================================== *)
(** ** Opening the calendar and drawing the month                         *)
(* ===================================================================== *)

Module CalendarUiFacts.

Import Num Str Calendar Spec Ledger CalendarUi NumFacts CalendarFacts BookingFacts.

Lemma pos_div (r c : nat) : (c < 7)%nat -> ((7 * r + c) / 7 = r /\ (7 * r + c) mod 7 = c)%nat.
Proof.
  intros Hc. split.
  - symmetry. apply (Nat.div_unique _ 7 r c); [exact Hc | reflexivity].
  - symmetry. apply (Nat.mod_unique _ 7 r c); [exact Hc | reflexivity].
Qed.

Lemma pos_of (q : nat) : (q = 7 * (q / 7) + q mod 7 /\ q mod 7 < 7)%nat.
Proof.
  split; [apply Nat.div_mod_eq | apply Nat.mod_upper_bound; discriminate].
Qed.

Lemma six_by_seven_row (g : list (list Button)) (r : nat) :
  six_by_seven g -> (r < 6)%nat -> exists row, g !! r = Some row /\ length row = 7%nat.
Proof.
  intros [Hlen Hall] Hr.
  destruct (lookup_lt_is_Some_2 g r) as [row Hrow]; [lia|].
  exists row. split; [exact Hrow|].
  rewrite Forall_forall in Hall. apply Hall.
  apply (list_elem_of_lookup_2 g r). exact Hrow.
Qed.

Lemma six_by_seven_cell (g : list (list Button)) (q : nat) :
  six_by_seven g -> (q < 42)%nat -> is_Some (cell g q).
Proof.
  intros Hg Hq. destruct (pos_of q) as [Hq1 Hq2].
  destruct (six_by_seven_row g (q / 7) Hg) as (row & Hrow & Hlen); [lia|].
  unfold cell, grid_get. rewrite Hrow. apply lookup_lt_is_Some_2. lia.
Qed.

(** Configuring one button changes that button and no other, and keeps
    the shape of the grid. *)
Lemma grid_config_spec (g : list (list Button)) (r c : nat) (f : Button -> Button) :
  six_by_seven g -> (r < 6)%nat -> (c < 7)%nat ->
  exists g' b,
    grid_config g r c f = Some g' /\ six_by_seven g'
    /\ cell g (7 * r + c) = Some b
    /\ cell g' (7 * r + c) = Some (f b)
    /\ forall q, q <> (7 * r + c)%nat -> cell g' q = cell g q.
Proof.
  intros Hg Hr Hc.
  destruct (six_by_seven_row g r Hg Hr) as (row & Hrow & Hlen).
  destruct (lookup_lt_is_Some_2 row c) as [b Hb]; [lia|].
  exists (<[r := <[c := f b]> row]> g), b.
  destruct (pos_div r c Hc) as [Hd Hm].
  unfold grid_config, cell, grid_get. rewrite Hrow, Hb, Hd, Hm, Hrow.
  split; [reflexivity|]. split.
  { destruct Hg as [Hlg Hall]. split; [rewrite length_insert; exact Hlg|].
    apply Forall_insert; [exact Hall|]. rewrite length_insert. exact Hlen. }
  split; [exact Hb|]. split.
  { rewrite list_lookup_insert_eq by (destruct Hg; lia).
    apply list_lookup_insert_eq. lia. }
  intros q Hq. destruct (pos_of q) as [Hq1 Hq2].
  destruct (decide (q / 7 = r)%nat) as [Er|Er].
  - rewrite Er, list_lookup_insert_eq by (destruct Hg; lia). rewrite Hrow.
    apply list_lookup_insert_ne. intros Ec. apply Hq. rewrite Hq1, Er, <- Ec. reflexivity.
  - rewrite list_lookup_insert_ne by congruence. reflexivity.
Qed.

(** The loop over the days writes the buttons of consecutive places. *)
Lemma place_days_spec (self : CalendarApp) (doctor_id : string) (today : date) (n : nat) :
  forall (k row col : nat) (g : list (list Button)),
    six_by_seven g -> (col < 7)%nat -> (7 * row + col + n <= 42)%nat ->
    exists g',
      place_days self doctor_id today (seq k n) row col g = Some g'
      /\ six_by_seven g'
      /\ (forall j, (j < n)%nat ->
            cell g' (7 * row + col + j)
            = day_button self doctor_id today (k + j) <$> cell g (7 * row + col + j))
      /\ (forall q, (q < 7 * row + col \/ 7 * row + col + n <= q)%nat -> cell g' q = cell g q).
Proof.
  induction n as [|n IH]; intros k row col g Hg Hcol Hfit.
  - exists g. split; [reflexivity|]. split; [exact Hg|]. split; [intros j Hj; lia|].
    reflexivity.
  - simpl seq. cbn [place_days].
    destruct (grid_config_spec g row col (day_button self doctor_id today k) Hg)
      as (g1 & b & Hcfg & Hg1 & Hb & Hb1 & Hframe1); [lia | exact Hcol |].
    rewrite Hcfg.
    assert (Hnext : exists row' col',
      (col' < 7 /\ 7 * row' + col' = 7 * row + col + 1)%nat
      /\ (if (6 <? col + 1)%nat
          then place_days self doctor_id today (seq (S k) n) (row + 1) 0 g1
          else place_days self doctor_id today (seq (S k) n) row (col + 1) g1)
         = place_days self doctor_id today (seq (S k) n) row' col' g1).
    { destruct (Nat.ltb_spec 6 (col + 1)).
      - exists (row + 1)%nat, 0%nat. split; [lia | reflexivity].
      - exists row, (col + 1)%nat. split; [lia | reflexivity]. }
    destruct Hnext as (row' & col' & [Hcol' Hpos] & ->).
    destruct (IH (S k) row' col' g1 Hg1 Hcol') as (g' & Hplace & Hg' & Hhit & Hframe);
      [lia|].
    exists g'. split; [exact Hplace|]. split; [exact Hg'|]. split.
    + intros j Hj. destruct j as [|j].
      * rewrite Nat.add_0_r, Hframe by lia. rewrite Hb1, Hb, Nat.add_0_r. reflexivity.
      * replace (7 * row + col + S j)%nat with (7 * row' + col' + j)%nat by lia.
        rewrite Hhit by lia. rewrite Hframe1 by lia.
        replace (S k + j)%nat with (k + S j)%nat by lia. reflexivity.
    + intros q Hq. rewrite Hframe by lia. apply Hframe1. lia.
Qed.

(** Resetting the forty-two buttons of a grid of six by seven. *)
Lemma reset_cells_spec (g : list (list Button)) :
  six_by_seven g ->
  reset_cells all_cells g = Some (map (map reset_button) g).
Proof.
  intros [Hlen Hall].
  do 7 (destruct g as [|? g]; try discriminate Hlen). clear Hlen.
  repeat (apply Forall_cons in Hall; destruct Hall as [? Hall]). clear Hall.
  repeat match goal with
         | H : length ?l = 7%nat |- _ =>
             do 8 (destruct l as [|? l]; try discriminate H); clear H
         end.
  reflexivity.
Qed.

Lemma six_by_seven_map (f : Button -> Button) (g : list (list Button)) :
  six_by_seven g -> six_by_seven (map (map f) g).
Proof.
  intros [Hlen Hall]. split; [rewrite length_map; exact Hlen|].
  apply Forall_map. eapply Forall_impl; [exact Hall|].
  intros row Hrow. simpl. rewrite length_map. exact Hrow.
Qed.

Lemma cell_map (f : Button -> Button) (g : list (list Button)) (q : nat) :
  cell (map (map f) g) q = f <$> cell g q.
Proof.
  unfold cell, grid_get. rewrite list_lookup_fmap.
  destruct (g !! (q / 7)%nat) as [row|]; simpl; [|reflexivity].
  apply list_lookup_fmap.
Qed.

End CalendarUiFacts.

Section CalendarUiExtras.

Import Num Str Calendar Spec Ledger CalendarUi PatientData Examples MoreExamples.
Import NumFacts CalendarFacts BookingFacts CalendarUiFacts.

(** X10.  Drawing the month.  With a doctor selected and the grid of six
    rows of seven buttons, [_render_month] never runs out of the grid,
    for any first weekday and any number of days up to 31 (and beyond, as
    long as the days fit in 42 places).  Day k gets the button of row
    (first weekday + k - 1) / 7 and column (first weekday + k - 1) mod 7:
    it shows k, its command books that date, and it is enabled exactly
    when [_get_day_info] says the date is clickable.  Every other button
    is blank and disabled. *)
Theorem render_month_draws (self : CalendarApp) (ui : Ui) (first_weekday num_days : nat)
    (today : date) (doctor_id : string) :
  selected_doctor_id self = Some doctor_id ->
  doctor_id <> ""%string ->
  six_by_seven (day_buttons ui) ->
  (first_weekday < 7)%nat ->
  (first_weekday + num_days <= 42)%nat ->
  exists ui',
    _render_month self ui first_weekday num_days today = Drawn ui'
    /\ six_by_seven (day_buttons ui')
    /\ (forall day, (1 <= day <= num_days)%nat ->
          exists b,
            grid_get (day_buttons ui') (day_row first_weekday day) (day_col first_weekday day)
            = Some b
            /\ btn_text b = pretty (Z.of_nat day)
            /\ btn_command b = Some (Date YEAR MONTH (Z.of_nat day))
            /\ btn_enabled b
               = clickable (_get_day_info self doctor_id (Date YEAR MONTH (Z.of_nat day))))
    /\ (forall q, (q < 42)%nat -> (q < first_weekday \/ first_weekday + num_days <= q)%nat ->
          exists b,
            cell (day_buttons ui') q = Some b
            /\ btn_text b = ""%string /\ btn_enabled b = false).
Proof.
  intros Hsel Hne Hg Hfw Hfit.
  unfold _render_month. rewrite Hsel. cbn [truthy str].
  destruct (String.eqb_spec doctor_id ""); [contradiction|]. cbn [negb].
  rewrite (reset_cells_spec _ Hg).
  pose proof (six_by_seven_map reset_button _ Hg) as Hg0.
  destruct (place_days_spec self doctor_id today num_days 1 0 first_weekday _ Hg0 Hfw)
    as (g' & Hplace & Hg' & Hhit & Hframe); [lia|].
  rewrite Hplace. eexists. split; [reflexivity|]. cbn [day_buttons].
  split; [exact Hg'|]. split.
  - intros day [Hd1 Hd2].
    specialize (Hhit (day - 1)%nat ltac:(lia)).
    replace (7 * 0 + first_weekday + (day - 1))%nat with (first_weekday + day - 1)%nat
      in Hhit by lia.
    replace (1 + (day - 1))%nat with day in Hhit by lia.
    rewrite cell_map in Hhit.
    destruct (six_by_seven_cell (day_buttons ui) (first_weekday + day - 1) Hg) as [b Hb];
      [lia|].
    rewrite Hb in Hhit. simpl in Hhit.
    eexists. split; [exact Hhit|]. repeat split.
  - intros q Hq Hout.
    rewrite Hframe by lia. rewrite cell_map.
    destruct (six_by_seven_cell (day_buttons ui) q Hg Hq) as [b Hb].
    rewrite Hb. simpl. eexists. split; [reflexivity|]. split; reflexivity.
Qed.

(** December 2025 for D001, drawn on the grid [_build_ui] makes: the
    tenth is the third button of the second row. *)
Lemma render_month_draws_witness :
  exists ui',
    _render_month app0 _build_ui 0 31 dec10 = Drawn ui'
    /\ six_by_seven (day_buttons ui')
    /\ (forall day, (1 <= day <= 31)%nat ->
          exists b,
            grid_get (day_buttons ui') (day_row 0 day) (day_col 0 day) = Some b
            /\ btn_text b = pretty (Z.of_nat day)
            /\ btn_command b = Some (Date YEAR MONTH (Z.of_nat day))
            /\ btn_enabled b
               = clickable (_get_day_info app0 "D001" (Date YEAR MONTH (Z.of_nat day))))
    /\ (forall q, (q < 42)%nat -> (q < 0 \/ 0 + 31 <= q)%nat ->
          exists b,
            cell (day_buttons ui') q = Some b
            /\ btn_text b = ""%string /\ btn_enabled b = false).
Proof.
  apply (render_month_draws app0 _build_ui 0 31 dec10 "D001").
  - reflexivity.
  - discriminate.
  - split; [reflexivity|]. repeat constructor.
  - lia.
  - lia.
Defined.

(** X11.  A doctor passed without [DoctorID] is looked up by name.  When
    the items of [doctor_names] have one item per key, the id that
    [__init__] selects is one whose name in [doctor_names] is the
    doctor's name, and no id is selected only when no doctor of
    [Doctors.csv] has that name. *)
Theorem init_finds_doctor_by_name (items : list (string * string))
    (doc : gmap string string) (name : string) :
  NoDup (map fst items) ->
  truthy (doc !! "DoctorID"%string) = false ->
  doc !! "Name"%string = Some name ->
  name <> ""%string ->
  match init_doctor_id items (Some doc) with
  | Some id => names_of items !! id = Some name
  | None => forall id, names_of items !! id <> Some name
  end.
Proof.
  intros Hnd Hid Hname Hne.
  unfold init_doctor_id. rewrite Hid, Hname. cbn [truthy or_empty].
  destruct (String.eqb_spec name ""); [contradiction|]. cbn [negb andb].
  assert (Hfind : match id_by_name items name with
                  | Some id => names_of items !! id = Some name
                  | None => forall id, names_of items !! id <> Some name
                  end).
  { unfold id_by_name, names_of.
    destruct (List.find (fun it => bool_decide (it.2 = name)) items) as [[id nm]|] eqn:Hf.
    - apply List.find_some in Hf. destruct Hf as [Hin Hb].
      apply bool_decide_eq_true_1 in Hb. simpl in Hb. subst nm. simpl.
      apply elem_of_list_to_map_1; [exact Hnd|]. apply list_elem_of_In. exact Hin.
    - simpl. intros id Hlk. apply elem_of_list_to_map_2 in Hlk.
      apply list_elem_of_In in Hlk.
      pose proof (List.find_none _ _ Hf _ Hlk) as Hb.
      apply bool_decide_eq_false_1 in Hb. apply Hb. reflexivity. }
  case_bool_decide as Hempty; [|exact Hfind].
  subst items. intros id. unfold names_of. simpl. rewrite lookup_empty. discriminate.
Qed.

Lemma init_finds_doctor_by_name_witness :
  names_of doctor_items !! "D002"%string = Some "Dr. Maya Chen"%string.
Proof.
  apply (init_finds_doctor_by_name doctor_items doctor_chen "Dr. Maya Chen");
    [ apply (bool_decide_unpack _); vm_compute; exact I
    | reflexivity | reflexivity | discriminate ].
Defined.

(** X12.  A calendar opened for a doctor that has no [DoctorID] and whose
    name no item of [doctor_names] carries draws no month and books
    nothing: every request of every session is rejected for the missing
    doctor, and ledger and file stay as they were. *)
Theorem unknown_doctor_books_nothing (availability : list AvailRow) (appts : list ApptRow)
    (items : list (string * string)) (doc : gmap string string) (patient : option Patient)
    (callback : option (Z -> date -> callback_result))
    (first_weekday num_days : nat) (today : date) (reqs : list Request) (disk : Disk) :
  truthy (doc !! "DoctorID"%string) = false ->
  (forall it, In it items -> snd it <> or_empty (doc !! "Name"%string)) ->
  let made :=
    init availability appts items (Some doc) patient callback first_weekday num_days today in
  (exists ui, snd made = NotDrawn ui)
  /\ run (fst made) disk reqs = (fst made, disk)
  /\ Forall (fun o => o = Rejected NoDoctor) (outcomes (fst made) disk reqs).
Proof.
  intros Hid Hnone. cbv zeta.
  assert (Hsel : init_doctor_id items (Some doc) = None).
  { unfold init_doctor_id. rewrite Hid.
    destruct (truthy (doc !! "Name"%string) && negb (bool_decide (items = []))); [|reflexivity].
    unfold id_by_name.
    destruct (List.find _ items) as [it|] eqn:Hf; [|reflexivity].
    apply List.find_some in Hf. destruct Hf as [Hin Hb].
    apply bool_decide_eq_true_1 in Hb. exfalso. exact (Hnone it Hin Hb). }
  unfold init. cbn [init_attrs selected_doctor_id]. rewrite Hsel. cbn [truthy fst snd].
  split; [eexists; reflexivity|].
  set (self := init_attrs availability appts items (Some doc) patient callback).
  assert (Hstep : forall disk env d D,
            _try_book self disk env d D
            = {| res_outcome := Rejected NoDoctor; res_app := self; res_disk := disk;
                 res_events := [DialogDestroy;
                                ShowWarning "Missing Doctor" "No DoctorID set. Cannot book."] |}).
  { intros. unfold _try_book. unfold self at 1. cbn [init_attrs selected_doctor_id].
    rewrite Hsel. reflexivity. }
  clearbody self. revert disk. induction reqs as [|rq rest IH]; intros disk.
  - split; [reflexivity | constructor].
  - simpl. rewrite Hstep. simpl. destruct (IH disk) as [IH1 IH2].
    split; [exact IH1 | constructor; [reflexivity | exact IH2]].
Qed.

Lemma unknown_doctor_books_nothing_witness :
  (exists ui, snd (init availability [] doctor_items (Some doctor_nobody) None (Some cb_store)
                     0 31 dec10) = NotDrawn ui)
  /\ run (fst (init availability [] doctor_items (Some doctor_nobody) None (Some cb_store)
                 0 31 dec10)) disk0 scenario1
     = (fst (init availability [] doctor_items (Some doctor_nobody) None (Some cb_store)
               0 31 dec10), disk0)
  /\ Forall (fun o => o = Rejected NoDoctor)
       (outcomes (fst (init availability [] doctor_items (Some doctor_nobody) None
                         (Some cb_store) 0 31 dec10)) disk0 scenario1).
Proof.
  apply (unknown_doctor_books_nothing availability [] doctor_items doctor_nobody None
           (Some cb_store) 0 31 dec10 scenario1 disk0).
  - reflexivity.
  - simpl. intros it [<-|[<-|[]]]; discriminate.
Defined.

End CalendarUiExtras.

(* ===================================================================== *)
(** ** Input formatting                                                   *)
(* ===================================================================== *)

Module FormattingFacts.

Import Formatting.

#[local] Arguments String.append : simpl nomatch.

Lemma substring_nil (i n : nat) : substring i n "" = ""%string.
Proof. destruct i, n; reflexivity. Qed.

Lemma substring_0_0 (s : string) : substring 0 0 s = ""%string.
Proof. destruct s; reflexivity. Qed.

Lemma append_empty_r (s : string) : (s ++ "")%string = s.
Proof. induction s as [|c s IH]; simpl; [reflexivity | f_equal; exact IH]. Qed.

Lemma substring_n_0 (s : string) : forall i, substring i 0 s = ""%string.
Proof.
  induction s as [|c s IH]; intros [|i]; simpl; try reflexivity. apply IH.
Qed.

Lemma substring_past (s : string) : forall i n, (String.length s <= i)%nat -> substring i n s = ""%string.
Proof.
  induction s as [|c s IH]; intros i n Hi.
  - apply substring_nil.
  - destruct i as [|i]; [simpl in Hi; lia|]. simpl. apply IH. simpl in Hi. lia.
Qed.

Lemma length_substring_0 (s : string) : forall n,
  String.length (substring 0 n s) = Nat.min n (String.length s).
Proof.
  induction s as [|c s IH]; intros [|n]; simpl; try reflexivity.
  rewrite IH. reflexivity.
Qed.

Lemma substring_0_all (s : string) : forall n, (String.length s <= n)%nat -> substring 0 n s = s.
Proof.
  induction s as [|c s IH]; intros [|n] Hn; simpl in *; try reflexivity; try lia.
  rewrite IH by lia. reflexivity.
Qed.

(** A slice of a prefix that is long enough is the slice of the whole. *)
Lemma substring_prefix (s : string) : forall i g n,
  (i + g <= n)%nat -> substring i g (substring 0 n s) = substring i g s.
Proof.
  induction s as [|c s IH]; intros i g n Hn.
  - rewrite !substring_nil. reflexivity.
  - destruct n as [|n].
    + assert (i = 0 /\ g = 0)%nat as [-> ->] by lia. reflexivity.
    + destruct i as [|i].
      * destruct g as [|g]; [reflexivity|]. simpl.
        f_equal. apply (IH 0%nat g n). lia.
      * simpl. apply IH. lia.
Qed.

(** Two slices that follow each other make one. *)
Lemma substring_app (s : string) : forall i g h,
  (substring i g s ++ substring (i + g) h s)%string = substring i (g + h) s.
Proof.
  induction s as [|c s IH]; intros i g h.
  - rewrite !substring_nil. reflexivity.
  - destruct i as [|i].
    + destruct g as [|g].
      * simpl. destruct h; reflexivity.
      * change (String c (substring 0 g s ++ substring (0 + g) h s)%string
                = String c (substring 0 (g + h) s)).
        f_equal. apply (IH 0%nat g h).
    + simpl. apply IH.
Qed.

Lemma digits_only_app (s t : string) :
  digits_only (s ++ t) = (digits_only s ++ digits_only t)%string.
Proof.
  induction s as [|c s IH]; simpl; [reflexivity|].
  destruct (is_digit c); simpl; rewrite IH; reflexivity.
Qed.

Lemma digits_only_idem (s : string) : digits_only (digits_only s) = digits_only s.
Proof.
  induction s as [|c s IH]; simpl; [reflexivity|].
  destruct (is_digit c) eqn:Hc; simpl; rewrite ?Hc, IH; reflexivity.
Qed.

Lemma length_digits_only (s : string) : (String.length (digits_only s) <= String.length s)%nat.
Proof.
  induction s as [|c s IH]; simpl; [lia|]. destruct (is_digit c); simpl; lia.
Qed.

(** A string of digits, cut anywhere, is a string of digits. *)
Lemma digits_only_substring (s : string) : forall i g,
  digits_only s = s -> digits_only (substring i g s) = substring i g s.
Proof.
  induction s as [|c s IH]; intros i g Hs.
  - rewrite substring_nil. reflexivity.
  - simpl in Hs. destruct (is_digit c) eqn:Hc.
    + injection Hs as Hs. destruct i as [|i].
      * destruct g as [|g]; simpl; [reflexivity|]. rewrite Hc, (IH 0%nat g Hs). reflexivity.
      * simpl. apply IH. exact Hs.
    + exfalso. pose proof (length_digits_only s) as Hl.
      rewrite Hs in Hl. simpl in Hl. lia.
Qed.

(** The parts, put end to end, are the slice of all the groups. *)
Lemma concat_pattern_parts (d : string) (groups : list nat) : forall i,
  String.concat "" (pattern_parts d groups i) = substring i (total groups) d.
Proof.
  induction groups as [|g rest IH]; intros i; simpl.
  - rewrite substring_n_0. reflexivity.
  - destruct (Nat.leb_spec (String.length d) i) as [Hle|Hlt].
    + rewrite substring_past by exact Hle. reflexivity.
    + rewrite <- substring_app, <- IH.
      simpl. destruct (pattern_parts d rest (i + g)); simpl.
      * symmetry. apply append_empty_r.
      * reflexivity.
Qed.

Lemma pattern_parts_digits (d : string) (groups : list nat) : forall i,
  digits_only d = d -> Forall (fun p => digits_only p = p) (pattern_parts d groups i).
Proof.
  induction groups as [|g rest IH]; intros i Hd; simpl; [constructor|].
  destruct (String.length d <=? i)%nat; [constructor|].
  constructor; [apply digits_only_substring; exact Hd | apply IH; exact Hd].
Qed.

(** The separators go when the digits of a joined text are taken. *)
Lemma digits_only_concat (sep : string) (parts : list string) :
  digits_only sep = ""%string ->
  Forall (fun p => digits_only p = p) parts ->
  digits_only (String.concat sep parts) = String.concat "" parts.
Proof.
  intros Hsep Hparts. induction Hparts as [|p rest Hp Hrest IH]; [reflexivity|].
  simpl. destruct rest as [|q rest'].
  - exact Hp.
  - rewrite !digits_only_app, Hp, Hsep, IH. reflexivity.
Qed.

(** With groups that are not empty, only the digits under the groups
    count. *)
Lemma pattern_parts_prefix (groups : list nat) : forall (d : string) (i : nat),
  Forall (fun g => (0 < g)%nat) groups ->
  pattern_parts (substring 0 (i + total groups) d) groups i = pattern_parts d groups i.
Proof.
  induction groups as [|g rest IH]; intros d i Hpos; [reflexivity|].
  inversion Hpos as [|g' rest' Hg Hrest]; subst. simpl.
  rewrite length_substring_0.
  destruct (Nat.leb_spec (String.length d) i) as [Hle|Hlt].
  - destruct (Nat.leb_spec (Nat.min (i + (g + total rest)) (String.length d)) i); [reflexivity|lia].
  - destruct (Nat.leb_spec (Nat.min (i + (g + total rest)) (String.length d)) i); [lia|].
    rewrite substring_prefix by lia. f_equal.
    replace (i + (g + total rest))%nat with (i + g + total rest)%nat by lia.
    apply IH. exact Hrest.
Qed.

Lemma substring_0_twice (s : string) (n m : nat) :
  substring 0 n (substring 0 m s) = substring 0 (Nat.min n m) s.
Proof.
  destruct (Nat.le_ge_cases n m) as [H|H].
  - rewrite Nat.min_l by exact H. apply (substring_prefix s 0 n m). lia.
  - rewrite Nat.min_r by exact H.
    apply substring_0_all. rewrite length_substring_0. lia.
Qed.

Lemma length_substring (s : string) : forall i g,
  (i + g <= String.length s)%nat -> String.length (substring i g s) = g.
Proof.
  induction s as [|c s IH]; intros i g Hfit; simpl in Hfit.
  - assert (i = 0 /\ g = 0)%nat as [-> ->] by lia. reflexivity.
  - destruct i as [|i].
    + destruct g as [|g]; [reflexivity|]. simpl. rewrite (IH 0%nat g) by lia. reflexivity.
    + simpl. apply IH. lia.
Qed.

Lemma pattern_parts_lengths (d : string) (groups : list nat) : forall i,
  Forall (fun g => (0 < g)%nat) groups ->
  (i + total groups <= String.length d)%nat ->
  map String.length (pattern_parts d groups i) = groups.
Proof.
  induction groups as [|g rest IH]; intros i Hpos Hfit; [reflexivity|].
  inversion Hpos as [|g' rest' Hg Hrest]; subst. simpl in Hfit |- *.
  destruct (Nat.leb_spec (String.length d) i); [lia|].
  simpl. rewrite length_substring by lia. f_equal. apply IH; [exact Hrest | lia].
Qed.

(** The digits of a formatted text. *)
Lemma on_key_release_digits (groups : list nat) (max_digits : nat) (sep entry : string) :
  digits_only sep = ""%string ->
  digits_only (on_key_release groups max_digits sep entry)
  = substring 0 (Nat.min (total groups) max_digits) (digits_only entry).
Proof.
  intros Hsep. unfold on_key_release, format_with_pattern.
  rewrite substring_0_twice, Nat.min_id.
  assert (Hd : digits_only (substring 0 max_digits (digits_only entry))
               = substring 0 max_digits (digits_only entry)).
  { apply digits_only_substring, digits_only_idem. }
  rewrite (digits_only_concat sep _ Hsep (pattern_parts_digits _ groups 0 Hd)).
  rewrite concat_pattern_parts. apply substring_0_twice.
Qed.

End FormattingFacts.

Section FormattingExtras.

Import Formatting FormattingFacts.

(** X13.  The live formatter keeps the digits that were typed, in their
    order, up to the number of digits allowed and to the room the groups
    give, and nothing else: with a separator that has no digit, the
    digits of the new text are the first min(sum of groups, max) digits
    of the old text. *)
Theorem formatter_keeps_typed_digits (groups : list nat) (max_digits : nat)
    (sep entry : string) :
  digits_only sep = ""%string ->
  digits_only (on_key_release groups max_digits sep entry)
  = substring 0 (Nat.min (total groups) max_digits) (digits_only entry).
Proof. apply on_key_release_digits. Qed.

Lemma formatter_keeps_typed_digits_witness :
  digits_only (on_key_release [3; 3; 4]%nat 10 "-" "(555) 867-5309 ext 12")
  = substring 0 (Nat.min (total [3; 3; 4]%nat) 10) (digits_only "(555) 867-5309 ext 12").
Proof.
  apply (formatter_keeps_typed_digits [3; 3; 4]%nat 10 "-" "(555) 867-5309 ext 12").
  reflexivity.
Defined.

(** X14.  The live formatter is stable: with groups that are not empty
    and a separator that has no digit, a key released on a text that is
    already formatted leaves the text as it is. *)
Theorem formatter_idempotent (groups : list nat) (max_digits : nat) (sep entry : string) :
  Forall (fun g => (0 < g)%nat) groups ->
  digits_only sep = ""%string ->
  on_key_release groups max_digits sep (on_key_release groups max_digits sep entry)
  = on_key_release groups max_digits sep entry.
Proof.
  intros Hpos Hsep.
  unfold on_key_release at 1. rewrite (on_key_release_digits groups max_digits sep entry Hsep).
  unfold on_key_release, format_with_pattern.
  rewrite !substring_0_twice, Nat.min_id. f_equal.
  set (D := digits_only entry).
  rewrite <- (pattern_parts_prefix groups (substring 0 max_digits D) 0 Hpos).
  simpl Nat.add. rewrite substring_0_twice.
  assert (E : Nat.min max_digits (Nat.min (total groups) max_digits)
              = Nat.min (total groups) max_digits) by lia.
  rewrite E. reflexivity.
Qed.

Lemma formatter_idempotent_witness :
  on_key_release [3; 2; 4]%nat 9 "-" (on_key_release [3; 2; 4]%nat 9 "-" "12345678")
  = on_key_release [3; 2; 4]%nat 9 "-" "12345678".
Proof.
  apply (formatter_idempotent [3; 2; 4]%nat 9 "-" "12345678").
  - repeat constructor.
  - reflexivity.
Defined.

(** X15.  Enough digits fill the pattern: when the digits cover the
    groups, and no group is empty, [format_with_pattern] returns one
    part per group, each of the size of its group, joined by the
    separator; ten digits under groups 3, 3, 4 read XXX-XXX-XXXX. *)
Theorem format_fills_pattern (digits : string) (groups : list nat) (sep : string) :
  Forall (fun g => (0 < g)%nat) groups ->
  (total groups <= String.length digits)%nat ->
  exists parts,
    format_with_pattern digits groups sep None = String.concat sep parts
    /\ map String.length parts = groups
    /\ String.concat "" parts = substring 0 (total groups) digits.
Proof.
  intros Hpos Hfit. exists (pattern_parts digits groups 0).
  split; [reflexivity|]. split.
  - apply pattern_parts_lengths; [exact Hpos | simpl; exact Hfit].
  - apply concat_pattern_parts.
Qed.

Lemma format_fills_pattern_witness :
  exists parts,
    format_with_pattern "5558675309" [3; 3; 4]%nat "-" None = String.concat "-" parts
    /\ map String.length parts = [3; 3; 4]%nat
    /\ String.concat "" parts = substring 0 (total [3; 3; 4]%nat) "5558675309".
Proof.
  apply (format_fills_pattern "5558675309" [3; 3; 4]%nat "-").
  - repeat constructor.
  - simpl. lia.
Defined.

End FormattingExtras.

(* ===================================================================== *)
(** ** The main window, the calendar and the bill                         *)
(* ===================================================================== *)

Module HospitalFacts.

Import Num Str Calendar Billing Spec Ledger PatientData CalendarUi Hospital.
Import NumFacts CalendarFacts BookingFacts BillingFacts.
Local Open Scope Q_scope.

#[local] Arguments Qcompare : simpl never.
#[local] Arguments _get_remaining_units : simpl never.

(** The multiplier of a quote is the table's for the minutes billed. *)
Lemma recalc_mult_table (self : BillingScreen) :
  timeMultiplier (mins (recalc self)) = Some (mult (recalc self)).
Proof.
  unfold recalc. cbn [mins mult]. rewrite time_mult_timeMultiplier.
  destruct (last_appointment_minutes self) as [D|]; cbn [not_in_30_45_60]; [|reflexivity].
  destruct (Z.eqb_spec D 30) as [->|H30]; [reflexivity|].
  destruct (Z.eqb_spec D 45) as [->|H45]; [reflexivity|].
  destruct (Z.eqb_spec D 60) as [->|H60]; [reflexivity|].
  reflexivity.
Qed.


(** The fields of the row that a passing request appends. *)
Lemma try_book_row_fields (self : CalendarApp) (disk : Disk) (env : Env) (d : date) (D : Z) :
  first_failure self d D = None ->
  exists a,
    appts_df (res_app (_try_book self disk env d D)) = appts_df self ++ [a]
    /\ (disk_ok env = true -> res_outcome (_try_book self disk env d D) = Committed a)
    /\ ap_AppointmentDate a = Some d
    /\ ap_DurationMinutes a = D
    /\ ap_PatientID a
       = (if truthy (selected_patient_id self) then or_empty (selected_patient_id self)
          else ""%string)
    /\ ap_PatientName a = or_empty (patient_name self)
    /\ ap_DoctorName a
       = (if truthy (doctor_display_name self) then or_empty (doctor_display_name self)
          else default (str (selected_doctor_id self))
                 (doctor_names self !! str (selected_doctor_id self)))
    /\ ap_ScheduledAt a = clock_sched env.
Proof.
  unfold first_failure, _try_book.
  destruct (selected_doctor_id self) as [doctor_id|] eqn:Hsel; simpl; [|discriminate].
  destruct (decide (doctor_id = ""%string)) as [->|Hne]; [discriminate|].
  destruct (String.eqb_spec doctor_id ""); [contradiction|]. simpl.
  pose proof (avail_rows_cases (availability_df self) doctor_id d) as Hrows.
  destruct (lookup (availability_df self) doctor_id d) as [rec|] eqn:Hlk; [|discriminate].
  destruct Hrows as [rest ->].
  destruct (av_IsAvailable rec) eqn:Hav; simpl; [|discriminate].
  rewrite DURATION_TO_UNITS_unit_cost.
  destruct (unit_cost D) as [cost|] eqn:Hcost; [|discriminate].
  rewrite capacity_check.
  destruct (Qlt_le_dec _ cost) as [Hlt|Hle]; [discriminate|]. intros _.
  assert (Hcmp : (remainingUnits (av_DailyCapacityUnits rec)
                    (bookedUnitsFor (appts_df self) doctor_id d) ?= cost) <> Lt).
  { intros Hc. apply (proj2 (Qlt_alt _ _)) in Hc. lra. }
  destruct (remainingUnits _ _ ?= cost); [|contradiction|];
    (eexists; split; [destruct (disk_ok env); reflexivity|];
     split; [intros ->; reflexivity|]; repeat split).
Qed.

(** A booking attempt keeps the callback of the calendar. *)
Lemma try_book_on_confirm (self : CalendarApp) (disk : Disk) (env : Env) (d : date) (D : Z) :
  on_confirm (res_app (_try_book self disk env d D)) = on_confirm self.
Proof.
  destruct (first_failure self d D) as [why|] eqn:Hff.
  - destruct (try_book_rejected self disk env d D why Hff) as (ev & -> & _). reflexivity.
  - destruct (try_book_passed self disk env d D Hff)
      as (doc & rec & cost & a & _ & _ & _ & _ & _ & _ & _ & _ & _ & _ & _ & _ & -> & _).
    reflexivity.
Qed.

(** What one booking attempt of a calendar that calls back the main
    window does to the main window. *)
Lemma deliver_try_book (app : HospitalApp) (self : CalendarApp) (disk : Disk) (env : Env)
    (d : date) (D : Z) :
  on_confirm self = Some confirmed_callback ->
  deliver app (res_events (_try_book self disk env d D))
  = if committed (res_outcome (_try_book self disk env d D))
    then on_appointment_confirmed app D d
    else app.
Proof.
  intros Hcb.
  destruct (first_failure self d D) as [why|] eqn:Hff.
  - destruct (try_book_rejected self disk env d D why Hff) as (ev & -> & Hev).
    simpl. destruct ev; try reflexivity; discriminate.
  - destruct (try_book_passed self disk env d D Hff)
      as (doc & rec & cost & a & _ & _ & _ & _ & _ & _ & _ & _ & _ & _ & _ & _ & _ & Hd).
    destruct (disk_ok env).
    + destruct Hd as (-> & _ & ->). unfold notify. rewrite Hcb. reflexivity.
    + destruct Hd as (-> & _ & ->). reflexivity.
Qed.

Lemma deliver_app (app : HospitalApp) (e1 e2 : list event) :
  deliver app (e1 ++ e2) = deliver (deliver app e1) e2.
Proof. unfold deliver. apply fold_left_app. Qed.

(** A commit stores a duration that the bill accepts. *)
Lemma committed_duration (self : CalendarApp) (disk : Disk) (env : Env) (d : date) (D : Z) :
  committed (res_outcome (_try_book self disk env d D)) = true ->
  not_in_30_45_60 (Some D) = false.
Proof.
  intros Hc.
  assert (Hff : first_failure self d D = None).
  { apply (not_rejected_passed self disk env). destruct (res_outcome _); try reflexivity.
    discriminate. }
  destruct (try_book_passed self disk env d D Hff)
    as (doc & rec & cost & a & _ & _ & _ & _ & Hcost & _).
  destruct (unit_cost_cases D cost Hcost) as [[-> _]|[[-> _]|[-> _]]]; reflexivity.
Qed.

(** The calendar that the main window opens. *)
Lemma show_calendar_attrs (app : HospitalApp) (doctor : gmap string string)
    (availability : list AvailRow) (appts : list ApptRow) (items : list (string * string))
    (fw nd : nat) (today : date) (cal : CalendarApp) (rr : render_result) :
  show_calendar_screen app doctor availability appts items fw nd today = Some (cal, rr) ->
  truthy (p_Pid (h_patient app)) = true
  /\ on_confirm cal = Some confirmed_callback
  /\ selected_patient_id cal = p_Pid (h_patient app)
  /\ patient_name cal = Some (p_Pname (h_patient app))
  /\ doctor_display_name cal = doctor !! "Name"%string
  /\ appts_df cal = appts.
Proof.
  unfold show_calendar_screen.
  destruct (truthy (p_Pid (h_patient app))) eqn:Hpid; [|discriminate].
  cbn [negb]. intros [= Hinit]. split; [reflexivity|].
  unfold init in Hinit.
  destruct (truthy (selected_doctor_id _)) in Hinit;
    injection Hinit as <- _; repeat split; reflexivity.
Qed.

(** What a session of a calendar that calls back the main window leaves
    in the main window. *)
Lemma deliver_session (reqs : list Request) : forall (app : HospitalApp) (cal : CalendarApp)
    (disk : Disk),
  on_confirm cal = Some confirmed_callback ->
  if existsb committed (outcomes cal disk reqs)
  then not_in_30_45_60 (h_last_appointment_minutes
                          (deliver app (session_events cal disk reqs))) = false
       /\ is_Some (h_last_appointment_date (deliver app (session_events cal disk reqs)))
  else deliver app (session_events cal disk reqs) = app.
Proof.
  induction reqs as [|rq rest IH]; intros app cal disk Hcb; [reflexivity|].
  cbn [outcomes session_events existsb].
  set (r := _try_book cal disk (req_env rq) (req_date rq) (req_duration rq)).
  rewrite deliver_app.
  pose proof (deliver_try_book app cal disk (req_env rq) (req_date rq) (req_duration rq) Hcb)
    as Hstep. fold r in Hstep.
  pose proof (committed_duration cal disk (req_env rq) (req_date rq) (req_duration rq))
    as Hdur. fold r in Hdur.
  assert (Hcb' : on_confirm (res_app r) = Some confirmed_callback).
  { unfold r. rewrite try_book_on_confirm. exact Hcb. }
  specialize (IH (deliver app (res_events r)) (res_app r) (res_disk r) Hcb').
  destruct (existsb committed (outcomes (res_app r) (res_disk r) rest)).
  - rewrite orb_true_r. exact IH.
  - rewrite orb_false_r, IH, Hstep.
    destruct (committed (res_outcome r)); [|reflexivity].
    cbn [on_appointment_confirmed h_last_appointment_minutes h_last_appointment_date].
    split; [apply Hdur; reflexivity | eauto].
Qed.

(** When the billing screen opens. *)
Lemma show_billing_opens (app : HospitalApp) (doctor : gmap string string)
    (fee_rows ins_rows : list (string * option Q)) :
  is_Some (show_billing_screen app doctor fee_rows ins_rows)
  <-> not_in_30_45_60 (h_last_appointment_minutes app) = false
      /\ is_Some (h_last_appointment_date app).
Proof.
  unfold show_billing_screen.
  destruct (not_in_30_45_60 (h_last_appointment_minutes app)); cbn [orb].
  - split; [intros [x Hx]; discriminate | intros [[=] _]].
  - case_bool_decide as Hd; cbn [negb].
    + split; [intros _; split; [reflexivity | exact Hd] | eauto].
    + split; [intros [x Hx]; discriminate | intros [_ Hd']; contradiction].
Qed.

(** Looking up a table that a loader has filled. *)
Lemma load_lookup (normalize : string -> string) (rows : list (string * option Q)) (k : string) :
  fold_left (fun m row => <[ normalize (fst row) := default 0.0 (snd row) ]> m) rows
    (∅ : gmap string Q) !! k
  = last_row_value normalize rows k.
Proof.
  unfold last_row_value.
  induction rows as [|row rest IH] using rev_ind.
  - simpl. apply lookup_empty.
  - rewrite fold_left_app, rev_app_distr. simpl.
    destruct (decide (normalize row.1 = k)) as [E|E].
    + rewrite bool_decide_eq_true_2 by exact E. rewrite E. apply lookup_insert_eq.
    + rewrite bool_decide_eq_false_2 by exact E.
      rewrite lookup_insert_ne by exact E. exact IH.
Qed.

End HospitalFacts.

Section HospitalExtras.

Import Num Str Calendar Billing Spec Ledger PatientData CalendarUi Hospital.
Import Examples MoreExamples HospitalExamples.
Import NumFacts CalendarFacts BookingFacts BillingFacts HospitalFacts.
Local Open Scope Q_scope.


(** X17.  The multiplier of a quote always comes from the table: the
    minutes that [recalc] bills are 30, 45 or 60 and the multiplier is
    the table's for them, so the default of 1.0 is never used. *)
Theorem recalc_multiplier_from_table (self : BillingScreen) :
  In (mins (recalc self)) [30; 45; 60]%Z
  /\ timeMultiplier (mins (recalc self)) = Some (mult (recalc self))
  /\ (mult (recalc self) = 1.5 \/ mult (recalc self) = 2.0 \/ mult (recalc self) = 2.5).
Proof.
  pose proof (recalc_mult_table self) as Ht.
  assert (Hin : In (mins (recalc self)) [30; 45; 60]%Z).
  { unfold recalc. cbn [mins].
    destruct (last_appointment_minutes self) as [D|]; cbn [not_in_30_45_60]; [|simpl; auto].
    destruct (Z.eqb_spec D 30) as [->|H30]; [simpl; auto|].
    destruct (Z.eqb_spec D 45) as [->|H45]; [simpl; auto|].
    destruct (Z.eqb_spec D 60) as [->|H60]; [simpl; auto|].
    simpl; auto. }
  split; [exact Hin|]. split; [exact Ht|].
  destruct Hin as [E|[E|[E|[]]]]; rewrite <- E in Ht.
  - left. change (timeMultiplier 30) with (Some 1.5) in Ht.
    injection Ht as Hm. symmetry. exact Hm.
  - right; left. change (timeMultiplier 45) with (Some 2.0) in Ht.
    injection Ht as Hm. symmetry. exact Hm.
  - right; right. change (timeMultiplier 60) with (Some 2.5) in Ht.
    injection Ht as Hm. symmetry. exact Hm.
Qed.

(** X18.  The billing screen opens only on a stored appointment of 30,
    45 or 60 minutes with a date; the quote of the screen it opens bills
    the minutes that are stored, not the fallback of 30. *)
Theorem billing_screen_needs_booking (app : HospitalApp) (doctor : gmap string string)
    (fee_rows ins_rows : list (string * option Q)) :
  (is_Some (show_billing_screen app doctor fee_rows ins_rows)
   <-> exists D d, h_last_appointment_minutes app = Some D /\ In D [30; 45; 60]%Z
                   /\ h_last_appointment_date app = Some d)
  /\ (forall frame, show_billing_screen app doctor fee_rows ins_rows = Some frame ->
        Some (mins (recalc (bf_screen frame))) = h_last_appointment_minutes app
        /\ last_net_cost frame = Some (net (recalc (bf_screen frame)))
        /\ saved_once frame = false).
Proof.
  unfold show_billing_screen.
  destruct (h_last_appointment_minutes app) as [D|] eqn:Hm; cbn [not_in_30_45_60 orb].
  2: { split; [split|].
       - intros [x Hx]. discriminate.
       - intros (D & d & [=] & _).
       - intros frame [=]. }
  destruct (h_last_appointment_date app) as [d|] eqn:Hd.
  2: { assert (E : bool_decide (is_Some (@None date)) = false).
       { apply bool_decide_eq_false_2. intros [x Hx]. discriminate. }
       rewrite E, orb_true_r. split; [split|].
       - intros [x Hx]. discriminate.
       - intros (D' & d' & _ & _ & [=]).
       - intros frame [=]. }
  assert (E : bool_decide (is_Some (Some d)) = true) by (apply bool_decide_eq_true_2; eauto).
  rewrite E. cbn [negb]. rewrite orb_false_r.
  assert (Hcases : (D =? 30)%Z || (D =? 45)%Z || (D =? 60)%Z = true <-> In D [30; 45; 60]%Z).
  { simpl. rewrite !orb_true_iff, !Z.eqb_eq. intuition congruence. }
  destruct ((D =? 30)%Z || (D =? 45)%Z || (D =? 60)%Z) eqn:Hin; cbn [negb].
  - split; [split|].
    + intros _. exists D, d. split; [reflexivity|]. split; [apply Hcases; reflexivity|reflexivity].
    + intros _. eauto.
    + intros frame [= <-]. cbn [billing_init bf_screen last_net_cost saved_once].
      split; [|split; reflexivity].
      unfold recalc. cbn [mins last_appointment_minutes]. rewrite Hm.
      cbn [not_in_30_45_60]. rewrite Hin. reflexivity.
  - split; [split|].
    + intros [x Hx]. discriminate.
    + intros (D' & d' & [= <-] & HD & _). apply Hcases in HD. discriminate.
    + intros frame [=].
Qed.

Lemma billing_screen_needs_booking_witness :
  is_Some (show_billing_screen (on_appointment_confirmed app_ann 45 dec10) doctor_blake
             fee_rows ins_rows).
Proof.
  apply (proj1 (billing_screen_needs_booking (on_appointment_confirmed app_ann 45 dec10)
                  doctor_blake fee_rows ins_rows)).
  exists 45%Z, dec10. split; [reflexivity|]. split; [simpl; auto | reflexivity].
Defined.

(** X19.  From the calendar to the bill.  In a calendar that the main
    window opened, a booking that commits stores its minutes and its date
    in the main window, after which the billing screen opens; any other
    end of a booking attempt leaves the main window as it was. *)
Theorem booking_opens_billing (app : HospitalApp) (doctor : gmap string string)
    (availability : list AvailRow) (appts : list ApptRow) (items : list (string * string))
    (fw nd : nat) (today : date) (cal : CalendarApp) (rr : render_result)
    (disk : Disk) (env : Env) (d : date) (D : Z)
    (fee_rows ins_rows : list (string * option Q)) :
  show_calendar_screen app doctor availability appts items fw nd today = Some (cal, rr) ->
  match res_outcome (_try_book cal disk env d D) with
  | Committed a =>
      h_last_appointment_minutes (deliver app (res_events (_try_book cal disk env d D)))
      = Some D
      /\ h_last_appointment_date (deliver app (res_events (_try_book cal disk env d D)))
         = Some d
      /\ is_Some (show_billing_screen
                    (deliver app (res_events (_try_book cal disk env d D)))
                    doctor fee_rows ins_rows)
  | _ => deliver app (res_events (_try_book cal disk env d D)) = app
  end.
Proof.
  intros Hshow.
  destruct (show_calendar_attrs _ _ _ _ _ _ _ _ _ _ Hshow) as (_ & Hcb & _).
  rewrite (deliver_try_book app cal disk env d D Hcb).
  pose proof (committed_duration cal disk env d D) as Hdur.
  destruct (res_outcome (_try_book cal disk env d D)); cbn [committed] in *; try reflexivity.
  split; [reflexivity|]. split; [reflexivity|].
  unfold show_billing_screen. cbn [on_appointment_confirmed h_last_appointment_minutes
                                   h_last_appointment_date].
  rewrite (Hdur eq_refl).
  assert (E : bool_decide (is_Some (Some d)) = true) by (apply bool_decide_eq_true_2; eauto).
  rewrite E. simpl. eauto.
Qed.

Lemma booking_opens_billing_witness :
  h_last_appointment_minutes (deliver app_ann (res_events (_try_book cal_ann disk0 env_a dec11 45)))
  = Some 45%Z
  /\ h_last_appointment_date (deliver app_ann (res_events (_try_book cal_ann disk0 env_a dec11 45)))
     = Some dec11
  /\ is_Some (show_billing_screen
                (deliver app_ann (res_events (_try_book cal_ann disk0 env_a dec11 45)))
                doctor_blake fee_rows ins_rows).
Proof.
  exact (booking_opens_billing app_ann doctor_blake Examples.availability [] doctor_items
           0 31 dec10 cal_ann
           (snd (init Examples.availability [] doctor_items (Some doctor_blake) (Some ann)
                   (Some confirmed_callback) 0 31 dec10))
           disk0 env_a dec11 45 fee_rows ins_rows eq_refl).
Defined.

(** X20.  A bill needs a booking.  From a main window that has just
    been made, and through any session of a calendar that calls it back,
    the billing screen opens exactly when some request of the session has
    committed. *)
Theorem bill_only_after_commit (p : Patient) (cal : CalendarApp) (disk : Disk)
    (reqs : list Request) (doctor : gmap string string)
    (fee_rows ins_rows : list (string * option Q)) :
  on_confirm cal = Some confirmed_callback ->
  is_Some (show_billing_screen (deliver (new_app p) (session_events cal disk reqs))
             doctor fee_rows ins_rows)
  <-> existsb committed (outcomes cal disk reqs) = true.
Proof.
  intros Hcb. rewrite show_billing_opens.
  pose proof (deliver_session reqs (new_app p) cal disk Hcb) as H.
  destruct (existsb committed (outcomes cal disk reqs)).
  - split; [reflexivity | intros _; exact H].
  - rewrite H. simpl. split; [intros [[=] _] | discriminate].
Qed.

Lemma bill_only_after_commit_witness :
  is_Some (show_billing_screen (deliver (new_app ann) (session_events cal_ann disk0 busy_session))
             doctor_blake fee_rows ins_rows)
  <-> existsb committed (outcomes cal_ann disk0 busy_session) = true.
Proof.
  apply (bill_only_after_commit ann cal_ann disk0 busy_session doctor_blake fee_rows ins_rows).
  reflexivity.
Defined.

(** X21.  The rows of a calendar that the main window opened carry the
    patient who is logged in: a committed row has that id, which is not
    empty, that name, the date and the minutes asked for, and the name of
    the doctor as the main window shows it. *)
Theorem committed_row_carries_patient (app : HospitalApp) (doctor : gmap string string)
    (availability : list AvailRow) (appts : list ApptRow) (items : list (string * string))
    (fw nd : nat) (today : date) (cal : CalendarApp) (rr : render_result)
    (disk : Disk) (env : Env) (d : date) (D : Z) (a : ApptRow) :
  show_calendar_screen app doctor availability appts items fw nd today = Some (cal, rr) ->
  res_outcome (_try_book cal disk env d D) = Committed a ->
  Some (ap_PatientID a) = p_Pid (h_patient app)
  /\ ap_PatientID a <> ""%string
  /\ ap_PatientName a = p_Pname (h_patient app)
  /\ ap_AppointmentDate a = Some d
  /\ ap_DurationMinutes a = D
  /\ (forall name, doctor !! "Name"%string = Some name -> name <> ""%string ->
        ap_DoctorName a = name).
Proof.
  intros Hshow Hout.
  destruct (show_calendar_attrs _ _ _ _ _ _ _ _ _ _ Hshow)
    as (Hpid & _ & Hsp & Hpn & Hdn & _).
  destruct (committed_passed cal disk env d D a Hout) as [Hff Hdisk].
  destruct (try_book_row_fields cal disk env d D Hff)
    as (a' & _ & Hc & Hdate & Hdur & Hid & Hname & Hdoc & _).
  specialize (Hc Hdisk). rewrite Hout in Hc. injection Hc as <-.
  rewrite Hsp, Hpid in Hid. rewrite Hpn in Hname.
  apply truthy_Some in Hpid. destruct Hpid as (pid & Hp & Hne).
  rewrite Hp in Hid |- *. simpl in Hid. rewrite Hid.
  split; [reflexivity|]. split; [exact Hne|]. split; [exact Hname|].
  split; [exact Hdate|]. split; [exact Hdur|].
  intros name Hn Hnn. rewrite Hdoc, Hdn, Hn. simpl.
  destruct (String.eqb_spec name ""); [contradiction | reflexivity].
Qed.

Lemma committed_row_carries_patient_witness :
  Some (ap_PatientID booked30) = p_Pid (h_patient app_ann)
  /\ ap_PatientID booked30 <> ""%string
  /\ ap_PatientName booked30 = p_Pname (h_patient app_ann)
  /\ ap_AppointmentDate booked30 = Some dec11
  /\ ap_DurationMinutes booked30 = 30%Z
  /\ (forall name, doctor_blake !! "Name"%string = Some name -> name <> ""%string ->
        ap_DoctorName booked30 = name).
Proof.
  apply (committed_row_carries_patient app_ann doctor_blake Examples.availability []
           doctor_items 0 31 dec10 cal_ann
           (snd (init Examples.availability [] doctor_items (Some doctor_blake) (Some ann)
                   (Some confirmed_callback) 0 31 dec10))
           disk0 env_c dec11 30 booked30); reflexivity.
Defined.

(** X22.  The tables of the bill.  In both loaders a later row replaces
    an earlier one with the same key, and a cell that is no number counts
    as 0.0; the fee table is keyed by the specialty stripped and in lower
    case, the discount table by the insurance id stripped, in the case it
    has.  The base fee of a bill is thus that of the last row of
    [Doctor_Fees.csv] whose specialty reads like the doctor's, whatever
    the case and the white space around, and 0.0 without such a row. *)
Theorem tables_last_row_wins (fee_rows ins_rows : list (string * option Q)) (k : string) :
  load_doctor_fee_map fee_rows !! k = last_row_value (fun s => lower (strip s)) fee_rows k
  /\ load_insurance_discount_map ins_rows !! k = last_row_value strip ins_rows k
  /\ forall app doctor,
       base_fee (recalc (bf_screen (billing_init app doctor fee_rows ins_rows)))
       = default 0.0 (last_row_value (fun s => lower (strip s)) fee_rows
                        (lower (strip (default ""%string (doctor !! "Specialty"%string))))).
Proof.
  split; [apply (load_lookup (fun s => lower (strip s)))|].
  split; [apply (load_lookup strip)|].
  intros app doctor. unfold recalc. cbn [base_fee billing_init bf_screen doc_fee_map Billing.doctor_info].
  unfold load_doctor_fee_map. rewrite (load_lookup (fun s => lower (strip s))). reflexivity.
Qed.

End HospitalExtras.

(* ===================================================================== *)
(** ** The patient information screen and the symptoms screen             *)
(* ===================================================================== *)

Module ScreenFacts.

Import Str PatientData Hospital PatientInfo SymptomsUi.

(** *** Stripping *)

Lemma lstrip_clean (s : string) :
  lstrip s = ""%string \/ exists c t, lstrip s = String c t /\ is_space c = false.
Proof.
  induction s as [|c s IH]; simpl; [left; reflexivity|].
  destruct (is_space c) eqn:Hc; [exact IH|]. right. eauto.
Qed.

Lemma rstrip_head (c : ascii) (t : string) :
  is_space c = false -> exists r, rstrip (String c t) = String c r.
Proof.
  intros Hc. simpl. destruct (rstrip t); [rewrite Hc|]; eauto.
Qed.

Lemma rstrip_idem (s : string) : rstrip (rstrip s) = rstrip s.
Proof.
  induction s as [|c s IH]; [reflexivity|].
  simpl. destruct (rstrip s) as [|c' r] eqn:Hr.
  - destruct (is_space c) eqn:Hc; [reflexivity|]. simpl. rewrite Hc. reflexivity.
  - change (rstrip (String c (String c' r))) with
      (match rstrip (String c' r) with
       | EmptyString => if is_space c then EmptyString else String c EmptyString
       | r' => String c r'
       end).
    rewrite IH. reflexivity.
Qed.

(** [strip] does nothing to a string that is stripped. *)
Lemma strip_idem (s : string) : strip (strip s) = strip s.
Proof.
  unfold strip.
  destruct (lstrip_clean s) as [->|(c & t & -> & Hc)]; [reflexivity|].
  destruct (rstrip_head c t Hc) as [r Hr]. rewrite Hr.
  simpl lstrip. rewrite Hc, <- Hr. apply rstrip_idem.
Qed.

(** *** Lists *)

Lemma list_remove_delete (l : list string) : forall (i : nat) (x : string),
  NoDup l -> l !! i = Some x -> list_remove x l = delete i l.
Proof.
  induction l as [|y rest IH]; intros i x Hnd Hi; [discriminate|].
  apply NoDup_cons in Hnd. destruct Hnd as [Hy Hrest].
  destruct i as [|i]; simpl in *.
  - injection Hi as ->. rewrite bool_decide_eq_true_2 by reflexivity. reflexivity.
  - assert (Hne : y <> x).
    { intros ->. apply Hy. apply (list_elem_of_lookup_2 rest i). exact Hi. }
    rewrite bool_decide_eq_false_2 by exact Hne. f_equal. apply IH; assumption.
Qed.

Lemma NoDup_delete (l : list string) (i : nat) : NoDup l -> NoDup (delete i l).
Proof.
  intros Hnd. apply (sublist_NoDup _ l Hnd). apply sublist_delete.
Qed.

(** A function that tells the items of a list apart tells apart any two
    of them. *)
Lemma NoDup_fmap_eq {A B : Type} (f : A -> B) (l : list A) (x y : A) :
  NoDup (map f l) -> In x l -> In y l -> f x = f y -> x = y.
Proof.
  induction l as [|z rest IH]; intros Hnd Hx Hy Hf; [destruct Hx|].
  simpl in Hnd. apply NoDup_cons in Hnd. destruct Hnd as [Hz Hrest].
  assert (Hin : forall w, In w rest -> f z <> f w).
  { intros w Hw E. apply Hz. rewrite E. apply list_elem_of_In. apply List.in_map. exact Hw. }
  destruct Hx as [->|Hx], Hy as [->|Hy].
  - reflexivity.
  - exfalso. exact (Hin y Hy Hf).
  - exfalso. apply (Hin x Hx). symmetry. exact Hf.
  - apply IH; assumption.
Qed.

(** *** Allergies *)

Lemma allergy_step_in_step (self : PatientInfoScreen) (a : allergy_action) :
  in_step self -> in_step (allergy_step self a).
Proof.
  intros [Hsync Hnd]. destruct a as [text| |selection]; simpl.
  - split; assumption.
  - unfold add_allergy.
    destruct (String.eqb (strip (allergy_entry self)) ""); [split; assumption|].
    case_bool_decide as Hin; simpl; [split; assumption|].
    split; [rewrite Hsync; reflexivity|].
    apply NoDup_app. split; [exact Hnd|]. split.
    + intros x Hx Hx'. apply list_elem_of_singleton in Hx'. subst x. contradiction.
    + apply NoDup_singleton.
  - unfold remove_allergy. destruct selection as [|index rest]; [split; assumption|].
    destruct (allergies_list self !! index) as [x|] eqn:Hx; [|split; assumption].
    simpl. rewrite Hsync, (list_remove_delete _ index x Hnd Hx).
    split; [reflexivity | apply NoDup_delete; exact Hnd].
Qed.

(** *** Insurance *)

(** The item that a search of the list returns is in the list and
    passes the test. *)
Lemma find_item (P : string * string -> bool) (l : list (string * string))
    (item : string * string) :
  List.find P l = Some item -> In item l /\ P item = true.
Proof. apply List.find_some. Qed.

(** Saving the name of an item of the list whose names, stripped, are
    all different. *)
Lemma saved_insurance_of_item (self : PatientInfoScreen) (p : Patient) (id name : string) :
  NoDup (map (fun item => strip (snd item)) (insurance_list self)) ->
  In (id, name) (insurance_list self) ->
  insurance_var self = name ->
  saved_insurance self p
  = if bool_decide (strip name = name /\ name <> ""%string) then Some id else p_insurance p.
Proof.
  intros Hnd Hin Hvar. unfold saved_insurance. rewrite Hvar.
  destruct (String.eqb_spec (strip name) "") as [Hempty|Hne].
  { rewrite bool_decide_eq_false_2; [reflexivity|]. intros [E Hn]. congruence. }
  destruct (List.find _ (insurance_list self)) as [item|] eqn:Hf.
  - apply find_item in Hf. destruct Hf as [Hitem Hb].
    apply bool_decide_eq_true_1 in Hb.
    assert (E : item = (id, name)).
    { apply (NoDup_fmap_eq (fun it => strip (snd it)) (insurance_list self)); try assumption.
      simpl. rewrite Hb. apply strip_idem. }
    subst item. simpl in Hb.
    rewrite bool_decide_eq_true_2; [reflexivity|]. split; [congruence|].
    intros ->. apply Hne. reflexivity.
  - rewrite bool_decide_eq_false_2; [reflexivity|]. intros [E _].
    pose proof (List.find_none _ _ Hf _ Hin) as Hb.
    apply bool_decide_eq_false_1 in Hb. apply Hb. simpl. symmetry. exact E.
Qed.

(** *** Symptoms *)

(** The lines selected on opening, when membership in what was selected
    before is membership of the index in a selection. *)
Lemma select_previous_filter (symptoms prev : list string) (sel : list nat) : forall k,
  (forall j s, symptoms !! j = Some s -> (s ∈ prev <-> (k + j)%nat ∈ sel)) ->
  select_previous k symptoms prev = filter (fun i => i ∈ sel) (seq k (length symptoms)).
Proof.
  induction symptoms as [|s rest IH]; intros k Hmem; [reflexivity|].
  simpl. rewrite filter_cons.
  assert (Hs : s ∈ prev <-> k ∈ sel).
  { rewrite (Hmem 0%nat s eq_refl), Nat.add_0_r. reflexivity. }
  assert (Hrest : select_previous (S k) rest prev
                  = filter (fun i => i ∈ sel) (seq (S k) (length rest))).
  { apply IH. intros j s' Hj. rewrite (Hmem (S j) s' Hj).
    replace (k + S j)%nat with (S k + j)%nat by lia. reflexivity. }
  case_bool_decide as Hp; destruct (decide (k ∈ sel)) as [Hk|Hk]; try tauto;
    rewrite Hrest; reflexivity.
Qed.

(** Two tests that agree on a list filter it alike. *)
Lemma filter_agree (P Q : nat -> Prop) `{!forall x, Decision (P x)} `{!forall x, Decision (Q x)}
    (l : list nat) :
  (forall x, x ∈ l -> (P x <-> Q x)) -> filter P l = filter Q l.
Proof.
  induction l as [|x rest IH]; intros Hag; [reflexivity|].
  rewrite !filter_cons.
  assert (Hx : P x <-> Q x) by (apply Hag; left).
  assert (Hrest : filter P rest = filter Q rest)
    by (apply IH; intros y Hy; apply Hag; right; exact Hy).
  destruct (decide (P x)), (decide (Q x)); try tauto; rewrite Hrest; reflexivity.
Qed.

(** An ascending selection is what filtering the indices by it gives. *)
Lemma filter_ascending (n : nat) : forall (k : nat) (sel : list nat),
  ascending_from k sel -> Forall (fun i => (i < k + n)%nat) sel ->
  filter (fun i => i ∈ sel) (seq k n) = sel.
Proof.
  induction n as [|n IH]; intros k sel Hasc Hlt.
  - destruct sel as [|i rest]; [reflexivity|].
    destruct Hasc as [Hk _]. inversion Hlt; subst. lia.
  - simpl. rewrite filter_cons.
    destruct sel as [|i rest].
    + destruct (decide (k ∈ [])) as [Hk|_]; [inversion Hk|].
      apply (IH (S k) []); [exact I | constructor].
    + destruct Hasc as [Hk Hrest]. inversion Hlt as [|i' rest' Hi Hlt']; subst.
      assert (Hge : forall m, ascending_from m rest -> Forall (fun j => (m <= j)%nat) rest).
      { clear. induction rest as [|j rest IHr]; intros m Hm; [constructor|].
        destruct Hm as [Hmj Hr]. constructor; [exact Hmj|].
        eapply Forall_impl; [apply (IHr (S j) Hr)|]. simpl. intros; lia. }
      destruct (decide (i = k)) as [->|Hne].
      * destruct (decide (k ∈ k :: rest)) as [_|Hn]; [|exfalso; apply Hn; left].
        f_equal.
        transitivity (filter (fun j => j ∈ rest) (seq (S k) n)).
        -- apply filter_agree. intros j Hj.
           apply elem_of_seq in Hj. rewrite elem_of_cons. split; [|auto].
           intros [->|H]; [lia | exact H].
        -- apply IH; [exact Hrest|]. eapply Forall_impl; [exact Hlt'|]. simpl. intros; lia.
      * destruct (decide (k ∈ i :: rest)) as [Hin|_].
        -- exfalso. apply elem_of_cons in Hin. destruct Hin as [->|Hin]; [congruence|].
           pose proof (Hge (S i) Hrest) as Hall. rewrite Forall_forall in Hall.
           specialize (Hall k Hin). lia.
        -- apply (IH (S k) (i :: rest)).
           ++ split; [lia | exact Hrest].
           ++ constructor; [lia|]. eapply Forall_impl; [exact Hlt'|]. simpl. intros; lia.
Qed.

(** Picking the lines of a selection that the listbox can give. *)
Lemma pick_valid (symptoms : list string) (sel : list nat) :
  Forall (fun i => (i < length symptoms)%nat) sel ->
  exists chosen,
    pick symptoms sel = Some chosen
    /\ length chosen = length sel
    /\ forall s, s ∈ chosen <-> exists i, i ∈ sel /\ symptoms !! i = Some s.
Proof.
  induction 1 as [|i rest Hi Hrest IH].
  - exists []. split; [reflexivity|]. split; [reflexivity|].
    intros s. split; [intros Hs; inversion Hs | intros (i & Hi & _); inversion Hi].
  - destruct IH as (chosen & Hpick & Hlen & Hmem).
    destruct (lookup_lt_is_Some_2 symptoms i Hi) as [s Hs].
    exists (s :: chosen). simpl. rewrite Hs, Hpick. split; [reflexivity|].
    split; [simpl; rewrite Hlen; reflexivity|].
    intros s'. rewrite elem_of_cons, Hmem. split.
    + intros [->|(j & Hj & Hjs)]; [exists i | exists j]; split; auto; constructor; auto.
    + intros (j & Hj & Hjs). apply elem_of_cons in Hj. destruct Hj as [->|Hj].
      * left. congruence.
      * right. eauto.
Qed.

End ScreenFacts.

Section ScreenExtras.

Import Str PatientData Hospital HospitalExamples PatientInfo SymptomsUi ScreenExamples.
Import ScreenFacts.

(** X23.  Allergies.  When the patient's allergies are all different as
    the screen opens, the listbox and the list behind it stay in step
    whatever is typed, added and removed, in any order, and the list
    never holds an allergy twice; an allergy that was added is stripped
    and not empty. *)
Theorem allergies_stay_in_step (p : Patient) (insurance_list : list (string * string))
    (actions : list allergy_action) :
  NoDup (p_allergies p) ->
  in_step (fold_left allergy_step actions (info_init p insurance_list))
  /\ Forall (fun a => a ∈ p_allergies p \/ (strip a = a /\ a <> ""%string))
       (allergies_list (fold_left allergy_step actions (info_init p insurance_list))).
Proof.
  intros Hnd.
  set (Q := fun s : PatientInfoScreen =>
              in_step s
              /\ Forall (fun a => a ∈ p_allergies p \/ (strip a = a /\ a <> ""%string))
                   (allergies_list s)).
  assert (Hstep : forall s a, Q s -> Q (allergy_step s a)).
  { intros s a [Hin Hall]. split; [apply allergy_step_in_step; exact Hin|].
    destruct a as [text| |selection]; simpl.
    - exact Hall.
    - unfold add_allergy.
      destruct (String.eqb_spec (strip (allergy_entry s)) "") as [E|E]; [exact Hall|].
      case_bool_decide; simpl; [exact Hall|].
      apply Forall_app. split; [exact Hall|]. constructor; [|constructor].
      right. split; [apply strip_idem | exact E].
    - unfold remove_allergy. destruct selection as [|index rest]; [exact Hall|].
      destruct (allergies_list s !! index) as [x|] eqn:Hx; [|exact Hall].
      simpl. destruct Hin as [_ Hnd']. rewrite (list_remove_delete _ index x Hnd' Hx).
      apply Forall_delete. exact Hall. }
  assert (Hrun : forall acts s, Q s -> Q (fold_left allergy_step acts s)).
  { induction acts as [|a rest IH]; intros s Hs; [exact Hs|]. simpl. apply IH, Hstep, Hs. }
  apply Hrun. split; [split; [reflexivity | exact Hnd]|].
  simpl. apply Forall_forall. intros a Ha. left. exact Ha.
Qed.

Lemma allergies_stay_in_step_witness :
  in_step (fold_left allergy_step allergy_session (info_init ann companies))
  /\ Forall (fun a => a ∈ p_allergies ann \/ (strip a = a /\ a <> ""%string))
       (allergies_list (fold_left allergy_step allergy_session (info_init ann companies))).
Proof.
  apply (allergies_stay_in_step ann companies allergy_session).
  apply (bool_decide_unpack _). vm_compute. exact I.
Defined.

(** X24.  Opening the patient information screen and saving it without
    touching the insurance dropdown keeps the patient's insurance id,
    whether the save goes through or not, when the company names,
    stripped, are all different. *)
Theorem insurance_survives_untouched_save (validate_dob_format validate_zip_format :
    string -> bool) (p : Patient) (insurance_list : list (string * string)) :
  NoDup (map (fun item => strip (snd item)) insurance_list) ->
  p_insurance
    (fst (fst (save_patient_info validate_dob_format validate_zip_format
                 (info_init p insurance_list) p)))
  = p_insurance p.
Proof.
  intros Hnd. unfold save_patient_info.
  destruct (negb _ && negb _); [reflexivity|].
  destruct (negb _ && negb _); [reflexivity|].
  cbn [fst p_insurance].
  unfold info_init, preselect_insurance.
  destruct (truthy (p_insurance p)) eqn:Ht; cbn [negb].
  - apply CalendarFacts.truthy_Some in Ht. destruct Ht as (id & Hid & Hne).
    rewrite Hid. cbn [str].
    destruct (List.find (fun item => bool_decide (item.1 = id)) insurance_list)
      as [[id' name]|] eqn:Hf.
    + apply find_item in Hf. destruct Hf as [Hin Hb].
      apply bool_decide_eq_true_1 in Hb. simpl in Hb. subst id'.
      rewrite (saved_insurance_of_item _ p id name); [|exact Hnd|exact Hin|reflexivity].
      case_bool_decide; [reflexivity | exact Hid].
    + unfold saved_insurance. cbn [insurance_var]. exact Hid.
  - reflexivity.
Qed.

Lemma insurance_survives_untouched_save_witness :
  p_insurance
    (fst (fst (save_patient_info (fun _ => true) (fun _ => true) (info_init ann companies) ann)))
  = p_insurance ann.
Proof.
  apply (insurance_survives_untouched_save (fun _ => true) (fun _ => true) ann companies).
  apply (bool_decide_unpack _). vm_compute. exact I.
Defined.

(** X25.  Choosing a company and saving.  When the names, stripped, are
    all different, and the date of birth and the zip code are empty or
    valid, saving after the company of an item was chosen stores the id
    of that item, provided its name is not empty and has no white space
    around it; the name of any other item is not found again, and the
    patient keeps the insurance stored before. *)
Theorem chosen_insurance_is_saved (validate_dob_format validate_zip_format : string -> bool)
    (self : PatientInfoScreen) (p : Patient) (id name : string) :
  NoDup (map (fun item => strip (snd item)) (insurance_list self)) ->
  In (id, name) (insurance_list self) ->
  strip (dob_entry self) = ""%string \/ validate_dob_format (strip (dob_entry self)) = true ->
  strip (zip_entry self) = ""%string \/ validate_zip_format (strip (zip_entry self)) = true ->
  p_insurance
    (fst (fst (save_patient_info validate_dob_format validate_zip_format
                 (choose_insurance self name) p)))
  = if bool_decide (strip name = name /\ name <> ""%string) then Some id else p_insurance p.
Proof.
  intros Hnd Hin Hdob Hzip. unfold save_patient_info.
  cbn [choose_insurance dob_entry zip_entry].
  assert (E1 : negb (String.eqb (strip (dob_entry self)) "")
               && negb (validate_dob_format (strip (dob_entry self))) = false).
  { destruct Hdob as [->| ->]; [reflexivity | apply andb_false_r]. }
  assert (E2 : negb (String.eqb (strip (zip_entry self)) "")
               && negb (validate_zip_format (strip (zip_entry self))) = false).
  { destruct Hzip as [->| ->]; [reflexivity | apply andb_false_r]. }
  rewrite E1, E2. cbn [fst p_insurance].
  apply saved_insurance_of_item; [exact Hnd | exact Hin | reflexivity].
Qed.

Lemma chosen_insurance_is_saved_witness :
  p_insurance
    (fst (fst (save_patient_info (fun _ => true) (fun _ => true)
                 (choose_insurance (info_init ann companies) "Blue Shield") ann)))
  = if bool_decide (strip "Blue Shield" = "Blue Shield"%string /\ "Blue Shield"%string <> ""%string)
    then Some "INS2"%string else p_insurance ann.
Proof.
  apply (chosen_insurance_is_saved (fun _ => true) (fun _ => true)
           (info_init ann companies) ann "INS2" "Blue Shield").
  - apply (bool_decide_unpack _). vm_compute. exact I.
  - simpl. auto.
  - right. reflexivity.
  - right. reflexivity.
Defined.

(** X26.  Symptoms.  What is selected in a category and saved is
    selected again when the category is opened later, another category
    having been looked at in between, provided the symptoms of the
    category are all different; saving a category leaves what was saved
    for the others. *)
Theorem reopening_restores_selection (self : SymptomsScreen) (category other : string)
    (symptoms : list string) (selection : list nat) :
  all_symptom_data self !! category = Some symptoms ->
  category <> ""%string ->
  NoDup symptoms ->
  valid_selection symptoms selection ->
  let opened := fst (open_symptom_page self category) in
  let saved := fst (fst (save_current_category_selections (user_selects opened selection))) in
  let again := fst (open_symptom_page (fst (open_symptom_page saved other)) category) in
  symptom_listbox again = symptoms
  /\ listbox_selection again = selection
  /\ pick symptoms selection = selected_symptoms saved !! category
  /\ forall c, c <> category -> selected_symptoms saved !! c = selected_symptoms self !! c.
Proof.
  intros Hall Hne Hnd [Hasc Hlt]. cbv zeta.
  destruct (pick_valid symptoms selection Hlt) as (chosen & Hpick & _ & Hmem).
  assert (Hsaved :
    fst (fst (save_current_category_selections
                (user_selects (fst (open_symptom_page self category)) selection)))
    = {| all_symptom_data := all_symptom_data self;
         selected_symptoms := <[ category := chosen ]> (selected_symptoms self);
         current_category := Some category;
         symptom_title := "Symptoms: " +:+ category;
         symptom_listbox := symptoms;
         listbox_selection := selection |}).
  { unfold open_symptom_page. rewrite Hall.
    unfold save_current_category_selections, user_selects.
    cbn [fst current_category all_symptom_data selected_symptoms symptom_title
         symptom_listbox listbox_selection truthy str].
    destruct (String.eqb_spec category ""); [contradiction|]. cbn [negb].
    rewrite Hall, Hpick. reflexivity. }
  rewrite Hsaved.
  assert (Hother : forall s, all_symptom_data (fst (open_symptom_page s other)) = all_symptom_data s
                            /\ selected_symptoms (fst (open_symptom_page s other))
                               = selected_symptoms s).
  { intros s. unfold open_symptom_page.
    destruct (all_symptom_data s !! other); split; reflexivity. }
  match goal with
  | |- context [open_symptom_page ?sv other] =>
      destruct (Hother sv) as [Ha Hs]; set (s3 := fst (open_symptom_page sv other)) in *
  end.
  unfold open_symptom_page. rewrite Ha, Hs.
  cbn [all_symptom_data selected_symptoms]. rewrite Hall, lookup_insert_eq.
  cbn [fst symptom_listbox listbox_selection].
  change (default [] (Some chosen)) with chosen.
  split; [reflexivity|]. split.
  - rewrite (select_previous_filter symptoms chosen selection 0).
    + apply filter_ascending; [exact Hasc | exact Hlt].
    + intros j s Hj. rewrite Hmem. simpl. split.
      * intros (i & Hi & His).
        rewrite (NoDup_lookup symptoms j i s Hnd Hj His). exact Hi.
      * intros Hjs. eauto.
  - split; [exact Hpick|]. intros c Hc. apply lookup_insert_ne. congruence.
Qed.

Lemma reopening_restores_selection_witness :
  let opened := fst (open_symptom_page (symptoms_init symptom_data) "Respiratory") in
  let saved := fst (fst (save_current_category_selections (user_selects opened [0; 2]%nat))) in
  let again := fst (open_symptom_page (fst (open_symptom_page saved "Skin")) "Respiratory") in
  symptom_listbox again = ["Cough"; "Wheezing"; "Shortness of breath"]%string
  /\ listbox_selection again = [0; 2]%nat
  /\ pick ["Cough"; "Wheezing"; "Shortness of breath"]%string [0; 2]%nat
     = selected_symptoms saved !! "Respiratory"%string
  /\ forall c, c <> "Respiratory"%string ->
       selected_symptoms saved !! c = selected_symptoms (symptoms_init symptom_data) !! c.
Proof.
  apply (reopening_restores_selection (symptoms_init symptom_data) "Respiratory" "Skin"
           ["Cough"; "Wheezing"; "Shortness of breath"]%string [0; 2]%nat).
  - reflexivity.
  - discriminate.
  - apply (bool_decide_unpack _). vm_compute. exact I.
  - split; [simpl; lia | repeat constructor].
Defined.

End ScreenExtras.

(* ===================================================================== *)
(** ** Opening a calendar, and what its tooltips promise                  *)
(* ===================================================================== *)

Module OpeningFacts.

Import Num Str Calendar Spec Ledger CalendarUi NumFacts CalendarFacts BookingFacts.
Import CalendarUiFacts.

(** With a doctor selected, the month is drawn on any grid of six by
    seven in which the days fit. *)
Lemma render_drawn (self : CalendarApp) (ui : Ui) (fw nd : nat) (today : date) :
  truthy (selected_doctor_id self) = true ->
  six_by_seven (day_buttons ui) ->
  (fw < 7)%nat -> (fw + nd <= 42)%nat ->
  exists ui',
    _render_month self ui fw nd today = Drawn ui'
    /\ six_by_seven (day_buttons ui')
    /\ header_label ui' = header_label ui.
Proof.
  intros Hsel Hg Hfw Hfit. unfold _render_month. rewrite Hsel. cbn [negb].
  rewrite (reset_cells_spec _ Hg).
  pose proof (six_by_seven_map reset_button _ Hg) as Hg0.
  destruct (place_days_spec self (str (selected_doctor_id self)) today nd 1 0 fw _ Hg0 Hfw)
    as (g' & Hplace & Hg' & _); [lia|].
  rewrite Hplace. eexists. split; [reflexivity|]. split; [exact Hg' | reflexivity].
Qed.

Lemma build_ui_six_by_seven : six_by_seven (day_buttons _build_ui).
Proof. split; [reflexivity | repeat constructor]. Qed.

End OpeningFacts.

Section OpeningExtras.

Import Num Str Calendar Spec Ledger CalendarUi PatientData Examples MoreExamples.
Import NumFacts CalendarFacts BookingFacts CalendarUiFacts OpeningFacts.
Local Open Scope Q_scope.

#[local] Arguments Qcompare : simpl never.
#[local] Arguments _get_remaining_units : simpl never.

(** X27.  A calendar that has a doctor shows the month.  When
    [__init__] finds a doctor id that is not empty, it draws the month and
    selects that id;
    [launch_calendar] with an id that is not empty selects that id, with
    the patient id it is given and an empty patient name, and draws the
    month as well.  Neither runs out of the grid, whatever the first
    weekday and the length of the month. *)
Theorem opening_draws_the_month (availability : list AvailRow) (appts : list ApptRow)
    (items : list (string * string)) (fw nd : nat) (today : date) :
  (fw < 7)%nat -> (fw + nd <= 42)%nat ->
  (forall doctor patient callback,
     truthy (init_doctor_id items doctor) = true ->
     exists ui,
       snd (init availability appts items doctor patient callback fw nd today) = Drawn ui
       /\ six_by_seven (day_buttons ui)
       /\ selected_doctor_id (fst (init availability appts items doctor patient callback
                                     fw nd today))
          = init_doctor_id items doctor)
  /\ (forall doctor_id patient_id,
        doctor_id <> ""%string ->
        exists ui,
          snd (launch_calendar availability appts items doctor_id patient_id fw nd today)
          = Drawn ui
          /\ six_by_seven (day_buttons ui)
          /\ header_label ui
             = ("December 2025 — " +:+ default doctor_id (names_of items !! doctor_id))%string
          /\ selected_doctor_id
               (fst (launch_calendar availability appts items doctor_id patient_id fw nd today))
             = Some doctor_id
          /\ selected_patient_id
               (fst (launch_calendar availability appts items doctor_id patient_id fw nd today))
             = patient_id
          /\ patient_name
               (fst (launch_calendar availability appts items doctor_id patient_id fw nd today))
             = Some ""%string).
Proof.
  intros Hfw Hfit. split.
  - intros doctor patient callback Hsel.
    unfold init. cbn [init_attrs selected_doctor_id]. rewrite Hsel.
    unfold set_context. cbn [fst snd].
    apply CalendarFacts.truthy_Some in Hsel. destruct Hsel as (id & Hid & Hne).
    rewrite Hid. cbn [str].
    match goal with
    | |- context [_render_month ?s ?u fw nd today] =>
        destruct (render_drawn s u fw nd today) as (ui' & Hr & Hg & _);
          [| apply build_ui_six_by_seven | exact Hfw | exact Hfit |]
    end.
    + simpl. destruct (String.eqb_spec id ""); [contradiction | reflexivity].
    + exists ui'. split; [exact Hr|]. split; [exact Hg | reflexivity].
  - intros doctor_id patient_id Hne.
    unfold launch_calendar, set_context. cbn [fst snd].
    match goal with
    | |- context [_render_month ?s ?u fw nd today] =>
        destruct (render_drawn s u fw nd today) as (ui' & Hr & Hg & Hh);
          [| apply build_ui_six_by_seven | exact Hfw | exact Hfit |]
    end.
    + simpl. destruct (String.eqb_spec doctor_id ""); [contradiction | reflexivity].
    + exists ui'. split; [exact Hr|]. split; [exact Hg|]. split; [rewrite Hh; reflexivity|].
      repeat split.
Qed.

Lemma opening_draws_the_month_witness :
  exists ui,
    snd (launch_calendar availability [] doctor_items "D002" None 0 31 dec10) = Drawn ui
    /\ six_by_seven (day_buttons ui)
    /\ header_label ui
       = ("December 2025 — " +:+ default "D002" (names_of doctor_items !! "D002"))%string
    /\ selected_doctor_id
         (fst (launch_calendar availability [] doctor_items "D002" None 0 31 dec10))
       = Some "D002"%string
    /\ selected_patient_id
         (fst (launch_calendar availability [] doctor_items "D002" None 0 31 dec10))
       = None
    /\ patient_name
         (fst (launch_calendar availability [] doctor_items "D002" None 0 31 dec10))
       = Some ""%string.
Proof.
  apply (proj2 (opening_draws_the_month availability [] doctor_items 0 31 dec10
                  ltac:(lia) ltac:(lia)) "D002" None).
  discriminate.
Defined.

(** X28.  The tooltip keeps its word.  When the tooltip of a day says
    that r units are left, a request for that day of 30, 45 or 60
    minutes, with a file that can be written, is booked exactly when the
    units of the duration do not exceed r. *)
Theorem tooltip_tells_what_can_be_booked (self : CalendarApp) (disk : Disk) (env : Env)
    (d : date) (D : Z) (doctor_id notes : string) (r cost : Q) :
  selected_doctor_id self = Some doctor_id ->
  doctor_id <> ""%string ->
  tip (_get_day_info self doctor_id d) = TipAvailable r notes ->
  unit_cost D = Some cost ->
  disk_ok env = true ->
  (exists a, res_outcome (_try_book self disk env d D) = Committed a) <-> cost <= r.
Proof.
  intros Hsel Hne Htip Hcost Hdisk.
  unfold _get_day_info in Htip.
  pose proof (avail_rows_cases (availability_df self) doctor_id d) as Hrows.
  destruct (lookup (availability_df self) doctor_id d) as [rec|] eqn:Hlk.
  2: { rewrite Hrows in Htip. discriminate. }
  destruct Hrows as [rest Hrows]. rewrite Hrows in Htip.
  destruct (av_IsAvailable rec) eqn:Hav; cbn [negb] in Htip; [|discriminate].
  destruct (Qle_bool _ 0); [discriminate|]. cbn [tip] in Htip.
  injection Htip as Hr _.
  assert (Hff : first_failure self d D
                = if Qlt_le_dec (remainingUnits (av_DailyCapacityUnits rec)
                                   (bookedUnitsFor (appts_df self) doctor_id d)) cost
                  then Some InsufficientCapacity else None).
  { unfold first_failure. rewrite Hsel.
    destruct (decide (doctor_id = ""%string)); [contradiction|].
    rewrite Hlk, Hav, Hcost. reflexivity. }
  pose proof (get_remaining_units_spec self doctor_id d (av_DailyCapacityUnits rec)) as Hspec.
  rewrite Hr in Hspec.
  destruct (Qlt_le_dec _ cost) as [Hlt|Hge].
  - split; [|intros Hle; lra].
    intros [a Ha].
    destruct (try_book_rejected self disk env d D _ Hff) as (ev & E & _).
    rewrite E in Ha. discriminate.
  - split; [intros _; lra|]. intros _.
    destruct (try_book_passed self disk env d D Hff)
      as (doc & rec' & cost' & a & _ & _ & _ & _ & _ & _ & _ & _ & _ & _ & _ & _ & _ & Hd).
    rewrite Hdisk in Hd. destruct Hd as (E & _). eauto.
Qed.

Lemma tooltip_tells_what_can_be_booked_witness :
  (exists a, res_outcome (_try_book app0 disk0 env_a dec10 60) = Committed a) <-> 2.0 <= 2.00.
Proof.
  apply (tooltip_tells_what_can_be_booked app0 disk0 env_a dec10 60 "D001" "" 2.00 2.0);
    [reflexivity | discriminate | reflexivity | reflexivity | reflexivity].
Defined.

End OpeningExtras.

(* ===================================================================== *)
(** ** Doubles: rounding                                                  *)
(* ===================================================================== *)

Module DoubleFacts.

Import Num Str Calendar Billing Spec Binary64 Doubles NumFacts CalendarFacts.
Local Open Scope Q_scope.

#[local] Arguments Qcompare : simpl never.

(** *** Powers of two *)





(** *** The binary exponent *)





#[global] Instance ilog2_comp : Proper (Qeq ==> eq) ilog2.
Proof.
  intros x y E. unfold ilog2.
  assert (E1 : Qle_bool 1 x = Qle_bool 1 y) by (rewrite E; reflexivity).
  rewrite E1, (Qfloor_comp x y E).
  assert (E2 : / x == / y) by (rewrite E; reflexivity).
  rewrite (Qceiling_comp _ _ E2). reflexivity.
Qed.

#[global] Instance ulp_exponent_comp : Proper (Qeq ==> eq) ulp_exponent.
Proof.
  intros x y E. unfold ulp_exponent.
  assert (E1 : Qabs x == Qabs y) by (rewrite E; reflexivity).
  rewrite (ilog2_comp _ _ E1). reflexivity.
Qed.

#[global] Instance rnd_comp : Proper (Qeq ==> Qeq) rnd.
Proof.
  intros x y E. unfold rnd.
  assert (E1 : Qeq_bool x 0 = Qeq_bool y 0) by (rewrite E; reflexivity).
  rewrite E1, (ulp_exponent_comp x y E).
  destruct (Qeq_bool y 0); [reflexivity|].
  cbv zeta.
  assert (E2 : x / pow2 (ulp_exponent y) == y / pow2 (ulp_exponent y))
    by (rewrite E; reflexivity).
  rewrite (round_half_even_comp _ _ E2). reflexivity.
Qed.



(** *** Where rounding changes nothing *)







(** *** Rounding is near *)



(** *** Days on which doubles compute exactly *)

#[local] Arguments Binary64._get_remaining_units : simpl never.
#[local] Arguments Calendar._get_remaining_units : simpl never.










(** *** Doubles that are well known *)

(** 0.1 and 0.1 + 0.2 as doubles, the two famous cases of [round], and
    the first integer that is no double. *)
Example doubles_known_values :
  rnd 0.1 == 3602879701896397 # 36028797018963968
  /\ fadd (rnd 0.1) (rnd 0.2) == 1351079888211149 # 4503599627370496
  /\ fround2 (rnd 2.675) == rnd 2.67
  /\ fround2 0.125 == rnd 0.12
  /\ rnd (inject_Z (2 ^ 53 + 1)) == inject_Z (2 ^ 53).
Proof. repeat split; vm_compute; reflexivity. Qed.

End DoubleFacts.

(* ===================================================================== *)
(** ** Capacity on doubles                                                *)
(* ===================================================================== *)

Module DoubleBookingFacts.

Import Num Str Calendar Spec Ledger Binary64 Doubles NumFacts CalendarFacts BookingFacts
  DoubleFacts.
Local Open Scope Q_scope.

#[local] Arguments Qcompare : simpl never.
#[local] Arguments Binary64._get_remaining_units : simpl never.
#[local] Arguments Calendar._get_remaining_units : simpl never.

(** A request that is not rejected, on doubles: the row it appends, and
    how the flow ends. *)
Lemma try_book64_appended (self : CalendarApp) (disk : Disk) (env : Env) (d : date) (D : Z) :
  appended (res_outcome (Binary64._try_book self disk env d D)) = true ->
  exists doctor_id cost a,
    selected_doctor_id self = Some doctor_id
    /\ unit_cost D = Some cost
    /\ ap_DoctorID a = doctor_id /\ ap_AppointmentDate a = Some d
    /\ ap_Status a = "Booked"%string /\ ap_Units a = cost
    /\ res_app (Binary64._try_book self disk env d D)
       = set_appts_df self (appts_df self ++ [a])
    /\ if disk_ok env then
         res_outcome (Binary64._try_book self disk env d D) = Committed a
       else
         res_outcome (Binary64._try_book self disk env d D) = PersistenceError
         /\ res_events (Binary64._try_book self disk env d D) = [DialogDestroy].
Proof.
  unfold Binary64._try_book.
  destruct (selected_doctor_id self) as [doctor_id|] eqn:Hsel; cbn [truthy negb str];
    [|discriminate].
  destruct (String.eqb_spec doctor_id ""); cbn [negb]; [discriminate|].
  destruct (List.filter (avail_match doctor_id d) (availability_df self)) as [|rec rest];
    [discriminate|].
  destruct (av_IsAvailable rec); cbn [negb]; [|discriminate].
  rewrite DURATION_TO_UNITS_unit_cost.
  destruct (unit_cost D) as [cost|]; [|discriminate].
  destruct (Binary64._get_remaining_units self doctor_id d (av_DailyCapacityUnits rec) ?= cost);
    [|discriminate|];
    (intros _; exists doctor_id, cost;
     destruct (disk_ok env); cbn [negb]; eexists;
     repeat match goal with |- _ /\ _ => split end;
     try reflexivity; reflexivity).
Qed.

End DoubleBookingFacts.

Section DoubleBookingClaims.

Import Num Str Calendar Spec Ledger Examples MoreExamples Binary64 Doubles DoubleExamples.
Import NumFacts CalendarFacts BookingFacts DoubleFacts DoubleBookingFacts.
Local Open Scope Q_scope.

#[local] Arguments Qcompare : simpl never.
#[local] Arguments Binary64._get_remaining_units : simpl never.
#[local] Arguments Calendar._get_remaining_units : simpl never.







(** X3.  When a request is not rejected and the file cannot be written,
    the flow ends in the error of [save_appointments], before the
    callback and the "Booked" box; yet the row has been appended to the
    ledger in memory, where it counts for the day from then on. *)
Theorem save_failure_keeps_row_in_memory (self : CalendarApp) (disk : Disk) (env : Env)
    (d : date) (D : Z) (doctor_id : string) :
  appended (res_outcome (Binary64._try_book self disk env d D)) = true ->
  disk_ok env = false ->
  selected_doctor_id self = Some doctor_id ->
  res_outcome (Binary64._try_book self disk env d D) = PersistenceError
  /\ res_events (Binary64._try_book self disk env d D) = [DialogDestroy]
  /\ exists a cost,
       appts_df (res_app (Binary64._try_book self disk env d D)) = appts_df self ++ [a]
       /\ unit_cost D = Some cost /\ ap_Units a = cost
       /\ counts_for doctor_id d a
       /\ booked_count (appts_df (res_app (Binary64._try_book self disk env d D)))
            doctor_id d
          = S (booked_count (appts_df self) doctor_id d).
Proof.
  intros Happ Hdisk Hsel.
  destruct (try_book64_appended self disk env d D Happ)
    as (doc & cost & a & Hsel' & Hcost & Ha1 & Ha2 & Ha3 & Ha4 & Hres & Hend).
  rewrite Hsel in Hsel'. injection Hsel' as <-.
  rewrite Hdisk in Hend. destruct Hend as [Hout Hev].
  split; [exact Hout|]. split; [exact Hev|].
  assert (Hcounts : counts_for doctor_id d a).
  { unfold counts_for, is_booked. rewrite Ha3. auto. }
  exists a, cost. rewrite Hres. cbn [appts_df set_appts_df].
  split; [reflexivity|]. split; [exact Hcost|]. split; [exact Ha4|].
  split; [exact Hcounts|].
  unfold booked_count. rewrite (filter_snoc_same _ _ _ _ Hcounts).
  rewrite length_app. simpl. lia.
Qed.

(** Sixty minutes on 10 December with a file that cannot be written. *)
Lemma save_failure_keeps_row_in_memory_witness :
  res_outcome (Binary64._try_book app0 disk0 env_readonly dec10 60) = PersistenceError
  /\ res_events (Binary64._try_book app0 disk0 env_readonly dec10 60) = [DialogDestroy]
  /\ exists a cost,
       appts_df (res_app (Binary64._try_book app0 disk0 env_readonly dec10 60))
       = appts_df app0 ++ [a]
       /\ unit_cost 60 = Some cost /\ ap_Units a = cost
       /\ counts_for "D001" dec10 a
       /\ booked_count (appts_df (res_app (Binary64._try_book app0 disk0 env_readonly dec10 60)))
            "D001" dec10
          = S (booked_count (appts_df app0) "D001" dec10).
Proof.
  apply (save_failure_keeps_row_in_memory app0 disk0 env_readonly dec10 60 "D001").
  - vm_compute. reflexivity.
  - reflexivity.
  - reflexivity.
Defined.

End DoubleBookingClaims.

(* ===================================================================== *)
(** ** The estimate on doubles                                            *)
(* ===================================================================== *)

Module DoubleBillingFacts.

Import Num Str Billing Spec Binary64 Doubles BillingFacts DoubleFacts.
Local Open Scope Q_scope.



End DoubleBillingFacts.

Section DoubleBillingClaims.

Import Num Str Billing Spec Examples Binary64 Doubles DoubleExamples.
Import BillingFacts DoubleFacts DoubleBillingFacts.
Local Open Scope Q_scope.




End DoubleBillingClaims.
